(** * Offline currency converter: a shallow embedding and its properties

    The development follows [offline_currency_converter_en.py].  Values
    that the program reads from JSON are modelled by [pyval]; Python
    exceptions by [exn]; a computation that may raise by [result].
    Floats are Rocq's primitive binary64 floats, integers are [Z].

    The order of the file is: data model, Python primitives, the
    functions of the program in source order, the vocabulary of the
    specification and sample data, the interactive part (the two
    prompts, the loop of [main] and the exit status), then the
    theorems.  The progress animation [show_progress] and the banner
    lines of [main] are not embedded; no property below depends on
    them. *)

From Stdlib Require Import ZArith String Ascii List Bool Lia Floats.
Import ListNotations.
Set Warnings "-inexact-float,-register-all".

Local Open Scope string_scope.
Local Open Scope Z_scope.
Local Open Scope list_scope.

(** ** Python values *)

(** What [json.load] and [response.json()] can return.  A [dict] keeps
    its insertion order, so it is an association list; lookups take the
    first binding of a key. *)
Inductive pyval : Type :=
| PNone
| PBool (b : bool)
| PInt (z : Z)
| PFloat (f : float)
| PStr (s : string)
| PList (l : list pyval)
| PDict (d : list (string * pyval)).

Definition dict := list (string * pyval).

Fixpoint dict_get (d : dict) (k : string) : option pyval :=
  match d with
  | [] => None
  | (k', v) :: t => if String.eqb k' k then Some v else dict_get t k
  end.

Definition dict_mem (d : dict) (k : string) : bool :=
  match dict_get d k with Some _ => true | None => false end.

(** [d[k] = v]: an existing key keeps its position, a new key goes last. *)
Fixpoint dict_set (d : dict) (k : string) (v : pyval) : dict :=
  match d with
  | [] => [(k, v)]
  | (k', v') :: t =>
      if String.eqb k' k then (k, v) :: t else (k', v') :: dict_set t k v
  end.

(** ** Formatted strings

    An f-string is kept as its sequence of pieces: literal text, a
    non-ASCII glyph (the three marks that open a status message and the
    arrow of the result line), interpolated values, and amounts printed
    with the [:,.2f] format. *)
Inductive glyph : Type := CheckMark | WarningSign | CrossMark | Arrow.

Inductive fpart : Type :=
| Lit (s : string)
| Sym (g : glyph)
| Fmt (v : pyval)
| FmtMoney (x : float).

Definition fstring := list fpart.

(** ** Exceptions and results *)

Inductive exn : Type :=
| ValueError (msg : fstring)
| KeyError (key : string)
| TypeError
| OverflowError
| ZeroDivisionError.

Inductive result (A : Type) : Type :=
| Ok (a : A)
| Raise (e : exn).
Arguments Ok {A} a.
Arguments Raise {A} e.

Definition bind {A B : Type} (c : result A) (k : A -> result B) : result B :=
  match c with
  | Ok a => k a
  | Raise e => Raise e
  end.

Notation "x <- c ;; k" := (bind c (fun x => k))
  (at level 61, c at next level, right associativity).

(** ** Python primitives used by the program *)

(** Truth value of an object, as tested by [if x] and [x if x else y]. *)
Definition py_truthy (v : pyval) : bool :=
  match v with
  | PNone => false
  | PBool b => b
  | PInt z => negb (z =? 0)
  | PFloat f => negb (PrimFloat.eqb f 0%float)
  | PStr s => negb (String.eqb s "")
  | PList l => match l with [] => false | _ => true end
  | PDict d => match d with [] => false | _ => true end
  end.

Definition is_substring (k s : string) : bool :=
  match index 0 k s with Some _ => true | None => false end.

(** [k in c] for a string [k]. *)
Definition py_in (k : string) (c : pyval) : result bool :=
  match c with
  | PDict d => Ok (dict_mem d k)
  | PList l =>
      Ok (existsb (fun v => match v with PStr s => String.eqb s k | _ => false end) l)
  | PStr s => Ok (is_substring k s)
  | _ => Raise TypeError
  end.

(** [c[k]] for a string [k]. *)
Definition py_getitem (c : pyval) (k : string) : result pyval :=
  match c with
  | PDict d =>
      match dict_get d k with
      | Some v => Ok v
      | None => Raise (KeyError k)
      end
  | _ => Raise TypeError
  end.

(** Numbers: [bool] is a subclass of [int]. *)
Inductive number : Type := NInt (z : Z) | NFloat (f : float).

Definition as_number (v : pyval) : option number :=
  match v with
  | PBool b => Some (NInt (if b then 1 else 0))
  | PInt z => Some (NInt z)
  | PFloat f => Some (NFloat f)
  | _ => None
  end.

(** [v <= 0] and [v > 0] against the integer literal. *)
Definition py_le0 (v : pyval) : result bool :=
  match as_number v with
  | Some (NInt z) => Ok (z <=? 0)
  | Some (NFloat f) => Ok (PrimFloat.leb f 0%float)
  | None => Raise TypeError
  end.

Definition py_gt0 (v : pyval) : result bool :=
  match as_number v with
  | Some (NInt z) => Ok (0 <? z)
  | Some (NFloat f) => Ok (PrimFloat.ltb 0%float f)
  | None => Raise TypeError
  end.

Definition Z2SF (z : Z) : spec_float :=
  match z with
  | Z0 => S754_zero false
  | Zpos p => S754_finite false p 0
  | Zneg p => S754_finite true p 0
  end.

(** [float(z)]: round to nearest even, [OverflowError] beyond the range. *)
Definition int_to_float (z : Z) : result float :=
  match binary_normalize prec emax z 0 false with
  | S754_infinity _ => Raise OverflowError
  | sf => Ok (SF2Prim sf)
  end.

(** [a / b] on two ints: the correctly rounded quotient. *)
Definition int_truediv (a b : Z) : result float :=
  if b =? 0 then Raise ZeroDivisionError
  else match SFdiv prec emax (Z2SF a) (Z2SF b) with
       | S754_infinity _ => Raise OverflowError
       | sf => Ok (SF2Prim sf)
       end.

Definition to_float (n : number) : result float :=
  match n with
  | NInt z => int_to_float z
  | NFloat f => Ok f
  end.

(** [a / b] (true division). *)
Definition py_truediv (a b : pyval) : result float :=
  match as_number a, as_number b with
  | Some (NInt x), Some (NInt y) => int_truediv x y
  | Some x, Some y =>
      fa <- to_float x ;;
      fb <- to_float y ;;
      if PrimFloat.eqb fb 0%float then Raise ZeroDivisionError
      else Ok (PrimFloat.div fa fb)
  | _, _ => Raise TypeError
  end.

(** [c[k] = v] on a string key. *)
Definition py_setitem (c : pyval) (k : string) (v : pyval) : result pyval :=
  match c with
  | PDict d => Ok (PDict (dict_set d k v))
  | _ => Raise TypeError
  end.

(** [a != b] where [b] is a string. *)
Definition py_ne_str (a : pyval) (b : string) : bool :=
  match a with
  | PStr s => negb (String.eqb s b)
  | _ => true
  end.

Definition is_dict (v : pyval) : bool :=
  match v with PDict _ => true | _ => false end.

(** [s.split('/')[-1]]: the text after the last slash. *)
Fixpoint last_segment_from (acc s : string) : string :=
  match s with
  | EmptyString => acc
  | String c rest =>
      if Ascii.eqb c "/"%char then last_segment_from "" rest
      else last_segment_from (acc ++ String c "")%string rest
  end.

Definition last_segment (s : string) : string := last_segment_from "" s.

(** ** Application configuration *)

Definition DB_FILE : string := "currency_rates.json".

Definition API_URLS : list string :=
  [ "https://api.exchangerate-api.com/v4/latest/USD";
    "https://api.exchangerate-api.com/v4/latest/EUR" ].

Definition MAX_AMOUNT : Z := 1000000000.

Definition CURRENCY_NAMES : list (string * string) :=
  [ ("USD", "US Dollar");
    ("EUR", "Euro");
    ("RUB", "Russian Ruble");
    ("UAH", "Ukrainian Hryvnia");
    ("GBP", "British Pound Sterling");
    ("JPY", "Japanese Yen");
    ("CNY", "Chinese Yuan");
    ("KZT", "Kazakhstani Tenge");
    ("BYN", "Belarusian Ruble");
    ("PLN", "Polish Zloty");
    ("CAD", "Canadian Dollar");
    ("AUD", "Australian Dollar");
    ("CHF", "Swiss Franc");
    ("CZK", "Czech Koruna");
    ("SEK", "Swedish Krona");
    ("NOK", "Norwegian Krone");
    ("MXN", "Mexican Peso");
    ("SGD", "Singapore Dollar");
    ("HKD", "Hong Kong Dollar");
    ("NZD", "New Zealand Dollar");
    ("ILS", "Israeli Shekel");
    ("KRW", "South Korean Won") ].

Definition test_urls : list string :=
  [ "https://api.exchangerate-api.com";
    "https://www.google.com";
    "https://www.cloudflare.com" ].

Definition required_fields : list string := ["rates"; "base"; "date"].

(** ** The environment of a run

    Everything the program reads from outside: the network, the store
    file and the clock.  The clock counts the microseconds since the
    epoch; the zone gives the UTC offset, in seconds, that is in force
    at a second of the epoch.  A naive local [datetime] is represented
    by the microseconds of its wall-clock reading, counted as if it
    were UTC, so that subtracting two of them gives the [timedelta]
    directly. *)

Inductive response : Type :=
| RequestFailed          (* requests.exceptions.RequestException *)
| BadJson                (* json.JSONDecodeError *)
| JsonBody (data : pyval).

Inductive db_file : Type :=
| NoFile                 (* os.path.exists is False *)
| Unreadable             (* open or json.load raises *)
| Contents (data : pyval).

Record world : Type := {
  head_ok : string -> bool;         (* requests.head(url) returns *)
  http_get : string -> response;    (* requests.get + raise_for_status + json *)
  stored : db_file;                 (* the state of DB_FILE *)
  now_us : Z;                       (* the instant of the run, in microseconds *)
  utc_offset : Z -> Z;              (* local offset in force at a second *)
  date_str : string;                (* datetime.now().strftime of the locale *)
  float_timestamp : float -> result Z
                                    (* datetime.fromtimestamp on a float *)
}.

Inductive event : Type :=
| EvHead (url : string)
| EvReadDb
| EvGet (url : string)
| EvSave (data : pyval).

Definition us_per_second : Z := 1000000.
Definition us_per_day : Z := 86400 * us_per_second.

(** [int(time.time())]: the clock in seconds, truncated. *)
Definition time_time (w : world) : Z := Z.quot (now_us w) us_per_second.

(** The wall-clock reading of the epoch second [t], in seconds: what
    [localtime] gives, counted as if it were UTC. *)
Definition local_seconds (w : world) (t : Z) : Z := t + utc_offset w t.

(** [datetime.now()]: the wall-clock reading of the instant, with the
    offset of the second it falls in.  The instant of the run is taken
    inside the years that a [datetime] holds, where the call cannot
    fail. *)
Definition datetime_now (w : world) : Z :=
  now_us w + utc_offset w (now_us w / us_per_second) * us_per_second.

(** The wall-clock seconds of 0001-01-01 00:00:00 and of 9999-12-31
    23:59:59, the first and the last that a [datetime] holds. *)
Definition min_timestamp : Z := -62135596800.
Definition max_timestamp : Z := 253402300799.

Definition in_datetime_range (s : Z) : bool :=
  (min_timestamp <=? s) && (s <=? max_timestamp).

Definition max_fold_seconds : Z := 24 * 3600.

(** The conversions that [fromtimestamp] makes of a second [z]: [z]
    itself, then, to detect a repeated hour, the second one day earlier
    and, when the offset went down in that day, the second that lies
    before [z] by the size of the change.  Each reading must fall in the
    years 1 to 9999. *)
Definition readable (w : world) (z : Z) : bool :=
  let result_seconds := local_seconds w z in
  let probe_seconds := local_seconds w (z - max_fold_seconds) in
  let transition := result_seconds - probe_seconds - max_fold_seconds in
  in_datetime_range result_seconds
  && in_datetime_range probe_seconds
  && (if transition <? 0
      then in_datetime_range (local_seconds w (z + transition))
      else true).

(** [datetime.fromtimestamp(v)]: the naive local datetime of an integer
    second.  Out of the range Python raises [ValueError] (the year),
    [OverflowError] or [OSError] (the platform's [time_t]); no caller
    tells them apart and [OverflowError] stands for the three. *)
Definition fromtimestamp (w : world) (v : pyval) : result Z :=
  match as_number v with
  | Some (NInt z) =>
      if readable w z
      then Ok (local_seconds w z * us_per_second)
      else Raise OverflowError
  | Some (NFloat f) => float_timestamp w f
  | None => Raise TypeError
  end.

(** [timedelta.days]: the normalised day count, a floor. *)
Definition timedelta_days (delta_us : Z) : Z := delta_us / us_per_day.

(** ** The program *)

(** *** check_internet *)

(** The probe stops at the first host that answers. *)
Fixpoint check_internet_from (w : world) (urls : list string)
  : list event * bool :=
  match urls with
  | [] => ([], false)
  | url :: rest =>
      if head_ok w url then ([EvHead url], true)
      else let '(t, r) := check_internet_from w rest in (EvHead url :: t, r)
  end.

Definition check_internet (w : world) : list event * bool :=
  check_internet_from w test_urls.

(** *** validate_api_response *)

(** The loop over [required_fields]: the first field that is not in
    [data], if any. *)
Fixpoint first_missing (data : pyval) (fields : list string)
  : result (option string) :=
  match fields with
  | [] => Ok None
  | field :: rest =>
      present <- py_in field data ;;
      if negb present then Ok (Some field) else first_missing data rest
  end.

Definition validate_api_response (data : pyval) (expected_base : option string)
  : result (bool * fstring) :=
  missing <- first_missing data required_fields ;;
  match missing with
  | Some field =>
      Ok (false, [Lit "API response missing required field: "; Fmt (PStr field)])
  | None =>
      rates <- py_getitem data "rates" ;;
      if negb (is_dict rates)
      then Ok (false, [Lit "The 'rates' field must be a dictionary"])
      else
        match expected_base with
        | Some eb =>
            if negb (String.eqb eb "") then
              base <- py_getitem data "base" ;;
              if py_ne_str base eb
              then Ok (false, [Lit "Base currency "; Fmt base;
                               Lit " does not match expected "; Fmt (PStr eb)])
              else Ok (true, [Lit "Data is valid"])
            else Ok (true, [Lit "Data is valid"])
        | None => Ok (true, [Lit "Data is valid"])
        end
  end.

(** *** fetch_rates *)

(** The two assignments that stamp a validated response. *)
Definition stamp (w : world) (data : pyval) : result pyval :=
  data1 <- py_setitem data "date_fetched" (PStr (date_str w)) ;;
  py_setitem data1 "timestamp" (PInt (time_time w)).

(** One turn of the loop body: [Some] is the [return data], [None] is
    every way of going on to the next URL ([continue] after a failed
    validation, or one of the three [except] clauses). *)
Definition try_provider (w : world) (api_url : string) : option pyval :=
  let expected_base := last_segment api_url in
  match http_get w api_url with
  | RequestFailed => None
  | BadJson => None
  | JsonBody data =>
      match validate_api_response data (Some expected_base) with
      | Ok (true, _) =>
          match stamp w data with
          | Ok stamped => Some stamped
          | Raise _ => None
          end
      | Ok (false, _) => None
      | Raise _ => None
      end
  end.

Fixpoint fetch_rates_from (w : world) (urls : list string)
  : list event * option pyval :=
  match urls with
  | [] => ([], None)
  | api_url :: rest =>
      match try_provider w api_url with
      | Some data => ([EvGet api_url], Some data)
      | None =>
          let '(t, r) := fetch_rates_from w rest in (EvGet api_url :: t, r)
      end
  end.

Definition fetch_rates (w : world) : list event * option pyval :=
  fetch_rates_from w API_URLS.

(** *** load_db and save_db *)

Definition load_db (w : world) : list event * option pyval :=
  match stored w with
  | NoFile => ([], None)
  | Unreadable => ([EvReadDb], None)
  | Contents data =>
      match validate_api_response data None with
      | Ok (true, _) => ([EvReadDb], Some data)
      | Ok (false, _) => ([EvReadDb], None)
      | Raise _ => ([EvReadDb], None)
      end
  end.

(** The write itself is taken to succeed: the store file is overwritten
    with [data]. *)
Definition save_db (data : pyval) : list event := [EvSave data].

(** *** is_data_fresh *)

Definition is_data_fresh (w : world) (data : pyval) (max_days : Z)
  : result bool :=
  has_ts <- py_in "timestamp" data ;;
  if negb has_ts then Ok false
  else
    ts <- py_getitem data "timestamp" ;;
    data_date <- fromtimestamp w ts ;;
    Ok (timedelta_days (datetime_now w - data_date) <? max_days).

(** *** get_available_currencies *)

Fixpoint available_from (rates_data : pyval) (catalog : list (string * string))
  : result (list (string * string)) :=
  match catalog with
  | [] => Ok []
  | (code, name) :: rest =>
      rates <- py_getitem rates_data "rates" ;;
      present <- py_in code rates ;;
      keep <- (if present
               then rates' <- py_getitem rates_data "rates" ;;
                    rate <- py_getitem rates' code ;;
                    py_gt0 rate
               else Ok false) ;;
      available <- available_from rates_data rest ;;
      Ok (if keep then (code, name) :: available else available)
  end.

Definition get_available_currencies (rates_data : pyval)
  : result (list (string * string)) :=
  available_from rates_data CURRENCY_NAMES.

(** *** display_status_message *)

(** [None] is Python's [None]; a present object is tested for truth. *)
Definition truthy (o : option pyval) : bool :=
  match o with
  | Some v => py_truthy v
  | None => false
  end.

Definition subscript (o : option pyval) (k : string) : result pyval :=
  match o with
  | Some v => py_getitem v k
  | None => Raise TypeError
  end.

(** [(datetime.now() - datetime.fromtimestamp(db_data['timestamp'])).days] *)
Definition days_old_of (w : world) (db_data : option pyval) : result Z :=
  ts <- subscript db_data "timestamp" ;;
  data_date <- fromtimestamp w ts ;;
  Ok (timedelta_days (datetime_now w - data_date)).

Definition display_status_message (w : world) (internet_available : bool)
  (db_data fresh_data : option pyval) : result fstring :=
  if internet_available then
    if truthy fresh_data then
      d <- subscript fresh_data "date_fetched" ;;
      Ok [Sym CheckMark;
          Lit " Data successfully updated, exchange rates as of "; Fmt d; Lit "."]
    else if truthy db_data then
      days_old <- days_old_of w db_data ;;
      if 7 <? days_old then
        d <- subscript db_data "date_fetched" ;;
        Ok [Sym WarningSign;
            Lit " Data not updated, using outdated data (older than 7 days) as of ";
            Fmt d; Lit "."]
      else
        d <- subscript db_data "date_fetched" ;;
        Ok [Sym CheckMark;
            Lit " Data not updated, using current data as of "; Fmt d; Lit "."]
    else
      Ok [Sym CrossMark;
          Lit " No data available for display. Check internet connection."]
  else
    if truthy db_data then
      days_old <- days_old_of w db_data ;;
      if 7 <? days_old then
        d <- subscript db_data "date_fetched" ;;
        Ok [Sym WarningSign;
            Lit " No internet connection, using outdated data (older than 7 days) as of ";
            Fmt d; Lit "."]
      else
        d <- subscript db_data "date_fetched" ;;
        Ok [Sym CheckMark;
            Lit " No internet connection, using current data as of "; Fmt d; Lit "."]
    else
      Ok [Sym CrossMark;
          Lit " No internet connection and no local data available."].

(** *** perform_conversion *)

Definition msg_source_unavailable (src_code : string) : fstring :=
  [Lit "Source currency "; Fmt (PStr src_code);
   Lit " is not available in the data"].

Definition msg_target_unavailable (tgt_code : string) : fstring :=
  [Lit "Target currency "; Fmt (PStr tgt_code);
   Lit " is not available in the data"].

Definition msg_source_invalid (src_code : string) (src_rate : pyval) : fstring :=
  [Lit "Source currency rate "; Fmt (PStr src_code); Lit " is ";
   Fmt src_rate; Lit ", which is invalid"].

Definition msg_target_invalid (tgt_code : string) (tgt_rate : pyval) : fstring :=
  [Lit "Target currency rate "; Fmt (PStr tgt_code); Lit " is ";
   Fmt tgt_rate; Lit ", which is invalid"].

Definition perform_conversion (rates_data : pyval) (src_code tgt_code : string)
  (amount : float) : result float :=
  rates <- py_getitem rates_data "rates" ;;
  src_in <- py_in src_code rates ;;
  if negb src_in then Raise (ValueError (msg_source_unavailable src_code))
  else
    rates <- py_getitem rates_data "rates" ;;
    tgt_in <- py_in tgt_code rates ;;
    if negb tgt_in then Raise (ValueError (msg_target_unavailable tgt_code))
    else
      rates <- py_getitem rates_data "rates" ;;
      src_rate <- py_getitem rates src_code ;;
      rates <- py_getitem rates_data "rates" ;;
      tgt_rate <- py_getitem rates tgt_code ;;
      src_bad <- py_le0 src_rate ;;
      if src_bad
      then Raise (ValueError (msg_source_invalid src_code src_rate))
      else
        tgt_bad <- py_le0 tgt_rate ;;
        if tgt_bad
        then Raise (ValueError (msg_target_invalid tgt_code tgt_rate))
        else
          cross <- py_truediv tgt_rate src_rate ;;
          Ok (PrimFloat.mul amount cross).

(** *** main *)

(** Line 346: [fresh_data if fresh_data else db_data]. *)
Definition select_rates_data (fresh_data db_data : option pyval)
  : option pyval :=
  if truthy fresh_data then fresh_data else db_data.

(** The variables of [main] once the status message has been computed,
    with the effects on the network and on the store in their order. *)
Record startup : Type := {
  run_trace : list event;
  run_internet : bool;
  run_db_data : option pyval;
  run_fresh_data : option pyval;
  run_rates_data : option pyval;
  run_status : result fstring
}.

Definition main_startup (w : world) : startup :=
  let '(t_probe, internet_available) := check_internet w in
  let '(t_load, db_data) := load_db w in
  let '(t_fetch, fresh_data) :=
    if internet_available then
      let '(t, fresh) := fetch_rates w in
      match fresh with
      | Some data => if py_truthy data then (t ++ save_db data, fresh) else (t, fresh)
      | None => (t, fresh)
      end
    else ([], None) in
  let rates_data := select_rates_data fresh_data db_data in
  {| run_trace := t_probe ++ t_load ++ t_fetch;
     run_internet := internet_available;
     run_db_data := db_data;
     run_fresh_data := fresh_data;
     run_rates_data := rates_data;
     run_status := display_status_message w internet_available db_data fresh_data |}.

Definition required_currencies : list string := ["USD"; "EUR"; "RUB"].

(** The list comprehension of line 361. *)
Fixpoint missing_from (rates_data : pyval) (required : list string)
  : result (list string) :=
  match required with
  | [] => Ok []
  | curr :: rest =>
      rates <- py_getitem rates_data "rates" ;;
      present <- py_in curr rates ;;
      bad <- (if negb present then Ok true
              else rates' <- py_getitem rates_data "rates" ;;
                   rate <- py_getitem rates' curr ;;
                   py_le0 rate) ;;
      others <- missing_from rates_data rest ;;
      Ok (if bad then curr :: others else others)
  end.

(** How the start of [main] ends: one of the two [return False], or the
    interactive loop is entered with the active snapshot and the menu. *)
Inductive entry : Type :=
| NoData
| NoCurrencies
| Ready (rates_data : pyval) (missing_currencies : list string)
        (currencies : list (string * string)).

Definition main_entry (w : world) : result entry :=
  let s := main_startup w in
  _ <- run_status s ;;
  match run_rates_data s with
  | None => Ok NoData
  | Some rates_data =>
      if negb (py_truthy rates_data) then Ok NoData
      else
        missing_currencies <- missing_from rates_data required_currencies ;;
        currencies <- get_available_currencies rates_data ;;
        match currencies with
        | [] => Ok NoCurrencies
        | _ => Ok (Ready rates_data missing_currencies currencies)
        end
  end.

(** What one pass through the loop prints once the two currencies and
    the amount are chosen: the refusal of a same-currency request, or
    the output of the [try] block.  An exception raised inside the block
    is caught by its handler and reported. *)
Inductive line : Type :=
| Text (m : fstring)
| ConversionError (e : exn).

Definition separator : fstring := [Lit "=================================================="].

Definition convert_and_show (rates_data : pyval) (src tgt : string * string)
  (amount : float) : list line :=
  let '(src_code, src_name) := src in
  let '(tgt_code, tgt_name) := tgt in
  let failed (shown : list line) (e : exn) :=
    shown ++ [ConversionError e;
              Text [Lit "Try selecting different currencies or updating data."]] in
  if String.eqb src_code tgt_code then
    [Text [Sym WarningSign; Lit " You selected the same currency (";
           Fmt (PStr src_name); Lit ") for both source and target."];
     Text [Lit "No conversion is needed - the result will be the same as the source amount."];
     Text [Lit "Please select a different target currency."]]
  else
  match perform_conversion rates_data src_code tgt_code amount with
  | Raise e => failed [] e
  | Ok res =>
      let shown :=
        [Text separator;
         Text [Lit "Conversion result:"];
         Text [FmtMoney amount; Lit " "; Fmt (PStr src_name); Lit " (";
               Fmt (PStr src_code); Lit ")"];
         Text [Sym Arrow; Lit " "; FmtMoney res; Lit " "; Fmt (PStr tgt_name); Lit " (";
               Fmt (PStr tgt_code); Lit ")"]] in
      match py_getitem rates_data "date_fetched" with
      | Raise e => failed shown e
      | Ok d =>
          shown ++ [Text [Lit "Rates as of "; Fmt d];
                    Text separator;
                    Text [Lit "Great! The conversion is complete."]]
      end
  end.

(** The [__main__] block: exit status 0 only when [main] returns [True];
    an exception that leaves [main] is reported and gives status 1.  The
    start of [main] alone decides the status unless the loop is entered. *)
Definition exit_status_at_entry (w : world) : option Z :=
  match main_entry w with
  | Raise _ => Some 1
  | Ok NoData => Some 1
  | Ok NoCurrencies => Some 1
  | Ok (Ready _ _ _) => None
  end.

(** ** Vocabulary of the specification *)

(** The specification names two failures of a conversion.  In the
    program both are a [ValueError]; they differ by their message:
    [UnknownCurrency] is the error of lines 306 and 308, [InvalidRate]
    the error of lines 315 and 317. *)
Definition is_unknown_currency (e : exn) : bool :=
  match e with
  | ValueError [Lit p; Fmt (PStr _); Lit q] =>
      (String.eqb p "Source currency " || String.eqb p "Target currency ")
      && String.eqb q " is not available in the data"
  | _ => false
  end.

Definition is_invalid_rate (e : exn) : bool :=
  match e with
  | ValueError [Lit p; Fmt (PStr _); Lit i; Fmt _; Lit q] =>
      (String.eqb p "Source currency rate "
       || String.eqb p "Target currency rate ")
      && String.eqb i " is "
      && String.eqb q ", which is invalid"
  | _ => false
  end.

Definition fails_with {A : Type} (kind : exn -> bool) (r : result A) : bool :=
  match r with
  | Raise e => kind e
  | Ok _ => false
  end.

(** A code that is present in [rates] and resolves to a rate [<= 0]. *)
Definition rate_not_positive (rates : dict) (code : string) : bool :=
  match dict_get rates code with
  | Some v => match py_le0 v with Ok b => b | Raise _ => false end
  | None => false
  end.

(** A code that is present in [rates] with a rate [> 0]. *)
Definition rate_positive (rates : dict) (code : string) : bool :=
  match dict_get rates code with
  | Some v => match py_gt0 v with Ok b => b | Raise _ => false end
  | None => false
  end.

(** The data model of the specification types a rate as a float, and
    JSON also yields integers; these predicates say that every value of
    a rates mapping is a float, respectively a number. *)
Definition is_float (v : pyval) : bool :=
  match v with PFloat _ => true | _ => false end.

Definition is_number (v : pyval) : bool :=
  match as_number v with Some _ => true | None => false end.

Definition float_rates (rates : dict) : bool :=
  forallb (fun kv => is_float (snd kv)) rates.

Definition numeric_rates (rates : dict) : bool :=
  forallb (fun kv => is_number (snd kv)) rates.

(** [k * convert(...)]: the scaling of a conversion result. *)
Definition scaled (k : float) (r : result float) : result float :=
  y <- r ;; Ok (PrimFloat.mul k y).

(** An endpoint fails for the fetch: network error, malformed body, or a
    body that does not pass the validation against the base named by the
    URL. *)
Definition provider_fails (w : world) (api_url : string) : bool :=
  match http_get w api_url with
  | RequestFailed => true
  | BadJson => true
  | JsonBody data =>
      match validate_api_response data (Some (last_segment api_url)) with
      | Ok (true, _) => false
      | _ => true
      end
  end.

(** The structural checks of the store: what [load_db] requires. *)
Definition structurally_valid (data : pyval) : bool :=
  match validate_api_response data None with
  | Ok (true, _) => true
  | _ => false
  end.

(** Validity of a snapshot in the words of the specification: the
    structural checks pass, the rates mapping is not empty, and every
    value in it is strictly positive. *)
Definition rates_all_positive (rates : dict) : bool :=
  forallb (fun kv => match py_gt0 (snd kv) with Ok b => b | Raise _ => false end)
          rates.

Definition valid_snapshot (data : pyval) : bool :=
  structurally_valid data
  && match py_getitem data "rates" with
     | Ok (PDict rates) =>
         match rates with [] => false | _ => rates_all_positive rates end
     | _ => false
     end.

(** What a run wrote to the store, and whether it contacted a provider. *)
Definition saved_snapshots (t : list event) : list pyval :=
  flat_map (fun e => match e with EvSave data => [data] | _ => [] end) t.

Definition is_get (e : event) : bool :=
  match e with EvGet _ => true | _ => false end.

Definition fetch_attempted (t : list event) : bool := existsb is_get t.

(** A status message reports a word when one of its literal pieces
    contains it; the interpolated date does not count. *)
Definition mentions (word : string) (m : fstring) : bool :=
  existsb (fun p => match p with Lit s => is_substring word s | _ => false end) m.

(** ** The text of a message

    The characters that Python prints for an f-string, given how the
    interpreter formats a value, a glyph and an amount. *)
Section Rendering.
Variable show_value : pyval -> string.
Variable show_glyph : glyph -> string.
Variable show_money : float -> string.

Definition render_part (p : fpart) : string :=
  match p with
  | Lit s => s
  | Sym g => show_glyph g
  | Fmt (PStr s) => s
  | Fmt v => show_value v
  | FmtMoney x => show_money x
  end.

Fixpoint render (m : fstring) : string :=
  match m with
  | [] => ""
  | p :: rest => (render_part p ++ render rest)%string
  end.
End Rendering.

Fixpoint last_char (s : string) : option ascii :=
  match s with
  | EmptyString => None
  | String c EmptyString => Some c
  | String _ rest => last_char rest
  end.

(** ** Sample data

    Concrete snapshots and environments on which the program is run
    below. *)

(** The snapshot of the specification's worked example. *)
Definition example_rates : dict :=
  [("USD", PFloat 1); ("EUR", PFloat 0.9); ("RUB", PFloat 95)].

Definition example_snapshot : pyval :=
  PDict [("base", PStr "USD"); ("date", PStr "2025-08-25");
         ("rates", PDict example_rates)].


(** The stored-snapshot scenario of the specification: RUB is quoted at
    zero. *)
Definition zero_rub_rates : dict :=
  [("USD", PFloat 1); ("EUR", PFloat 0.9); ("RUB", PFloat 0)].

Definition zero_rub_snapshot : pyval :=
  PDict [("base", PStr "USD"); ("date", PStr "2025-08-25");
         ("rates", PDict zero_rub_rates)].

(** A small catalog with a code that no provider quotes. *)
Definition xyz_catalog : list (string * string) :=
  [("XYZ", "Test Currency"); ("RUB", "Russian Ruble"); ("USD", "US Dollar")].

(** 2025-08-25 00:00:00, in microseconds. *)
Definition sample_now : Z := 1756080000 * us_per_second.

Definition sample_world (online : bool) (get : string -> response)
  (file : db_file) : world :=
  {| head_ok := fun _ => online;
     http_get := get;
     stored := file;
     now_us := sample_now;
     utc_offset := fun _ => 0;
     date_str := "08/25/25";
     float_timestamp := fun _ => Raise OverflowError |}.

(** No host answers the probe, the providers would answer, no store. *)
Definition offline_world : world :=
  sample_world false (fun _ => JsonBody example_snapshot) NoFile.

(** The first provider quotes RUB at zero. *)
Definition zero_rub_world : world :=
  sample_world true (fun _ => JsonBody zero_rub_snapshot) NoFile.

(** The first provider answers with an empty rates mapping. *)
Definition empty_rates_snapshot : pyval :=
  PDict [("base", PStr "USD"); ("date", PStr "2025-08-25"); ("rates", PDict [])].

Definition empty_rates_world : world :=
  sample_world true (fun _ => JsonBody empty_rates_snapshot) NoFile.

(** A store file with the three required keys and nothing else, read
    while offline. *)
Definition unstamped_store_world : world :=
  sample_world false (fun _ => RequestFailed) (Contents example_snapshot).

(** A store file stamped a given number of days before [sample_now]. *)
Definition stamped_snapshot (days_ago : Z) : dict :=
  [("base", PStr "USD"); ("date", PStr "2025-08-15");
   ("rates", PDict example_rates);
   ("date_fetched", PStr "08/15/25");
   ("timestamp", PInt (1756080000 - days_ago * 86400))].

Definition old_store_world (days_ago : Z) : world :=
  sample_world false (fun _ => RequestFailed)
    (Contents (PDict (stamped_snapshot days_ago))).

(** A zone that leaves summer time (UTC+2 to UTC+1) on 2025-10-26 at
    01:00 UTC, a store stamped on 2025-10-22 at 12:00 UTC, and a run
    seven days and thirty minutes later. *)
Definition autumn_offset (t : Z) : Z := if t <? 1761440400 then 7200 else 3600.

Definition autumn_snapshot : dict :=
  [("base", PStr "USD"); ("date", PStr "2025-10-22");
   ("rates", PDict example_rates);
   ("date_fetched", PStr "10/22/25");
   ("timestamp", PInt 1761134400)].

Definition autumn_world : world :=
  {| head_ok := fun _ => false;
     http_get := fun _ => RequestFailed;
     stored := Contents (PDict autumn_snapshot);
     now_us := (1761134400 + 7 * 86400 + 1800) * us_per_second;
     utc_offset := autumn_offset;
     date_str := "10/29/25";
     float_timestamp := fun _ => Raise OverflowError |}.

(** A store file with a timestamp but no display date. *)
Definition undated_store_world : world :=
  sample_world false (fun _ => RequestFailed)
    (Contents (PDict [("base", PStr "USD"); ("date", PStr "2025-08-15");
                      ("rates", PDict example_rates);
                      ("timestamp", PInt 1755216000)])).

(** What the run in [zero_rub_world] stores and then uses. *)
Definition zero_rub_stamped : pyval :=
  PDict [("base", PStr "USD"); ("date", PStr "2025-08-25");
         ("rates", PDict zero_rub_rates);
         ("date_fetched", PStr "08/25/25");
         ("timestamp", PInt 1756080000)].

(** ** Further vocabulary *)

(** The comparison of ['base'] with the expected base, when one is
    given and is not empty. *)
Definition base_matches (d : dict) (expected_base : option string) : bool :=
  match expected_base with
  | Some eb =>
      if String.eqb eb "" then true
      else match dict_get d "base" with
           | Some v => negb (py_ne_str v eb)
           | None => false
           end
  | None => true
  end.


(** ** The interactive part

    The keyboard is the list of the lines still to be read.  What the
    interpreter does with a line is taken from the console: [float(s)]
    and [int(s)], where [None] stands for the [ValueError] of a text
    that is not a number, and [s.strip().lower()].  Only the lines
    written by [print] are kept, without the blank lines around them;
    the prompts of [input] are left out. *)

Record console : Type := {
  parse_float : string -> option float;
  parse_int : string -> option Z;
  strip_lower : string -> string
}.

(** What can end a prompt other than an answer: [input] at the end of
    the input, and a subscript outside a list. *)
Inductive interrupt : Type := EOFError | IndexError.

Inductive prompted (A : Type) : Type :=
| Answered (a : A) (rest : list string)
| Stopped (i : interrupt).
Arguments Answered {A} a rest.
Arguments Stopped {A} i.

(** [MAX_AMOUNT] as the float it is compared with. *)
Definition MAX_AMOUNT_float : float := 1000000000.

Definition warning (text : string) : line := Text [Sym WarningSign; Lit text].

(** *** get_user_amount *)

Fixpoint get_user_amount (c : console) (inputs : list string)
  : list line * prompted float :=
  match inputs with
  | [] => ([], Stopped EOFError)
  | s :: rest =>
      match parse_float c s with
      | Some amount =>
          if PrimFloat.leb amount 0 then
            let '(out, r) := get_user_amount c rest in
            (warning " Amount must be greater than 0" :: out, r)
          else if PrimFloat.ltb MAX_AMOUNT_float amount then
            let '(out, r) := get_user_amount c rest in
            (Text [Sym WarningSign; Lit " Amount cannot exceed ";
                   FmtMoney MAX_AMOUNT_float] :: out, r)
          else ([], Answered amount rest)
      | None =>
          let '(out, r) := get_user_amount c rest in
          (warning " Please enter a numeric value" :: out, r)
      end
  end.

(** *** get_user_currency_choice *)

Fixpoint get_user_currency_choice (c : console)
  (currencies : list (string * string)) (inputs : list string)
  : list line * prompted (string * string) :=
  match inputs with
  | [] => ([], Stopped EOFError)
  | s :: rest =>
      match parse_int c s with
      | Some choice =>
          if (1 <=? choice) && (choice <=? Z.of_nat (length currencies)) then
            match nth_error currencies (Z.to_nat (choice - 1)) with
            | Some entry => ([], Answered entry rest)
            | None => ([], Stopped IndexError)
            end
          else
            let '(out, r) := get_user_currency_choice c currencies rest in
            (Text [Sym WarningSign;
                   Lit " Invalid selection. Enter a number between 1 and ";
                   Fmt (PInt (Z.of_nat (length currencies)))] :: out, r)
      | None =>
          let '(out, r) := get_user_currency_choice c currencies rest in
          (warning " Please enter a numeric value" :: out, r)
      end
  end.

(** *** The loop of main *)

(** The lines of a session: those of [print], and the farewell, which
    opens with a waving hand. *)
Inductive output : Type :=
| Printed (l : line)
| Farewell.

Inductive again : Type := Continue | Quit.

Definition one_of (s : string) (options : list string) : bool :=
  existsb (String.eqb s) options.

(** The inner loop: "Would you like to perform another conversion?" *)
Fixpoint ask_again (c : console) (inputs : list string)
  : list output * prompted again :=
  match inputs with
  | [] => ([], Stopped EOFError)
  | s :: rest =>
      let choice := strip_lower c s in
      if one_of choice ["yes"; "y"] then ([], Answered Continue rest)
      else if one_of choice ["no"; "n"] then ([Farewell], Answered Quit rest)
      else
        let '(out, r) := ask_again c rest in
        (Printed (warning " Please enter 'yes' or 'no'") :: out, r)
  end.

Definition dquote : string := String (Ascii.ascii_of_nat 34) EmptyString.

Definition got_it (src_name : string) : line :=
  Text [Lit ("Got it, currency " ++ dquote)%string; Fmt (PStr src_name);
        Lit (dquote ++ ", what amount?")%string].

(** How the loop ends: [return True], or an exception that no handler
    of [main] catches. *)
Inductive loop_end : Type :=
| ReturnedTrue
| Interrupted (i : interrupt).

(** The outer [while True].  Every turn reads at least one line, so the
    number of turns is bounded by the number of lines; [fuel] is that
    bound, and [None] means that it was set too low. *)
Fixpoint main_loop (fuel : nat) (c : console) (rates_data : pyval)
  (currencies : list (string * string)) (inputs : list string)
  : option (list output * loop_end) :=
  match fuel with
  | O => None
  | S fuel' =>
      let '(out1, r1) := get_user_currency_choice c currencies inputs in
      let shown1 := map Printed out1 in
      match r1 with
      | Stopped i => Some (shown1, Interrupted i)
      | Answered src rest1 =>
          let '(out2, r2) := get_user_amount c rest1 in
          let shown2 := shown1 ++ Printed (got_it (snd src)) :: map Printed out2 in
          match r2 with
          | Stopped i => Some (shown2, Interrupted i)
          | Answered amount rest2 =>
              let '(out3, r3) := get_user_currency_choice c currencies rest2 in
              let shown3 := shown2 ++ map Printed out3 in
              match r3 with
              | Stopped i => Some (shown3, Interrupted i)
              | Answered tgt rest3 =>
                  let shown4 :=
                    shown3 ++ map Printed (convert_and_show rates_data src tgt amount) in
                  if String.eqb (fst src) (fst tgt) then
                    match main_loop fuel' c rates_data currencies rest3 with
                    | Some (out, e) => Some (shown4 ++ out, e)
                    | None => None
                    end
                  else
                    let '(out5, r5) := ask_again c rest3 in
                    let shown5 := shown4 ++ out5 in
                    match r5 with
                    | Stopped i => Some (shown5, Interrupted i)
                    | Answered Quit _ => Some (shown5, ReturnedTrue)
                    | Answered Continue rest5 =>
                        match main_loop fuel' c rates_data currencies rest5 with
                        | Some (out, e) => Some (shown5 ++ out, e)
                        | None => None
                        end
                    end
              end
          end
      end
  end.

Definition main_session (c : console) (rates_data : pyval)
  (currencies : list (string * string)) (inputs : list string)
  : option (list output * loop_end) :=
  main_loop (S (length inputs)) c rates_data currencies inputs.

(** *** main and the program *)

Inductive main_end : Type :=
| Returned (success : bool)
| Raised (e : exn)
| Broken (i : interrupt).

Definition main (w : world) (c : console) (inputs : list string)
  : option main_end :=
  match main_entry w with
  | Raise e => Some (Raised e)
  | Ok NoData => Some (Returned false)
  | Ok NoCurrencies => Some (Returned false)
  | Ok (Ready rates_data _ currencies) =>
      match main_session c rates_data currencies inputs with
      | Some (_, ReturnedTrue) => Some (Returned true)
      | Some (_, Interrupted i) => Some (Broken i)
      | None => None
      end
  end.

(** [sys.exit(0 if success else 1)], with [success] left [False] by an
    exception. *)
Definition exit_status (w : world) (c : console) (inputs : list string)
  : option Z :=
  match main w c inputs with
  | Some (Returned true) => Some 0
  | Some _ => Some 1
  | None => None
  end.

(** A console for the examples: a few spellings are numbers. *)
Definition sample_console : console :=
  {| parse_float := fun s =>
       if String.eqb s "100" then Some 100%float
       else if String.eqb s "0" then Some 0%float
       else if String.eqb s "-5" then Some (-5)%float
       else if String.eqb s "2e9" then Some 2000000000%float
       else if String.eqb s "nan" then Some nan
       else None;
     parse_int := fun s =>
       if String.eqb s "0" then Some 0
       else if String.eqb s "1" then Some 1
       else if String.eqb s "2" then Some 2
       else if String.eqb s "3" then Some 3
       else None;
     strip_lower := fun s =>
       if String.eqb s "YES" then "yes"
       else if String.eqb s " n " then "n"
       else s |}.

(** [rest] is what is left of [inputs] after at least one line was
    read. *)
Definition consumed (inputs rest : list string) : Prop :=
  exists used, inputs = used ++ rest /\ used <> [].

Definition is_text (l : line) : Prop :=
  match l with Text _ => True | ConversionError _ => False end.

(** A line that the amount prompt refuses: [float] raises on it, or the
    number is [<= 0] or [> MAX_AMOUNT]; and the warning it gets. *)
Definition amount_refused (c : console) (s : string) : bool :=
  match parse_float c s with
  | Some amount =>
      PrimFloat.leb amount 0 || PrimFloat.ltb MAX_AMOUNT_float amount
  | None => true
  end.

Definition amount_warning (c : console) (s : string) : line :=
  match parse_float c s with
  | Some amount =>
      if PrimFloat.leb amount 0 then warning " Amount must be greater than 0"
      else Text [Sym WarningSign; Lit " Amount cannot exceed ";
                 FmtMoney MAX_AMOUNT_float]
  | None => warning " Please enter a numeric value"
  end.

(** A line that the currency prompt refuses on a list of [n] entries:
    [int] raises on it, or the number is not between 1 and [n]; and the
    warning it gets. *)
Definition choice_refused (c : console) (n : nat) (s : string) : bool :=
  match parse_int c s with
  | Some choice => negb ((1 <=? choice) && (choice <=? Z.of_nat n))
  | None => true
  end.

Definition choice_warning (c : console) (n : nat) (s : string) : line :=
  match parse_int c s with
  | Some _ =>
      Text [Sym WarningSign;
            Lit " Invalid selection. Enter a number between 1 and ";
            Fmt (PInt (Z.of_nat n))]
  | None => warning " Please enter a numeric value"
  end.

(** The lines of a request for the same currency twice, and those of a
    result with its date. *)
Definition same_currency_lines (src_name : string) : list line :=
  [Text [Sym WarningSign; Lit " You selected the same currency (";
         Fmt (PStr src_name); Lit ") for both source and target."];
   Text [Lit "No conversion is needed - the result will be the same as the source amount."];
   Text [Lit "Please select a different target currency."]].

Definition result_lines (src tgt : string * string) (amount res : float)
  (date : pyval) : list line :=
  [Text separator;
   Text [Lit "Conversion result:"];
   Text [FmtMoney amount; Lit " "; Fmt (PStr (snd src)); Lit " (";
         Fmt (PStr (fst src)); Lit ")"];
   Text [Sym Arrow; Lit " "; FmtMoney res; Lit " "; Fmt (PStr (snd tgt));
         Lit " ("; Fmt (PStr (fst tgt)); Lit ")"];
   Text [Lit "Rates as of "; Fmt date];
   Text separator;
   Text [Lit "Great! The conversion is complete."]].

(** What a request shows when it does not fail: the refusal of a pair of
    equal codes, or the result of [perform_conversion] followed by the
    ['date_fetched'] of the snapshot. *)
Inductive request_shown (rates_data : pyval) (src tgt : string * string)
  (amount : float) : list line -> Prop :=
| refused_same_currency :
    fst src = fst tgt ->
    request_shown rates_data src tgt amount (same_currency_lines (snd src))
| result_shown (res : float) (date : pyval) :
    fst src <> fst tgt ->
    perform_conversion rates_data (fst src) (fst tgt) amount = Ok res ->
    py_getitem rates_data "date_fetched" = Ok date ->
    request_shown rates_data src tgt amount
      (result_lines src tgt amount res date).

(** How a session goes on after the lines of a request: at once with the
    next turn after a refusal, and by the answer to "another
    conversion?" after a result.  [rest_out] and [e] are the lines that
    follow and the end of the session. *)
Definition goes_on (c : console) (rates_data : pyval)
  (currencies : list (string * string)) (src tgt : string * string)
  (rest : list string) (rest_out : list output) (e : loop_end) : Prop :=
  if String.eqb (fst src) (fst tgt)
  then main_session c rates_data currencies rest = Some (rest_out, e)
  else
    match ask_again c rest with
    | (out, Stopped i) => rest_out = out /\ e = Interrupted i
    | (out, Answered Quit _) => rest_out = out /\ e = ReturnedTrue
    | (out, Answered Continue rest') =>
        exists out',
          rest_out = out ++ out'
          /\ main_session c rates_data currencies rest' = Some (out', e)
    end.

(** One turn of the loop of [main], given what the loop does with the
    lines that the turn leaves. *)
Definition loop_turn (c : console) (rates_data : pyval)
  (currencies : list (string * string))
  (next : list string -> option (list output * loop_end))
  (inputs : list string) : option (list output * loop_end) :=
  let '(out1, r1) := get_user_currency_choice c currencies inputs in
  let shown1 := map Printed out1 in
  match r1 with
  | Stopped i => Some (shown1, Interrupted i)
  | Answered src rest1 =>
      let '(out2, r2) := get_user_amount c rest1 in
      let shown2 := shown1 ++ Printed (got_it (snd src)) :: map Printed out2 in
      match r2 with
      | Stopped i => Some (shown2, Interrupted i)
      | Answered amount rest2 =>
          let '(out3, r3) := get_user_currency_choice c currencies rest2 in
          let shown3 := shown2 ++ map Printed out3 in
          match r3 with
          | Stopped i => Some (shown3, Interrupted i)
          | Answered tgt rest3 =>
              let shown4 :=
                shown3 ++ map Printed (convert_and_show rates_data src tgt amount) in
              if String.eqb (fst src) (fst tgt) then
                match next rest3 with
                | Some (out, e) => Some (shown4 ++ out, e)
                | None => None
                end
              else
                let '(out5, r5) := ask_again c rest3 in
                let shown5 := shown4 ++ out5 in
                match r5 with
                | Stopped i => Some (shown5, Interrupted i)
                | Answered Quit _ => Some (shown5, ReturnedTrue)
                | Answered Continue rest5 =>
                    match next rest5 with
                    | Some (out, e) => Some (shown5 ++ out, e)
                    | None => None
                    end
                end
          end
      end
  end.

(** No conversion error is reported among the lines. *)
Definition no_error (out : list output) : Prop :=
  forall err, ~ In (Printed (ConversionError err)) out.

Definition says_no (c : console) (s : string) : bool :=
  one_of (strip_lower c s) ["no"; "n"].

(** * Properties *)

Lemma Ok_inj {A : Type} (x y : A) : Ok x = Ok y -> x = y.
Proof. intros H. now injection H. Qed.

(** ** Comparisons of binary64 floats with zero *)

Lemma float_pos_not_le0 (x : float) :
  PrimFloat.ltb 0 x = true -> PrimFloat.leb x 0 = false.
Proof.
  rewrite ltb_spec, leb_spec. unfold SFltb, SFleb.
  change (Prim2SF 0) with (S754_zero false).
  destruct (Prim2SF x) as [s | s | | s m e]; simpl;
    try discriminate; destruct s; simpl; try discriminate; reflexivity.
Qed.

Lemma float_not_le0_nonzero (x : float) :
  PrimFloat.leb x 0 = false -> PrimFloat.eqb x 0 = false.
Proof.
  rewrite eqb_spec, leb_spec. unfold SFeqb, SFleb.
  change (Prim2SF 0) with (S754_zero false).
  destruct (Prim2SF x) as [s | s | | s m e]; simpl;
    try discriminate; try reflexivity; destruct s; simpl;
    try discriminate; reflexivity.
Qed.

(** ** perform_conversion on a snapshot whose rates are a dict *)

(** The decision tree of the function, once the lookups of ['rates']
    are resolved: presence of the source, presence of the
    target, sign of the source rate, sign of the target rate, product. *)
Lemma perform_conversion_cases (snapshot rates : dict) (src tgt : string)
  (amount : float) :
  dict_get snapshot "rates" = Some (PDict rates) ->
  perform_conversion (PDict snapshot) src tgt amount =
  match dict_get rates src, dict_get rates tgt with
  | None, _ => Raise (ValueError (msg_source_unavailable src))
  | Some _, None => Raise (ValueError (msg_target_unavailable tgt))
  | Some src_rate, Some tgt_rate =>
      src_bad <- py_le0 src_rate ;;
      if src_bad then Raise (ValueError (msg_source_invalid src src_rate))
      else
        tgt_bad <- py_le0 tgt_rate ;;
        if tgt_bad then Raise (ValueError (msg_target_invalid tgt tgt_rate))
        else cross <- py_truediv tgt_rate src_rate ;;
             Ok (PrimFloat.mul amount cross)
  end.
Proof.
  intros Hr. unfold perform_conversion. cbn [py_getitem]. rewrite Hr.
  cbn [bind py_in py_getitem]. unfold dict_mem.
  destruct (dict_get rates src) as [rs |]; cbn [negb bind]; [| reflexivity].
  destruct (dict_get rates tgt) as [rt |]; cbn [negb bind]; reflexivity.
Qed.

Lemma truediv_floats (a b : float) :
  PrimFloat.leb b 0 = false ->
  py_truediv (PFloat a) (PFloat b) = Ok (PrimFloat.div a b).
Proof.
  intros Hb. unfold py_truediv. cbn.
  rewrite (float_not_le0_nonzero b Hb). reflexivity.
Qed.

(** With two float rates that both pass the sign test the result is the
    product of the amount and the quotient of the rates. *)
Lemma perform_conversion_floats (snapshot rates : dict) (src tgt : string)
  (rs rt amount : float) :
  dict_get snapshot "rates" = Some (PDict rates) ->
  dict_get rates src = Some (PFloat rs) ->
  dict_get rates tgt = Some (PFloat rt) ->
  PrimFloat.leb rs 0 = false ->
  PrimFloat.leb rt 0 = false ->
  perform_conversion (PDict snapshot) src tgt amount
  = Ok (PrimFloat.mul amount (PrimFloat.div rt rs)).
Proof.
  intros Hr Hs Ht Hps Hpt.
  rewrite (perform_conversion_cases _ _ _ _ _ Hr), Hs, Ht.
  cbn [py_le0 as_number bind]. rewrite Hps. cbn [bind]. rewrite Hpt.
  rewrite (truediv_floats rt rs Hps). reflexivity.
Qed.

(** C1: on a snapshot whose rates hold both codes with strictly positive
    float rates, [perform_conversion] returns the binary64 product
    [amount * (rate[target] / rate[source])], with no further rounding;
    on the example snapshot, 100 USD are 90.0 EUR. *)
Theorem perform_conversion_cross_rate
  (snapshot rates : dict) (src tgt : string) (rs rt amount : float) :
  dict_get snapshot "rates" = Some (PDict rates) ->
  dict_get rates src = Some (PFloat rs) ->
  dict_get rates tgt = Some (PFloat rt) ->
  PrimFloat.ltb 0 rs = true ->
  PrimFloat.ltb 0 rt = true ->
  perform_conversion (PDict snapshot) src tgt amount
  = Ok (PrimFloat.mul amount (PrimFloat.div rt rs))
  /\ perform_conversion example_snapshot "USD" "EUR" 100 = Ok 90%float.
Proof.
  intros Hr Hs Ht Hps Hpt. split.
  - apply (perform_conversion_floats snapshot rates); auto using float_pos_not_le0.
  - vm_compute. reflexivity.
Qed.

Lemma perform_conversion_cross_rate_witness :
  perform_conversion example_snapshot "EUR" "RUB" 10
  = Ok (PrimFloat.mul 10 (PrimFloat.div 95 0.9))
  /\ perform_conversion example_snapshot "USD" "EUR" 100 = Ok 90%float.
Proof.
  apply (perform_conversion_cross_rate
           [("base", PStr "USD"); ("date", PStr "2025-08-25");
            ("rates", PDict example_rates)]
           example_rates "EUR" "RUB" 0.9 95 10); reflexivity.
Defined.

(** ** Failures of perform_conversion *)

Lemma float_rates_get (rates : dict) (code : string) (v : pyval) :
  float_rates rates = true -> dict_get rates code = Some v ->
  exists f, v = PFloat f.
Proof.
  unfold float_rates. induction rates as [| [k x] rest IH]; cbn.
  - discriminate.
  - intros Hall Hget. apply andb_true_iff in Hall as [Hx Hrest].
    destruct (String.eqb k code).
    + injection Hget as <-. destruct x; try discriminate. eauto.
    + auto.
Qed.

Ltac split_match :=
  repeat match goal with
         | |- context [match ?x with _ => _ end] => is_var x; destruct x
         | H : context [match ?x with _ => _ end] |- _ => is_var x; destruct x
         end.

Lemma unknown_is_not_invalid (e : exn) :
  is_unknown_currency e = true -> is_invalid_rate e = false.
Proof.
  unfold is_unknown_currency, is_invalid_rate. intros H.
  destruct e as [msg | | | |]; try reflexivity.
  destruct msg as [| p1 [| p2 [| p3 [| p4 rest]]]];
    split_match; try reflexivity; discriminate H.
Qed.

(** C2 as stated fails: with an absent source and a target that is
    present at rate 0, the error is the one for the unknown source, not
    the one for the invalid rate. *)
Lemma invalid_rate_precedence_counterexample :
  ~ (fails_with is_invalid_rate
       (perform_conversion zero_rub_snapshot "XYZ" "RUB" 1) = true
     <-> rate_not_positive zero_rub_rates "XYZ" = true
         \/ rate_not_positive zero_rub_rates "RUB" = true).
Proof.
  intros [_ H].
  assert (Hrub : rate_not_positive zero_rub_rates "RUB" = true)
    by (vm_compute; reflexivity).
  specialize (H (or_intror Hrub)). vm_compute in H. discriminate.
Qed.

Lemma numeric_rates_get (rates : dict) (code : string) (v : pyval) :
  numeric_rates rates = true -> dict_get rates code = Some v ->
  exists n, as_number v = Some n.
Proof.
  unfold numeric_rates. induction rates as [| [k x] rest IH]; cbn.
  - discriminate.
  - intros Hall Hget. apply andb_true_iff in Hall as [Hx Hrest].
    destruct (String.eqb k code).
    + injection Hget as <-. unfold is_number in Hx.
      destruct (as_number x); [eauto | discriminate].
    + auto.
Qed.

Lemma numeric_le0 (rates : dict) (code : string) (v : pyval) :
  numeric_rates rates = true -> dict_get rates code = Some v ->
  exists b, py_le0 v = Ok b.
Proof.
  intros Hn Hg. destruct (numeric_rates_get _ _ _ Hn Hg) as [n Hv].
  unfold py_le0. rewrite Hv. destruct n; eauto.
Qed.

(** The division raises no [ValueError]. *)
Lemma truediv_error_kind (a b : pyval) (e : exn) :
  py_truediv a b = Raise e ->
  is_unknown_currency e = false /\ is_invalid_rate e = false.
Proof.
  unfold py_truediv, int_truediv, to_float, int_to_float.
  destruct (as_number a) as [[x | fa] |], (as_number b) as [[y | fb] |];
    repeat first
      [ progress cbn [bind]
      | match goal with
        | |- context [if ?c then _ else _] => destruct c
        | |- context [match ?t with S754_zero _ => _ | _ => _ end] =>
            destruct t
        end ];
    intros H; try discriminate H;
    (assert (E : e = OverflowError \/ e = ZeroDivisionError \/ e = TypeError)
       by (inversion H; auto));
    destruct E as [-> | [-> | ->]]; split; reflexivity.
Qed.

(** Closes the four parts of the failure analysis once the outcome of
    the conversion is a constructor. *)
Ltac settle_failure :=
  repeat split; intros; try discriminate;
  eauto using unknown_is_not_invalid; intuition discriminate.

(** C2, amended: on a snapshot whose rates are numbers, the conversion
    fails with the unknown-currency error exactly when the source or the
    target is absent; with the invalid-rate error exactly when both are
    present and one of the two rates is [<= 0]; when the rates are
    floats it returns a number in every other case; and no error is of
    both kinds. *)
Theorem perform_conversion_failures
  (snapshot rates : dict) (src tgt : string) (amount : float) :
  dict_get snapshot "rates" = Some (PDict rates) ->
  numeric_rates rates = true ->
  let r := perform_conversion (PDict snapshot) src tgt amount in
  (fails_with is_unknown_currency r = true
   <-> dict_mem rates src = false \/ dict_mem rates tgt = false)
  /\ (fails_with is_invalid_rate r = true
      <-> dict_mem rates src = true /\ dict_mem rates tgt = true
          /\ (rate_not_positive rates src = true
              \/ rate_not_positive rates tgt = true))
  /\ (float_rates rates = true ->
      fails_with is_unknown_currency r = false ->
      fails_with is_invalid_rate r = false -> exists x, r = Ok x)
  /\ (forall e, is_unknown_currency e = true -> is_invalid_rate e = false).
Proof.
  intros Hr Hn r. subst r.
  rewrite (perform_conversion_cases _ _ _ _ _ Hr).
  unfold dict_mem, rate_not_positive.
  destruct (dict_get rates src) as [vs |] eqn:Es.
  2:{ cbn. settle_failure. }
  destruct (dict_get rates tgt) as [vt |] eqn:Et.
  2:{ cbn. settle_failure. }
  destruct (numeric_le0 _ _ _ Hn Es) as [bs Hbs].
  destruct (numeric_le0 _ _ _ Hn Et) as [bt Hbt].
  rewrite Hbs, Hbt. cbn [bind].
  destruct bs.
  { cbn. settle_failure. }
  destruct bt.
  { cbn. settle_failure. }
  destruct (py_truediv vt vs) as [cross | e] eqn:Hdiv; cbn [bind fails_with].
  - settle_failure.
  - destruct (truediv_error_kind _ _ _ Hdiv) as [Hu Hi]. rewrite Hu, Hi.
    repeat split; intros; try discriminate;
      auto using unknown_is_not_invalid; try (intuition discriminate).
    exfalso.
    match goal with Hf : float_rates rates = true |- _ =>
      destruct (float_rates_get _ _ _ Hf Es) as [rs ->];
      destruct (float_rates_get _ _ _ Hf Et) as [rt ->]
    end.
    cbn in Hbs. apply Ok_inj in Hbs.
    rewrite (truediv_floats rt rs Hbs) in Hdiv. discriminate Hdiv.
Qed.

Lemma perform_conversion_failures_witness :
  let r := perform_conversion zero_rub_snapshot "XYZ" "RUB" 1 in
  (fails_with is_unknown_currency r = true
   <-> dict_mem zero_rub_rates "XYZ" = false
       \/ dict_mem zero_rub_rates "RUB" = false)
  /\ (fails_with is_invalid_rate r = true
      <-> dict_mem zero_rub_rates "XYZ" = true
          /\ dict_mem zero_rub_rates "RUB" = true
          /\ (rate_not_positive zero_rub_rates "XYZ" = true
              \/ rate_not_positive zero_rub_rates "RUB" = true))
  /\ (float_rates zero_rub_rates = true ->
      fails_with is_unknown_currency r = false ->
      fails_with is_invalid_rate r = false -> exists x, r = Ok x)
  /\ (forall e, is_unknown_currency e = true -> is_invalid_rate e = false).
Proof.
  apply (perform_conversion_failures
           [("base", PStr "USD"); ("date", PStr "2025-08-25");
            ("rates", PDict zero_rub_rates)]
           zero_rub_rates "XYZ" "RUB" 1); reflexivity.
Defined.

(** The other failures: a rate that is not a number makes the sign
    test raise [TypeError], and an integer rate beyond the binary64
    range makes the division raise [OverflowError]. *)
Example perform_conversion_string_rate :
  perform_conversion
    (PDict [("rates", PDict [("USD", PFloat 1); ("EUR", PStr "0.9")])])
    "USD" "EUR" 1 = Raise TypeError.
Proof. reflexivity. Qed.

Example perform_conversion_huge_int_rate :
  perform_conversion
    (PDict [("rates", PDict [("USD", PInt 1); ("ZWL", PInt (10 ^ 400))])])
    "USD" "ZWL" 1 = Raise OverflowError.
Proof. vm_compute. reflexivity. Qed.

(** The provider quotes its base as the integer 1. *)
Example perform_conversion_int_base :
  perform_conversion
    (PDict [("rates", PDict [("USD", PInt 1); ("EUR", PFloat 0.9)])])
    "USD" "EUR" 100 = Ok 90%float.
Proof. vm_compute. reflexivity. Qed.

Example perform_conversion_zero_rub :
  fails_with is_invalid_rate
    (perform_conversion zero_rub_snapshot "RUB" "USD" 1) = true
  /\ fails_with is_invalid_rate
       (perform_conversion zero_rub_snapshot "USD" "RUB" 1) = true.
Proof. split; vm_compute; reflexivity. Qed.

(** ** Scaling the amount *)

(** C9 as stated fails: on the example snapshot, converting 3 * 7 USD
    to EUR gives 18.900000000000002 while 3 times the conversion of 7
    USD gives 18.9. *)
Lemma scale_linearity_counterexample :
  perform_conversion example_snapshot "USD" "EUR" (PrimFloat.mul 3 7)
  <> scaled 3 (perform_conversion example_snapshot "USD" "EUR" 7).
Proof.
  intros H.
  apply (f_equal (fun r => match r with
                           | Ok x => Prim2SF x
                           | Raise _ => S754_nan
                           end)) in H.
  vm_compute in H. discriminate H.
Qed.

(** C9, amended: for codes present with positive float rates and
    [k > 0], both conversions succeed; converting [k * amount] gives
    [(k * amount) * r] and [k] times the conversion of [amount] gives
    [k * (amount * r)], where [r = rate[b] / rate[a]]; the two are equal
    exactly when the binary64 product associates on [k], [amount] and
    [r]. *)
Theorem scale_linear_iff_product_associates
  (snapshot rates : dict) (a b : string) (ra rb amount k : float) :
  dict_get snapshot "rates" = Some (PDict rates) ->
  dict_get rates a = Some (PFloat ra) ->
  dict_get rates b = Some (PFloat rb) ->
  PrimFloat.ltb 0 ra = true ->
  PrimFloat.ltb 0 rb = true ->
  PrimFloat.ltb 0 k = true ->
  let r := PrimFloat.div rb ra in
  perform_conversion (PDict snapshot) a b (PrimFloat.mul k amount)
  = Ok (PrimFloat.mul (PrimFloat.mul k amount) r)
  /\ scaled k (perform_conversion (PDict snapshot) a b amount)
     = Ok (PrimFloat.mul k (PrimFloat.mul amount r))
  /\ (perform_conversion (PDict snapshot) a b (PrimFloat.mul k amount)
      = scaled k (perform_conversion (PDict snapshot) a b amount)
      <-> PrimFloat.mul (PrimFloat.mul k amount) r
          = PrimFloat.mul k (PrimFloat.mul amount r)).
Proof.
  intros Hr Ha Hb Hpa Hpb _ r. subst r.
  rewrite !(perform_conversion_floats snapshot rates a b ra rb)
    by auto using float_pos_not_le0.
  cbn [scaled bind]. repeat split.
  - intros H. congruence.
  - intros ->. reflexivity.
Qed.

Lemma scale_linear_iff_product_associates_witness :
  let r := PrimFloat.div 0.9 1 in
  perform_conversion example_snapshot "USD" "EUR" (PrimFloat.mul 2 100)
  = Ok (PrimFloat.mul (PrimFloat.mul 2 100) r)
  /\ scaled 2 (perform_conversion example_snapshot "USD" "EUR" 100)
     = Ok (PrimFloat.mul 2 (PrimFloat.mul 100 r))
  /\ (perform_conversion example_snapshot "USD" "EUR" (PrimFloat.mul 2 100)
      = scaled 2 (perform_conversion example_snapshot "USD" "EUR" 100)
      <-> PrimFloat.mul (PrimFloat.mul 2 100) r
          = PrimFloat.mul 2 (PrimFloat.mul 100 r)).
Proof.
  apply (scale_linear_iff_product_associates
           [("base", PStr "USD"); ("date", PStr "2025-08-25");
            ("rates", PDict example_rates)]
           example_rates "USD" "EUR" 1 0.9 100 2); reflexivity.
Defined.

(** Doubling 100 USD is one of the cases where the two sides agree. *)
Example scale_by_two :
  perform_conversion example_snapshot "USD" "EUR" (PrimFloat.mul 2 100)
  = scaled 2 (perform_conversion example_snapshot "USD" "EUR" 100).
Proof. vm_compute. reflexivity. Qed.

(** ** get_available_currencies *)

Lemma float_le0_not_pos (x : float) :
  PrimFloat.leb x 0 = true -> PrimFloat.ltb 0 x = false.
Proof.
  intros H. destruct (PrimFloat.ltb 0 x) eqn:E; [| reflexivity].
  apply float_pos_not_le0 in E. congruence.
Qed.

Lemma not_positive_excludes_positive (rates : dict) (code : string) :
  rate_not_positive rates code = true -> rate_positive rates code = false.
Proof.
  unfold rate_not_positive, rate_positive, py_le0, py_gt0.
  destruct (dict_get rates code) as [v |]; [| reflexivity].
  destruct (as_number v) as [[z | f] |]; try reflexivity.
  - intros H. apply Z.leb_le in H. apply Z.ltb_ge. exact H.
  - apply float_le0_not_pos.
Qed.

Lemma absent_excludes_positive (rates : dict) (code : string) :
  dict_mem rates code = false -> rate_positive rates code = false.
Proof.
  unfold dict_mem, rate_positive.
  destruct (dict_get rates code); [discriminate | reflexivity].
Qed.

(** The loop over any catalog is the filter of that catalog by
    [rate_positive], in the order of the catalog. *)
Lemma available_from_filter (snapshot rates : dict)
  (catalog : list (string * string)) :
  dict_get snapshot "rates" = Some (PDict rates) ->
  numeric_rates rates = true ->
  available_from (PDict snapshot) catalog
  = Ok (filter (fun entry => rate_positive rates (fst entry)) catalog).
Proof.
  intros Hr Hn. induction catalog as [| [code name] rest IH].
  - reflexivity.
  - cbn [available_from filter fst py_getitem]. rewrite Hr.
    cbn [bind py_in py_getitem]. rewrite IH.
    unfold dict_mem, rate_positive.
    destruct (dict_get rates code) as [v |] eqn:Ev; cbn [bind].
    + destruct (numeric_rates_get _ _ _ Hn Ev) as [n Hv].
      unfold py_gt0. rewrite Hv. destruct n; reflexivity.
    + reflexivity.
Qed.

(** C8: on a snapshot whose rates are numbers, the available currencies
    are exactly the catalog entries whose code is present in the rates
    with a rate [> 0], in catalog order; a catalog code that is absent
    from the rates, or whose rate is [<= 0], is not among them. *)
Theorem get_available_currencies_filter (snapshot rates : dict) :
  dict_get snapshot "rates" = Some (PDict rates) ->
  numeric_rates rates = true ->
  get_available_currencies (PDict snapshot)
  = Ok (filter (fun entry => rate_positive rates (fst entry)) CURRENCY_NAMES)
  /\ forall code name available,
       get_available_currencies (PDict snapshot) = Ok available ->
       (In (code, name) available
        <-> In (code, name) CURRENCY_NAMES /\ rate_positive rates code = true)
       /\ (dict_mem rates code = false \/ rate_not_positive rates code = true ->
           ~ In (code, name) available).
Proof.
  intros Hr Hn. unfold get_available_currencies.
  rewrite (available_from_filter _ _ _ Hr Hn). split; [reflexivity |].
  intros code name available Hav. apply Ok_inj in Hav. subst available.
  assert (Hin : In (code, name)
                  (filter (fun entry => rate_positive rates (fst entry))
                     CURRENCY_NAMES)
                <-> In (code, name) CURRENCY_NAMES
                    /\ rate_positive rates code = true)
    by apply filter_In.
  split; [exact Hin |].
  intros Hout Hmem. apply Hin in Hmem as [_ Hpos].
  destruct Hout as [Habs | Hbad].
  - rewrite (absent_excludes_positive _ _ Habs) in Hpos. discriminate.
  - rewrite (not_positive_excludes_positive _ _ Hbad) in Hpos. discriminate.
Qed.

Lemma get_available_currencies_filter_witness :
  get_available_currencies zero_rub_snapshot
  = Ok (filter (fun entry => rate_positive zero_rub_rates (fst entry))
          CURRENCY_NAMES)
  /\ forall code name available,
       get_available_currencies zero_rub_snapshot = Ok available ->
       (In (code, name) available
        <-> In (code, name) CURRENCY_NAMES
            /\ rate_positive zero_rub_rates code = true)
       /\ (dict_mem zero_rub_rates code = false
           \/ rate_not_positive zero_rub_rates code = true ->
           ~ In (code, name) available).
Proof.
  apply (get_available_currencies_filter
           [("base", PStr "USD"); ("date", PStr "2025-08-25");
            ("rates", PDict zero_rub_rates)]
           zero_rub_rates); reflexivity.
Defined.

(** The two scenarios of the specification: a catalog code without a
    rate is left out, and so is RUB when it is quoted at zero. *)
Example available_excludes_unquoted_code :
  available_from zero_rub_snapshot xyz_catalog = Ok [("USD", "US Dollar")].
Proof. vm_compute. reflexivity. Qed.

Example available_zero_rub :
  get_available_currencies zero_rub_snapshot
  = Ok [("USD", "US Dollar"); ("EUR", "Euro")].
Proof. vm_compute. reflexivity. Qed.

(** A rate that is not a number stops the listing with [TypeError]. *)
Example available_string_rate :
  get_available_currencies
    (PDict [("rates", PDict [("USD", PFloat 1); ("EUR", PStr "0.9")])])
  = Raise TypeError.
Proof. vm_compute. reflexivity. Qed.

(** ** Dictionaries *)

Lemma dict_get_set (d : dict) (k k' : string) (v : pyval) :
  dict_get (dict_set d k v) k'
  = if String.eqb k k' then Some v else dict_get d k'.
Proof.
  induction d as [| [k0 v0] rest IH]; cbn.
  - reflexivity.
  - destruct (String.eqb k0 k) eqn:E0; cbn.
    + apply String.eqb_eq in E0. subst k0.
      destruct (String.eqb k k'); reflexivity.
    + rewrite IH. destruct (String.eqb k k') eqn:E1; [| reflexivity].
      apply String.eqb_eq in E1. subst k'. rewrite E0. reflexivity.
Qed.

Lemma dict_mem_set (d : dict) (k k' : string) (v : pyval) :
  dict_mem (dict_set d k v) k' = String.eqb k k' || dict_mem d k'.
Proof.
  unfold dict_mem. rewrite dict_get_set.
  destruct (String.eqb k k'); reflexivity.
Qed.

Lemma dict_set_truthy (d : dict) (k : string) (v : pyval) :
  py_truthy (PDict (dict_set d k v)) = true.
Proof.
  destruct d as [| [k0 v0] rest]; cbn; [reflexivity |].
  destruct (String.eqb k0 k); reflexivity.
Qed.

(** ** validate_api_response *)

(** Only a dict can pass: on a list or a string the membership tests may
    succeed, but the subscript ['rates'] raises. *)
Lemma validate_true_is_dict (data : pyval) (eb : option string) (m : fstring) :
  validate_api_response data eb = Ok (true, m) -> exists d, data = PDict d.
Proof.
  unfold validate_api_response.
  destruct (first_missing data required_fields) as [[field |] | e];
    cbn [bind]; try discriminate.
  destruct data; cbn; try discriminate. eauto.
Qed.

(** On a dict the validation is three membership tests, the type test of
    ['rates'] and, with an expected base, the comparison of ['base']. *)
Lemma structurally_valid_dict (d : dict) :
  structurally_valid (PDict d)
  = dict_mem d "rates" && dict_mem d "base" && dict_mem d "date"
    && match dict_get d "rates" with Some v => is_dict v | None => false end.
Proof.
  unfold structurally_valid, validate_api_response, required_fields.
  cbn [first_missing py_in bind py_getitem]. unfold dict_mem.
  destruct (dict_get d "rates") as [vr |]; cbn; [| reflexivity].
  destruct (dict_get d "base") as [vb |]; cbn; [| reflexivity].
  destruct (dict_get d "date") as [vd |]; cbn; [| reflexivity].
  destruct (is_dict vr); reflexivity.
Qed.

Lemma validate_with_base_structural (d : dict) (eb : string) (m : fstring) :
  validate_api_response (PDict d) (Some eb) = Ok (true, m) ->
  structurally_valid (PDict d) = true.
Proof.
  rewrite structurally_valid_dict.
  unfold validate_api_response, required_fields.
  cbn [first_missing py_in bind py_getitem]. unfold dict_mem.
  destruct (dict_get d "rates") as [vr |]; cbn; [| discriminate].
  destruct (dict_get d "base") as [vb |]; cbn; [| discriminate].
  destruct (dict_get d "date") as [vd |]; cbn; [| discriminate].
  destruct (is_dict vr); cbn; [reflexivity | discriminate].
Qed.

(** Stamping a valid dict succeeds, keeps it valid, and records the
    fetch time and the display date. *)
Lemma stamp_dict (w : world) (d : dict) :
  stamp w (PDict d)
  = Ok (PDict (dict_set (dict_set d "date_fetched" (PStr (date_str w)))
                 "timestamp" (PInt (time_time w)))).
Proof. reflexivity. Qed.

Lemma stamp_keeps_valid (w : world) (d : dict) (stamped : pyval) :
  structurally_valid (PDict d) = true ->
  stamp w (PDict d) = Ok stamped ->
  structurally_valid stamped = true.
Proof.
  intros Hv Hs. rewrite stamp_dict in Hs. apply Ok_inj in Hs. subst stamped.
  rewrite structurally_valid_dict in *.
  rewrite !dict_mem_set, !dict_get_set. cbn. exact Hv.
Qed.

Lemma stamp_fields (w : world) (data stamped : pyval) :
  stamp w data = Ok stamped ->
  py_getitem stamped "timestamp" = Ok (PInt (time_time w))
  /\ py_getitem stamped "date_fetched" = Ok (PStr (date_str w))
  /\ py_truthy stamped = true.
Proof.
  destruct data; try discriminate. rewrite stamp_dict. intros Hs.
  apply Ok_inj in Hs. subst stamped. cbn [py_getitem].
  rewrite !dict_get_set. cbn. repeat split. apply dict_set_truthy.
Qed.

(** ** fetch_rates *)

(** A turn of the loop goes on to the next URL exactly when the endpoint
    fails. *)
Lemma try_provider_none_iff (w : world) (api_url : string) :
  try_provider w api_url = None <-> provider_fails w api_url = true.
Proof.
  unfold try_provider, provider_fails.
  destruct (http_get w api_url) as [| | body]; try tauto.
  destruct (validate_api_response body (Some (last_segment api_url)))
    as [[[|] m] | e] eqn:Hv; try tauto.
  destruct (validate_true_is_dict _ _ _ Hv) as [d ->].
  rewrite stamp_dict. split; discriminate.
Qed.

Lemma try_provider_some (w : world) (api_url : string) (data : pyval) :
  try_provider w api_url = Some data ->
  provider_fails w api_url = false
  /\ exists body, http_get w api_url = JsonBody body /\ stamp w body = Ok data.
Proof.
  intros H. split.
  - destruct (provider_fails w api_url) eqn:E; [| reflexivity].
    apply try_provider_none_iff in E. congruence.
  - unfold try_provider in H.
    destruct (http_get w api_url) as [| | body]; try discriminate.
    destruct (validate_api_response body (Some (last_segment api_url)))
      as [[[|] m] | e]; try discriminate.
    destruct (stamp w body) as [stamped | e] eqn:Hs; try discriminate.
    exists body. split; [reflexivity |]. rewrite Hs. now inversion H.
Qed.

(** The scan of any list of endpoints: either every endpoint failed and
    all were contacted, or the list splits at the first endpoint that
    did not fail, and nothing after it was contacted. *)
Lemma fetch_rates_from_scan (w : world) (urls : list string) :
  match fetch_rates_from w urls with
  | (t, None) =>
      (forall u, In u urls -> provider_fails w u = true)
      /\ t = map EvGet urls
  | (t, Some data) =>
      exists before url after,
        urls = before ++ url :: after
        /\ (forall u, In u before -> provider_fails w u = true)
        /\ try_provider w url = Some data
        /\ t = map EvGet (before ++ [url])
  end.
Proof.
  induction urls as [| api_url rest IH]; cbn [fetch_rates_from].
  - split; [intros u [] | reflexivity].
  - destruct (try_provider w api_url) as [data |] eqn:Ht.
    + exists [], api_url, rest. cbn. repeat split; auto.
    + destruct (fetch_rates_from w rest) as [t [data |]].
      * destruct IH as (before & url & after & -> & Hb & Hu & ->).
        exists (api_url :: before), url, after. cbn. repeat split; auto.
        intros u [<- | Hin]; [now apply try_provider_none_iff | auto].
      * destruct IH as [Hall ->]. split; [| reflexivity].
        intros u [<- | Hin]; [now apply try_provider_none_iff | auto].
Qed.

(** What a turn of the loop returns: the dict that the endpoint
    served, validated against the base of the URL, with the two stamps
    set and nothing else changed. *)
Lemma try_provider_stamped (w : world) (api_url : string) (data : pyval) :
  try_provider w api_url = Some data ->
  exists d m,
    http_get w api_url = JsonBody (PDict d)
    /\ validate_api_response (PDict d) (Some (last_segment api_url))
       = Ok (true, m)
    /\ data = PDict (dict_set (dict_set d "date_fetched" (PStr (date_str w)))
                       "timestamp" (PInt (time_time w))).
Proof.
  unfold try_provider. intros H.
  destruct (http_get w api_url) as [| | body]; try discriminate.
  destruct (validate_api_response body (Some (last_segment api_url)))
    as [[[|] m] | e] eqn:Hv; try discriminate.
  destruct (validate_true_is_dict _ _ _ Hv) as [d ->].
  rewrite stamp_dict in H. exists d, m.
  split; [reflexivity |]. split; [exact Hv |]. now inversion H.
Qed.

Lemma stamped_keeps_keys (d : dict) (date stamp_value : pyval) (k : string) :
  k <> "timestamp" -> k <> "date_fetched" ->
  dict_get (dict_set (dict_set d "date_fetched" date) "timestamp" stamp_value) k
  = dict_get d k.
Proof.
  intros Hts Hdate. rewrite !dict_get_set.
  destruct (String.eqb "timestamp" k) eqn:E1;
    [apply String.eqb_eq in E1; congruence |].
  destruct (String.eqb "date_fetched" k) eqn:E2;
    [apply String.eqb_eq in E2; congruence |].
  reflexivity.
Qed.

(** C7: [fetch_rates] scans [API_URLS] in order; the result is absent
    exactly when every endpoint fails (request error, JSON error or
    failed validation); otherwise it is the dict served by the first
    endpoint that does not fail, with the keys "date_fetched" and
    "timestamp" set to the date and the second of the fetch and every
    other key as served, and the endpoints contacted are those up to
    that one and no later one. *)
Theorem fetch_rates_first_valid (w : world) :
  (snd (fetch_rates w) = None
   <-> forall url, In url API_URLS -> provider_fails w url = true)
  /\ (snd (fetch_rates w) = None -> fst (fetch_rates w) = map EvGet API_URLS)
  /\ forall data,
       snd (fetch_rates w) = Some data ->
       exists before url after body served m,
         API_URLS = before ++ url :: after
         /\ (forall u, In u before -> provider_fails w u = true)
         /\ provider_fails w url = false
         /\ http_get w url = JsonBody body
         /\ body = PDict served
         /\ validate_api_response body (Some (last_segment url))
            = Ok (true, m)
         /\ stamp w body = Ok data
         /\ data
            = PDict (dict_set
                       (dict_set served "date_fetched" (PStr (date_str w)))
                       "timestamp" (PInt (time_time w)))
         /\ (forall k,
               k <> "timestamp" -> k <> "date_fetched" ->
               py_getitem data k = py_getitem body k)
         /\ py_getitem data "timestamp" = Ok (PInt (time_time w))
         /\ py_getitem data "date_fetched" = Ok (PStr (date_str w))
         /\ fst (fetch_rates w) = map EvGet (before ++ [url]).
Proof.
  unfold fetch_rates. pose proof (fetch_rates_from_scan w API_URLS) as H.
  destruct (fetch_rates_from w API_URLS) as [t [data |]]; cbn [fst snd].
  - destruct H as (before & url & after & Hsplit & Hb & Hu & Ht).
    destruct (try_provider_some _ _ _ Hu) as (Hok & _).
    destruct (try_provider_stamped _ _ _ Hu) as (served & m & Hget & Hv & E).
    split; [| split].
    + split; [discriminate |]. intros Hall.
      assert (Hin : In url API_URLS)
        by (rewrite Hsplit; apply in_or_app; right; left; reflexivity).
      rewrite (Hall url Hin) in Hok. discriminate.
    + discriminate.
    + intros data' E'. apply (f_equal (fun o => match o with
                                               | Some x => x
                                               | None => data
                                               end)) in E'.
      cbn in E'. subst data'.
      exists before, url, after, (PDict served), served, m.
      split; [exact Hsplit |]. split; [exact Hb |]. split; [exact Hok |].
      split; [exact Hget |]. split; [reflexivity |]. split; [exact Hv |].
      split; [rewrite stamp_dict; now rewrite E |].
      split; [exact E |].
      split; [| split; [| split; [| exact Ht]]].
      * intros k Hk1 Hk2. rewrite E. cbn [py_getitem].
        now rewrite stamped_keeps_keys.
      * rewrite E. cbn [py_getitem]. rewrite !dict_get_set. reflexivity.
      * rewrite E. cbn [py_getitem]. rewrite !dict_get_set. reflexivity.
  - destruct H as [Hall Ht]. split; [| split].
    + split; auto.
    + auto.
    + discriminate.
Qed.

(** ** The start of main *)

Lemma fetch_rates_truthy (w : world) (data : pyval) :
  snd (fetch_rates w) = Some data -> py_truthy data = true.
Proof.
  unfold fetch_rates. intros H.
  pose proof (fetch_rates_from_scan w API_URLS) as Hscan.
  destruct (fetch_rates_from w API_URLS) as [t [data' |]]; [| discriminate].
  cbn in H. assert (data' = data) by now inversion H. subst data'.
  destruct Hscan as (before & url & after & _ & _ & Hu & _).
  destruct (try_provider_some _ _ _ Hu) as (_ & body & _ & Hs).
  apply (stamp_fields _ _ _ Hs).
Qed.

Lemma fetch_rates_structural (w : world) (data : pyval) :
  snd (fetch_rates w) = Some data -> structurally_valid data = true.
Proof.
  unfold fetch_rates. intros H.
  pose proof (fetch_rates_from_scan w API_URLS) as Hscan.
  destruct (fetch_rates_from w API_URLS) as [t [data' |]]; [| discriminate].
  cbn in H. injection H as ->.
  destruct Hscan as (before & url & after & _ & _ & Hu & _).
  unfold try_provider in Hu.
  destruct (http_get w url) as [| | body]; try discriminate.
  destruct (validate_api_response body (Some (last_segment url)))
    as [[[|] m] | e] eqn:Hv; try discriminate.
  destruct (validate_true_is_dict _ _ _ Hv) as [d ->].
  destruct (stamp w (PDict d)) as [stamped | e] eqn:Hs; try discriminate.
  assert (stamped = data) by now inversion Hu. subst stamped.
  apply (stamp_keeps_valid w d); [| exact Hs].
  apply (validate_with_base_structural d _ m Hv).
Qed.

Lemma load_db_structural (w : world) (data : pyval) :
  snd (load_db w) = Some data -> structurally_valid data = true.
Proof.
  unfold load_db, structurally_valid.
  destruct (stored w) as [| | file]; try discriminate.
  destruct (validate_api_response file None) as [[[|] m] | e] eqn:Hv;
    try discriminate.
  cbn. intros H. assert (file = data) by now inversion H. subst file.
  rewrite Hv. reflexivity.
Qed.

(** The variables of the run in terms of the three reads of the
    environment. *)
Lemma main_startup_fields (w : world) :
  let s := main_startup w in
  run_internet s = snd (check_internet w)
  /\ run_db_data s = snd (load_db w)
  /\ run_fresh_data s
     = (if snd (check_internet w) then snd (fetch_rates w) else None)
  /\ run_rates_data s = select_rates_data (run_fresh_data s) (run_db_data s)
  /\ run_status s
     = display_status_message w (run_internet s) (run_db_data s)
         (run_fresh_data s)
  /\ run_trace s
     = fst (check_internet w) ++ fst (load_db w)
       ++ (if snd (check_internet w)
           then fst (fetch_rates w)
                ++ match snd (fetch_rates w) with
                   | Some data => save_db data
                   | None => []
                   end
           else []).
Proof.
  unfold main_startup.
  destruct (check_internet w) as [t_probe online].
  destruct (load_db w) as [t_load db]. cbn [fst snd].
  destruct online.
  - pose proof (fetch_rates_truthy w) as Htruthy.
    destruct (fetch_rates w) as [t_fetch [data |]]; cbn [fst snd] in *.
    + rewrite (Htruthy data eq_refl). cbn. repeat split.
    + cbn. repeat split. now rewrite app_nil_r.
  - cbn. repeat split.
Qed.

(** C3: the active snapshot of a run is the fetched snapshot whenever a
    fetch result is present, whatever the probe said and whatever the
    store holds; otherwise it is the stored snapshot when there is one;
    otherwise it is absent.  The fetch result of the run is what
    [fetch_rates] returns when the probe found connectivity and absent
    otherwise, and the stored snapshot is what [load_db] returns: a
    snapshot that [fetch_rates] returns after a successful probe is the
    active one. *)
Theorem active_snapshot_selection (w : world) (stored_data : option pyval) :
  (forall fetched,
     snd (fetch_rates w) = Some fetched ->
     select_rates_data (Some fetched) stored_data = Some fetched)
  /\ select_rates_data None stored_data = stored_data
  /\ select_rates_data None None = None
  /\ let s := main_startup w in
     run_db_data s = snd (load_db w)
     /\ (forall fetched,
           run_fresh_data s = Some fetched ->
           snd (fetch_rates w) = Some fetched)
     /\ match run_fresh_data s with
        | Some fetched => run_rates_data s = Some fetched
        | None => run_rates_data s = run_db_data s
        end
     /\ run_internet s = snd (check_internet w)
     /\ run_fresh_data s
        = (if run_internet s then snd (fetch_rates w) else None)
     /\ run_rates_data s
        = select_rates_data (run_fresh_data s) (run_db_data s)
     /\ (forall fetched,
           snd (check_internet w) = true ->
           snd (fetch_rates w) = Some fetched ->
           run_rates_data s = Some fetched)
     /\ (run_fresh_data s = None -> run_rates_data s = snd (load_db w)).
Proof.
  assert (Hsel : forall fetched,
             snd (fetch_rates w) = Some fetched ->
             forall db, select_rates_data (Some fetched) db = Some fetched).
  { intros fetched Hf db. unfold select_rates_data. cbn [truthy].
    now rewrite (fetch_rates_truthy w fetched Hf). }
  split; [intros fetched Hf; now apply Hsel |].
  split; [reflexivity |]. split; [reflexivity |].
  destruct (main_startup_fields w) as (Hi & Hdb & Hfresh & Hrates & _ & _).
  cbn zeta. split; [exact Hdb |].
  assert (Hfrom : forall fetched,
             run_fresh_data (main_startup w) = Some fetched ->
             snd (fetch_rates w) = Some fetched).
  { intros fetched E. rewrite Hfresh in E.
    destruct (snd (check_internet w)); [exact E | discriminate]. }
  split; [exact Hfrom |].
  split.
  { rewrite Hrates.
    destruct (run_fresh_data (main_startup w)) as [fetched |]; [| reflexivity].
    apply Hsel. now apply Hfrom. }
  split; [exact Hi |].
  split; [rewrite Hi; exact Hfresh |].
  split; [exact Hrates |].
  split.
  - intros fetched Hprobe Hf. rewrite Hrates, Hfresh, Hprobe, Hf.
    now apply Hsel.
  - intros Hnone. rewrite Hrates, Hnone, Hdb. reflexivity.
Qed.

(** ** What a run contacts and what it stores *)

Lemma probe_trace (w : world) (urls : list string) :
  fetch_attempted (fst (check_internet_from w urls)) = false
  /\ saved_snapshots (fst (check_internet_from w urls)) = [].
Proof.
  induction urls as [| url rest IH]; cbn; [auto |].
  destruct (head_ok w url); cbn; [auto |].
  destruct (check_internet_from w rest) as [t r]. cbn in *. exact IH.
Qed.

Lemma load_trace (w : world) :
  fetch_attempted (fst (load_db w)) = false
  /\ saved_snapshots (fst (load_db w)) = [].
Proof.
  unfold load_db. destruct (stored w) as [| | data]; cbn; auto.
  destruct (validate_api_response data None) as [[[|] m] | e]; cbn; auto.
Qed.

Lemma fetch_trace (w : world) :
  fetch_attempted (fst (fetch_rates w)) = true
  /\ saved_snapshots (fst (fetch_rates w)) = [].
Proof.
  unfold fetch_rates. split.
  - unfold API_URLS. cbn [fetch_rates_from].
    destruct (try_provider w _); [reflexivity |].
    destruct (try_provider w _); reflexivity.
  - pose proof (fetch_rates_from_scan w API_URLS) as H.
    destruct (fetch_rates_from w API_URLS) as [t [data |]]; cbn [fst].
    + destruct H as (before & url & after & _ & _ & _ & ->).
      induction (before ++ [url]); cbn; auto.
    + destruct H as [_ ->]. reflexivity.
Qed.

Lemma saved_snapshots_app (t1 t2 : list event) :
  saved_snapshots (t1 ++ t2) = saved_snapshots t1 ++ saved_snapshots t2.
Proof. apply flat_map_app. Qed.

Lemma fetch_attempted_app (t1 t2 : list event) :
  fetch_attempted (t1 ++ t2) = fetch_attempted t1 || fetch_attempted t2.
Proof. apply existsb_app. Qed.

(** The store is written exactly when a fetch result is present, and
    with that result. *)
Lemma main_startup_saves (w : world) :
  saved_snapshots (run_trace (main_startup w))
  = match run_fresh_data (main_startup w) with
    | Some data => [data]
    | None => []
    end.
Proof.
  destruct (main_startup_fields w) as (_ & _ & Hfresh & _ & _ & Htrace).
  rewrite Htrace, Hfresh, !saved_snapshots_app.
  destruct (probe_trace w test_urls) as [_ Hp]. unfold check_internet.
  rewrite Hp. destruct (load_trace w) as [_ Hl]. rewrite Hl. cbn [app].
  destruct (snd (check_internet_from w test_urls)); [| reflexivity].
  rewrite saved_snapshots_app. destruct (fetch_trace w) as [_ Hf].
  rewrite Hf. destruct (snd (fetch_rates w)); reflexivity.
Qed.

(** C5 as stated fails: when no host answers the probe, no provider is
    contacted and there is no fresh data, although the providers would
    have answered. *)
Lemma fetch_skipped_offline_counterexample :
  snd (check_internet offline_world) = false
  /\ snd (fetch_rates offline_world) <> None
  /\ fetch_attempted (run_trace (main_startup offline_world)) <> true
  /\ run_fresh_data (main_startup offline_world) = None.
Proof. vm_compute. repeat split; discriminate. Qed.

(** C5, amended: a provider is contacted exactly when the probe found
    connectivity; then the result of the fetch is the fresh data of the
    run, and otherwise there is none.  The probe result also selects the
    wording of the status message. *)
Theorem fetch_gated_by_probe (w : world) :
  let s := main_startup w in
  run_internet s = snd (check_internet w)
  /\ fetch_attempted (run_trace s) = run_internet s
  /\ run_fresh_data s = (if run_internet s then snd (fetch_rates w) else None)
  /\ run_status s
     = display_status_message w (run_internet s) (run_db_data s)
         (run_fresh_data s).
Proof.
  destruct (main_startup_fields w) as (Hi & _ & Hfresh & _ & Hstatus & Htrace).
  cbn zeta. rewrite Htrace, Hi, Hfresh, !fetch_attempted_app.
  destruct (probe_trace w test_urls) as [Hp _]. unfold check_internet in *.
  rewrite Hp. destruct (load_trace w) as [Hl _]. rewrite Hl. cbn [orb].
  repeat split.
  - destruct (snd (check_internet_from w test_urls)); [| reflexivity].
    rewrite fetch_attempted_app. destruct (fetch_trace w) as [Hf _].
    now rewrite Hf.
  - rewrite Hstatus, Hi, Hfresh. reflexivity.
Qed.

(** ** Which snapshots are stored and used *)

Lemma bind_ok {A B : Type} (c : result A) (k : A -> result B) (b : B) :
  bind c k = Ok b -> exists a, c = Ok a /\ k a = Ok b.
Proof. destruct c as [a | e]; cbn; [eauto | discriminate]. Qed.

(** Every entry of the menu has a rate that passed the test [> 0]. *)
Lemma available_from_positive (data : pyval) (catalog : list (string * string)) :
  forall available,
    available_from data catalog = Ok available ->
    forall code name,
      In (code, name) available ->
      exists rates v,
        py_getitem data "rates" = Ok rates
        /\ py_getitem rates code = Ok v
        /\ py_gt0 v = Ok true.
Proof.
  induction catalog as [| [c n] rest IH]; cbn [available_from].
  - intros available H. apply Ok_inj in H. subst. intros code name [].
  - intros available H code name Hin.
    apply bind_ok in H as (rates & Hr & H).
    apply bind_ok in H as (present & Hp & H).
    apply bind_ok in H as (keep & Hk & H).
    apply bind_ok in H as (tl & Htl & H).
    apply Ok_inj in H. subst available.
    destruct keep.
    + destruct Hin as [E | Hin]; [| eauto].
      assert (c = code) by congruence. subst c.
      destruct present; [| discriminate].
      apply bind_ok in Hk as (rates' & Hr' & Hk).
      apply bind_ok in Hk as (v & Hv & Hk).
      rewrite Hr in Hr'. apply Ok_inj in Hr'. subst rates'. eauto.
    + eauto.
Qed.

(** C4 as stated fails: the run in [zero_rub_world] stores and then
    uses a snapshot in which RUB is quoted at zero. *)
Lemma zero_rate_snapshot_stored_counterexample :
  ~ (forall data,
       In data (saved_snapshots (run_trace (main_startup zero_rub_world)))
       \/ run_rates_data (main_startup zero_rub_world) = Some data ->
       valid_snapshot data = true).
Proof.
  intros H.
  assert (Hsaved : In zero_rub_stamped
                     (saved_snapshots (run_trace (main_startup zero_rub_world))))
    by (vm_compute; left; reflexivity).
  specialize (H zero_rub_stamped (or_introl Hsaved)).
  vm_compute in H. discriminate H.
Qed.

(** The same run enters the loop with that snapshot, and a run whose
    provider answers with no rates at all stores its answer too. *)
Example zero_rate_snapshot_used :
  main_entry zero_rub_world
  = Ok (Ready zero_rub_stamped ["RUB"] [("USD", "US Dollar"); ("EUR", "Euro")]).
Proof. vm_compute. reflexivity. Qed.

Example empty_rates_snapshot_stored :
  exists data,
    saved_snapshots (run_trace (main_startup empty_rates_world)) = [data]
    /\ run_rates_data (main_startup empty_rates_world) = Some data
    /\ py_getitem data "rates" = Ok (PDict [])
    /\ main_entry empty_rates_world = Ok NoCurrencies.
Proof. vm_compute. eexists. repeat split. Qed.

(** C4, amended: every snapshot that a run stores or uses as its active
    snapshot passes the structural checks (the keys rates, base and date
    are present and rates is a mapping); the sign of a rate is tested
    per currency, and every currency of the menu built from the active
    snapshot has a rate that is strictly positive. *)
Theorem stored_and_active_structurally_valid (w : world) (data : pyval) :
  In data (saved_snapshots (run_trace (main_startup w)))
  \/ run_rates_data (main_startup w) = Some data ->
  structurally_valid data = true
  /\ forall missing currencies code name,
       main_entry w = Ok (Ready data missing currencies) ->
       In (code, name) currencies ->
       exists rates v,
         py_getitem data "rates" = Ok rates
         /\ py_getitem rates code = Ok v
         /\ py_gt0 v = Ok true.
Proof.
  intros Hdata. split.
  - destruct (main_startup_fields w) as (_ & Hdb & Hfresh & Hrates & _ & _).
    assert (Hfetched : forall d, run_fresh_data (main_startup w) = Some d ->
                                 structurally_valid d = true).
    { intros d E. rewrite Hfresh in E. apply (fetch_rates_structural w).
      destruct (snd (check_internet w)); [exact E | discriminate]. }
    destruct Hdata as [Hsaved | Hactive].
    + rewrite main_startup_saves in Hsaved.
      destruct (run_fresh_data (main_startup w)) as [d |]; [| destruct Hsaved].
      destruct Hsaved as [<- | []]. now apply Hfetched.
    + rewrite Hrates in Hactive. unfold select_rates_data in Hactive.
      destruct (truthy (run_fresh_data (main_startup w))).
      * now apply Hfetched.
      * apply (load_db_structural w). now rewrite <- Hdb.
  - intros missing currencies code name Hentry Hin.
    unfold main_entry in Hentry.
    apply bind_ok in Hentry as (m & _ & Hentry).
    destruct (run_rates_data (main_startup w)) as [active |];
      [| discriminate].
    destruct (negb (py_truthy active)); [discriminate |].
    apply bind_ok in Hentry as (miss & _ & Hentry).
    apply bind_ok in Hentry as (avail & Hav & Hentry).
    destruct avail as [| entry rest]; [discriminate |].
    assert (E : Ready active miss (entry :: rest)
                = Ready data missing currencies) by now apply Ok_inj.
    assert (active = data /\ entry :: rest = currencies) as [-> <-]
      by (split; congruence).
    apply (available_from_positive _ _ _ Hav _ _ Hin).
Qed.

Lemma stored_and_active_structurally_valid_witness :
  structurally_valid zero_rub_stamped = true
  /\ forall missing currencies code name,
       main_entry zero_rub_world = Ok (Ready zero_rub_stamped missing currencies) ->
       In (code, name) currencies ->
       exists rates v,
         py_getitem zero_rub_stamped "rates" = Ok rates
         /\ py_getitem rates code = Ok v
         /\ py_gt0 v = Ok true.
Proof.
  apply (stored_and_active_structurally_valid zero_rub_world zero_rub_stamped).
  right. reflexivity.
Defined.

(** ** Age of the stored snapshot *)


Lemma fromtimestamp_int (w : world) (ts : Z) :
  fromtimestamp w (PInt ts)
  = if readable w ts then Ok (local_seconds w ts * us_per_second)
    else Raise OverflowError.
Proof. reflexivity. Qed.

Lemma fromtimestamp_int_ok (w : world) (ts fetched_at : Z) :
  fromtimestamp w (PInt ts) = Ok fetched_at ->
  readable w ts = true /\ fetched_at = local_seconds w ts * us_per_second.
Proof.
  rewrite fromtimestamp_int. destruct (readable w ts); [| discriminate].
  intros H. apply Ok_inj in H. split; [reflexivity | symmetry; exact H].
Qed.

(** Where the offset is the same at both instants, the difference of
    the two wall-clock readings is the elapsed time. *)
Lemma same_offset_age (w : world) (ts : Z) :
  utc_offset w (now_us w / us_per_second) = utc_offset w ts ->
  datetime_now w - local_seconds w ts * us_per_second
  = now_us w - ts * us_per_second.
Proof.
  intros H. unfold datetime_now, local_seconds. rewrite H. ring.
Qed.

(** The message of the fallback to the store, for either outcome of the
    probe. *)
Lemma fallback_status (w : world) (internet_available : bool) (d : dict)
  (ts fetched_at : Z) (date : pyval) :
  dict_get d "timestamp" = Some (PInt ts) ->
  fromtimestamp w (PInt ts) = Ok fetched_at ->
  dict_get d "date_fetched" = Some date ->
  exists m,
    display_status_message w internet_available (Some (PDict d)) None = Ok m
    /\ mentions "outdated" m
       = (7 <? timedelta_days (datetime_now w - fetched_at))
    /\ mentions "current" m
       = negb (7 <? timedelta_days (datetime_now w - fetched_at)).
Proof.
  intros Hts Hread Hdate.
  assert (Htruthy : truthy (Some (PDict d)) = true)
    by (destruct d; [discriminate | reflexivity]).
  unfold display_status_message, days_old_of. rewrite Htruthy.
  cbn [truthy subscript py_getitem]. rewrite Hts, Hdate. cbn [bind].
  rewrite Hread. cbn [bind].
  destruct internet_available;
    destruct (7 <? timedelta_days (datetime_now w - fetched_at));
    eexists; (split; [reflexivity |]); split; vm_compute; reflexivity.
Qed.




(** Across the end of summer time the wall clock gains an hour: a
    snapshot fetched 7 days and 30 minutes before the run is 6 days, 23
    hours and 30 minutes old for the program, hence fresh and reported
    as current. *)
Example age_across_offset_change :
  now_us autumn_world - 1761134400 * us_per_second
  = 7 * us_per_day + 1800 * us_per_second
  /\ fromtimestamp autumn_world (PInt 1761134400)
     = Ok ((1761134400 + 7200) * us_per_second)
  /\ datetime_now autumn_world - (1761134400 + 7200) * us_per_second
     = 7 * us_per_day - 1800 * us_per_second
  /\ is_data_fresh autumn_world (PDict autumn_snapshot) 7 = Ok true
  /\ exists m,
       run_status (main_startup autumn_world) = Ok m
       /\ mentions "current" m = true
       /\ mentions "outdated" m = false.
Proof.
  repeat (split; [vm_compute; reflexivity |]).
  eexists. vm_compute. repeat split.
Qed.

(** The first day of year 1 cannot be read: the reading one day earlier
    falls in year 0.  The second day can. *)
Example first_day_of_year_one :
  fromtimestamp (sample_world false (fun _ => RequestFailed) NoFile)
    (PInt min_timestamp)
  = Raise OverflowError
  /\ fromtimestamp (sample_world false (fun _ => RequestFailed) NoFile)
       (PInt (min_timestamp + 86399))
     = Raise OverflowError
  /\ fromtimestamp (sample_world false (fun _ => RequestFailed) NoFile)
       (PInt (min_timestamp + 86400))
     = Ok ((min_timestamp + 86400) * us_per_second)
  /\ fromtimestamp (sample_world false (fun _ => RequestFailed) NoFile)
       (PInt max_timestamp)
     = Ok (max_timestamp * us_per_second)
  /\ fromtimestamp (sample_world false (fun _ => RequestFailed) NoFile)
       (PInt (max_timestamp + 1))
     = Raise OverflowError.
Proof. repeat split. Qed.

(** The two thresholds differ: a snapshot that is exactly 7 days old is
    not fresh for [is_data_fresh], and is reported as current. *)
Example seven_days_old :
  is_data_fresh (old_store_world 7) (PDict (stamped_snapshot 7)) 7 = Ok false
  /\ exists m,
       run_status (main_startup (old_store_world 7)) = Ok m
       /\ mentions "current" m = true
       /\ mentions "outdated" m = false.
Proof. split; [| eexists]; vm_compute; repeat split. Qed.

Example ten_days_old :
  exists m,
    run_status (main_startup (old_store_world 10)) = Ok m
    /\ mentions "outdated" m = true
    /\ run_rates_data (main_startup (old_store_world 10))
       = Some (PDict (stamped_snapshot 10)).
Proof. eexists. vm_compute. repeat split. Qed.

(** ** A store file without the stamp *)

(** A store with the three required keys and nothing else is accepted,
    and the status message of the run fails on ['timestamp']. *)
Example unstamped_store_status_fails :
  snd (load_db unstamped_store_world) = Some example_snapshot
  /\ run_rates_data (main_startup unstamped_store_world)
     = Some example_snapshot
  /\ run_status (main_startup unstamped_store_world)
     = Raise (KeyError "timestamp")
  /\ exit_status_at_entry unstamped_store_world = Some 1.
Proof. vm_compute. repeat split. Qed.

(** With a timestamp but no display date, the status message fails on
    ['date_fetched'] instead. *)
Example undated_store_raises_key_error :
  snd (load_db undated_store_world) <> None
  /\ main_entry undated_store_world = Raise (KeyError "date_fetched").
Proof. vm_compute. split; [discriminate | reflexivity]. Qed.

(** Inside the loop the failed lookup of the result display is caught
    by the handler of the [try] block: the lines printed so far are
    followed by the report of a conversion error. *)
Example result_display_key_error_is_reported :
  convert_and_show example_snapshot ("USD", "US Dollar") ("EUR", "Euro") 100
  = [Text separator;
     Text [Lit "Conversion result:"];
     Text [FmtMoney 100; Lit " "; Fmt (PStr "US Dollar"); Lit " (";
           Fmt (PStr "USD"); Lit ")"];
     Text [Sym Arrow; Lit " "; FmtMoney 90; Lit " "; Fmt (PStr "Euro");
           Lit " ("; Fmt (PStr "EUR"); Lit ")"];
     ConversionError (KeyError "date_fetched");
     Text [Lit "Try selecting different currencies or updating data."]].
Proof. vm_compute. reflexivity. Qed.

(** ** The two conversion errors print differently *)

Lemma last_char_none (s : string) : last_char s = None -> s = "".
Proof.
  induction s as [| c s IH]; [reflexivity |].
  cbn [last_char]. destruct s; [discriminate | intros H].
  specialize (IH H). discriminate IH.
Qed.

Lemma last_char_app (s t : string) :
  last_char (s ++ t)
  = match last_char t with Some c => Some c | None => last_char s end.
Proof.
  induction s as [| c s IH]; cbn [append].
  - destruct (last_char t); reflexivity.
  - destruct (last_char t) as [x |] eqn:Et.
    + cbn [last_char]. rewrite IH.
      destruct (s ++ t)%string eqn:E; [| reflexivity].
      destruct s; cbn in E; [subst t; discriminate Et | discriminate E].
    + apply last_char_none in Et. subst t.
      assert (E : (s ++ "")%string = s)
        by (clear; induction s; cbn; congruence).
      rewrite E. reflexivity.
Qed.

Lemma render_unknown_last (sv : pyval -> string) (sg : glyph -> string)
  (sm : float -> string) (m : fstring) :
  is_unknown_currency (ValueError m) = true ->
  last_char (render sv sg sm m) = Some "a"%char.
Proof.
  unfold is_unknown_currency. intros H.
  destruct m as [| p1 [| p2 [| p3 [| p4 rest]]]]; split_match;
    try discriminate H.
  apply andb_true_iff in H as [_ H]. apply String.eqb_eq in H. subst.
  cbn [render]. rewrite !last_char_app. reflexivity.
Qed.

Lemma render_invalid_last (sv : pyval -> string) (sg : glyph -> string)
  (sm : float -> string) (m : fstring) :
  is_invalid_rate (ValueError m) = true ->
  last_char (render sv sg sm m) = Some "d"%char.
Proof.
  unfold is_invalid_rate. intros H.
  destruct m as [| p1 [| p2 [| p3 [| p4 [| p5 [| p6 rest]]]]]]; split_match;
    try discriminate H;
    apply andb_true_iff in H as [_ H]; apply String.eqb_eq in H; subst;
    cbn [render]; rewrite !last_char_app; reflexivity.
Qed.

(** However values are formatted, the text of an unknown-currency error
    ends in "data" and the text of an invalid-rate error in "invalid". *)
Lemma conversion_errors_print_differently (sv : pyval -> string)
  (sg : glyph -> string) (sm : float -> string) (m1 m2 : fstring) :
  is_unknown_currency (ValueError m1) = true ->
  is_invalid_rate (ValueError m2) = true ->
  render sv sg sm m1 <> render sv sg sm m2.
Proof.
  intros H1 H2 E.
  pose proof (render_unknown_last sv sg sm m1 H1) as L1.
  pose proof (render_invalid_last sv sg sm m2 H2) as L2.
  rewrite E, L2 in L1. discriminate L1.
Qed.

(** * Further properties of the program *)

(** ** check_internet *)

Lemma check_internet_from_scan (w : world) (urls : list string) :
  match check_internet_from w urls with
  | (t, false) =>
      (forall u, In u urls -> head_ok w u = false) /\ t = map EvHead urls
  | (t, true) =>
      exists before url after,
        urls = before ++ url :: after
        /\ (forall u, In u before -> head_ok w u = false)
        /\ head_ok w url = true
        /\ t = map EvHead (before ++ [url])
  end.
Proof.
  induction urls as [| url rest IH]; cbn [check_internet_from].
  - split; [intros u [] | reflexivity].
  - destruct (head_ok w url) eqn:Hh.
    + exists [], url, rest. cbn. repeat split; auto. intros u [].
    + destruct (check_internet_from w rest) as [t [|]].
      * destruct IH as (before & u0 & after & -> & Hb & Hu & ->).
        exists (url :: before), u0, after. cbn. repeat split; auto.
        intros u [<- | Hin]; auto.
      * destruct IH as [Hall ->]. split; [| reflexivity].
        intros u [<- | Hin]; auto.
Qed.

(** X1: The probe answers [True] exactly when one of the three hosts
    answers; the hosts are contacted in their order, up to the first
    that answers and no further. *)
Theorem check_internet_first_answer (w : world) :
  (snd (check_internet w) = true
   <-> exists url, In url test_urls /\ head_ok w url = true)
  /\ (snd (check_internet w) = false ->
      fst (check_internet w) = map EvHead test_urls)
  /\ (snd (check_internet w) = true ->
      exists before url after,
        test_urls = before ++ url :: after
        /\ (forall u, In u before -> head_ok w u = false)
        /\ head_ok w url = true
        /\ fst (check_internet w) = map EvHead (before ++ [url])).
Proof.
  unfold check_internet.
  pose proof (check_internet_from_scan w test_urls) as H.
  destruct (check_internet_from w test_urls) as [t [|]]; cbn [fst snd].
  - destruct H as (before & url & after & Hsplit & Hb & Hu & Ht).
    split; [| split].
    + split; [intros _ | reflexivity]. exists url. split; [| exact Hu].
      rewrite Hsplit. apply in_or_app. right. left. reflexivity.
    + discriminate.
    + intros _. exists before, url, after. auto.
  - destruct H as [Hall Ht]. split; [| split].
    + split; [discriminate |]. intros (url & Hin & Hu).
      rewrite (Hall url Hin) in Hu. discriminate.
    + auto.
    + discriminate.
Qed.

(** ** validate_api_response *)

(** X2: The validation never raises on a dict, and it accepts exactly the
    dicts that hold the three keys with a dict under ['rates'] and, when
    a base is expected, that base under ['base'].  Nothing that is not
    a dict is accepted: on a list or a string that happens to contain
    the three names, the subscript raises. *)
Theorem validate_accepts_exactly (data : pyval) (expected_base : option string)
  (m : fstring) :
  validate_api_response data expected_base = Ok (true, m)
  <-> exists d,
        data = PDict d
        /\ dict_mem d "rates" = true /\ dict_mem d "base" = true
        /\ dict_mem d "date" = true
        /\ (exists rates, dict_get d "rates" = Some (PDict rates))
        /\ base_matches d expected_base = true
        /\ m = [Lit "Data is valid"].
Proof.
  split.
  - intros H. destruct (validate_true_is_dict _ _ _ H) as [d ->].
    exists d. split; [reflexivity |]. revert H.
    unfold validate_api_response, required_fields, base_matches.
    cbn [first_missing py_in bind py_getitem]. unfold dict_mem.
    destruct (dict_get d "rates") as [vr |]; cbn; [| discriminate].
    destruct (dict_get d "base") as [vb |]; cbn; [| discriminate].
    destruct (dict_get d "date") as [vd |]; cbn; [| discriminate].
    destruct vr; cbn; try discriminate.
    destruct expected_base as [eb |]; cbn.
    + destruct (String.eqb eb ""); cbn.
      * intros H. repeat split; eauto. now inversion H.
      * destruct (py_ne_str vb eb); cbn; [discriminate |].
        intros H. repeat split; eauto. now inversion H.
    + intros H. repeat split; eauto. now inversion H.
  - intros (d & -> & Hr & Hb & Hd & [rates Hrates] & Hbase & ->).
    revert Hr Hb Hd Hbase.
    unfold validate_api_response, required_fields, base_matches.
    cbn [first_missing py_in bind py_getitem]. unfold dict_mem.
    rewrite Hrates. cbn.
    destruct (dict_get d "base") as [vb |]; cbn; [| discriminate].
    destruct (dict_get d "date") as [vd |]; cbn; [| discriminate].
    intros _ _ _. destruct expected_base as [eb |]; cbn; [| reflexivity].
    destruct (String.eqb eb ""); cbn; [reflexivity |].
    destruct (py_ne_str vb eb); cbn; [discriminate | reflexivity].
Qed.

(** ** What fetch_rates returns *)

(** A fetch result is the dict of an endpoint of the list, validated
    against the base that the URL names, with the two stamps set. *)
Lemma fetch_rates_origin (w : world) (data : pyval) :
  snd (fetch_rates w) = Some data ->
  exists url d m,
    In url API_URLS
    /\ http_get w url = JsonBody (PDict d)
    /\ validate_api_response (PDict d) (Some (last_segment url)) = Ok (true, m)
    /\ data = PDict (dict_set (dict_set d "date_fetched" (PStr (date_str w)))
                       "timestamp" (PInt (time_time w))).
Proof.
  unfold fetch_rates. intros H.
  pose proof (fetch_rates_from_scan w API_URLS) as Hscan.
  destruct (fetch_rates_from w API_URLS) as [t [data' |]]; [| discriminate].
  cbn in H. assert (data' = data) by now inversion H. subst data'.
  destruct Hscan as (before & url & after & Hsplit & _ & Hu & _).
  unfold try_provider in Hu.
  destruct (http_get w url) as [| | body] eqn:Hget; try discriminate.
  destruct (validate_api_response body (Some (last_segment url)))
    as [[[|] m] | e] eqn:Hv; try discriminate.
  destruct (validate_true_is_dict _ _ _ Hv) as [d ->].
  rewrite stamp_dict in Hu.
  exists url, d, m. repeat split; auto.
  - rewrite Hsplit. apply in_or_app. right. left. reflexivity.
  - now inversion Hu.
Qed.

Lemma validate_true_base (d : dict) (eb : string) (m : fstring) :
  validate_api_response (PDict d) (Some eb) = Ok (true, m) ->
  eb <> "" -> dict_get d "base" = Some (PStr eb).
Proof.
  unfold validate_api_response, required_fields.
  cbn [first_missing py_in bind py_getitem]. unfold dict_mem.
  destruct (dict_get d "rates") as [vr |]; cbn; [| discriminate].
  destruct (dict_get d "base") as [vb |]; cbn; [| discriminate].
  destruct (dict_get d "date") as [vd |]; cbn; [| discriminate].
  destruct (is_dict vr); cbn; [| discriminate].
  intros H Hne. destruct (String.eqb eb "") eqn:E.
  - apply String.eqb_eq in E. contradiction.
  - cbn in H. destruct vb; cbn in H; try discriminate H.
    destruct (String.eqb s eb) eqn:Es; cbn in H; [| discriminate H].
    apply String.eqb_eq in Es. now subst s.
Qed.

(** X3: The base of a fetched snapshot is the currency named by the
    endpoint that answered, so it is USD or EUR; a body quoted against
    any other base is never returned. *)
Theorem fetched_base_is_endpoint_currency (w : world) (data : pyval) :
  snd (fetch_rates w) = Some data ->
  (exists url,
     In url API_URLS
     /\ provider_fails w url = false
     /\ py_getitem data "base" = Ok (PStr (last_segment url)))
  /\ (py_getitem data "base" = Ok (PStr "USD")
      \/ py_getitem data "base" = Ok (PStr "EUR")).
Proof.
  intros H.
  destruct (fetch_rates_origin w data H) as (url & d & m & Hin & Hget & Hv & ->).
  assert (Hne : last_segment url <> "").
  { destruct Hin as [<- | [<- | []]]; vm_compute; discriminate. }
  pose proof (validate_true_base d _ m Hv Hne) as Hbase.
  assert (Hb : py_getitem
                 (PDict (dict_set (dict_set d "date_fetched" (PStr (date_str w)))
                           "timestamp" (PInt (time_time w)))) "base"
               = Ok (PStr (last_segment url))).
  { cbn [py_getitem]. rewrite !dict_get_set. cbn. now rewrite Hbase. }
  split.
  - exists url. repeat split; auto.
    unfold provider_fails. now rewrite Hget, Hv.
  - rewrite Hb. destruct Hin as [<- | [<- | []]]; [left | right];
      vm_compute; reflexivity.
Qed.

Lemma fetched_base_is_endpoint_currency_witness :
  (exists url,
     In url API_URLS
     /\ provider_fails zero_rub_world url = false
     /\ py_getitem zero_rub_stamped "base" = Ok (PStr (last_segment url)))
  /\ (py_getitem zero_rub_stamped "base" = Ok (PStr "USD")
      \/ py_getitem zero_rub_stamped "base" = Ok (PStr "EUR")).
Proof.
  apply (fetched_base_is_endpoint_currency zero_rub_world zero_rub_stamped).
  reflexivity.
Defined.

(** A body whose base is not the one of the URL is skipped: when a
    EUR-based body is served at both addresses, the USD endpoint fails
    and the result comes from the EUR endpoint. *)
Example eur_body_served_everywhere :
  let eur_body :=
    PDict [("base", PStr "EUR"); ("date", PStr "2025-08-25");
           ("rates", PDict [("EUR", PInt 1); ("USD", PFloat 1.1)])] in
  let w := sample_world true (fun _ => JsonBody eur_body) NoFile in
  fst (fetch_rates w) = map EvGet API_URLS
  /\ exists data,
       snd (fetch_rates w) = Some data
       /\ py_getitem data "base" = Ok (PStr "EUR").
Proof. vm_compute. split; [reflexivity | eexists; split; reflexivity]. Qed.

(** Conversions and the menu read the entry ['rates'] only. *)
Lemma perform_conversion_reads_rates (d1 d2 : dict) (src tgt : string)
  (amount : float) :
  dict_get d1 "rates" = dict_get d2 "rates" ->
  perform_conversion (PDict d1) src tgt amount
  = perform_conversion (PDict d2) src tgt amount.
Proof.
  intros H. unfold perform_conversion. cbn [py_getitem]. rewrite H.
  reflexivity.
Qed.

Lemma available_from_reads_rates (d1 d2 : dict)
  (catalog : list (string * string)) :
  dict_get d1 "rates" = dict_get d2 "rates" ->
  available_from (PDict d1) catalog = available_from (PDict d2) catalog.
Proof.
  intros H. induction catalog as [| [code name] rest IH];
    cbn [available_from py_getitem]; [reflexivity |].
  rewrite H, IH. reflexivity.
Qed.

(** X4: Stamping is transparent: apart from the two stamps, a fetched
    snapshot holds what the provider sent under every key; it converts
    every amount, and lists the same currencies, as the body the
    provider sent. *)
Theorem fetched_snapshot_converts_as_body (w : world) (data : pyval) :
  snd (fetch_rates w) = Some data ->
  exists url body,
    In url API_URLS
    /\ http_get w url = JsonBody body
    /\ (forall k, k <> "date_fetched" -> k <> "timestamp" ->
         py_getitem data k = py_getitem body k)
    /\ (forall src tgt amount,
          perform_conversion data src tgt amount
          = perform_conversion body src tgt amount)
    /\ get_available_currencies data = get_available_currencies body.
Proof.
  intros H.
  destruct (fetch_rates_origin w data H) as (url & d & m & Hin & Hget & _ & ->).
  assert (Hr : dict_get (dict_set (dict_set d "date_fetched" (PStr (date_str w)))
                           "timestamp" (PInt (time_time w))) "rates"
               = dict_get d "rates")
    by (rewrite !dict_get_set; reflexivity).
  exists url, (PDict d). repeat split; auto.
  - intros k Hk1 Hk2. cbn [py_getitem]. rewrite !dict_get_set.
    apply String.eqb_neq in Hk1, Hk2. rewrite String.eqb_sym in Hk1, Hk2.
    now rewrite Hk1, Hk2.
  - intros. now apply perform_conversion_reads_rates.
  - now apply available_from_reads_rates.
Qed.

Lemma fetched_snapshot_converts_as_body_witness :
  exists url body,
    In url API_URLS
    /\ http_get zero_rub_world url = JsonBody body
    /\ (forall k, k <> "date_fetched" -> k <> "timestamp" ->
         py_getitem zero_rub_stamped k = py_getitem body k)
    /\ (forall src tgt amount,
          perform_conversion zero_rub_stamped src tgt amount
          = perform_conversion body src tgt amount)
    /\ get_available_currencies zero_rub_stamped
       = get_available_currencies body.
Proof.
  apply (fetched_snapshot_converts_as_body zero_rub_world zero_rub_stamped).
  reflexivity.
Defined.

(** ** Age of a snapshot that was just fetched *)

Lemma clock_remainder (now : Z) :
  0 <= now ->
  timedelta_days (now - Z.quot now us_per_second * us_per_second) = 0.
Proof.
  intros Hnow. unfold timedelta_days.
  assert (Hs : 0 < us_per_second) by reflexivity.
  rewrite Z.quot_div_nonneg by lia.
  pose proof (Z.mod_pos_bound now us_per_second Hs) as Hm.
  pose proof (Z.div_mod now us_per_second ltac:(lia)) as Hd.
  apply Z.div_small. split; [lia |].
  assert (us_per_second <= us_per_day) by (vm_compute; discriminate).
  lia.
Qed.

(** With offsets of at most a day, every second from 1970 to one day
    before the end of the year 9999 can be read as a local datetime. *)
Lemma readable_bounded_offset (w : world) (z : Z) :
  (forall t, -86400 <= utc_offset w t <= 86400) ->
  0 <= z <= max_timestamp - 86400 ->
  readable w z = true.
Proof.
  intros Hoff Hz.
  unfold readable, in_datetime_range, local_seconds, max_fold_seconds.
  unfold min_timestamp, max_timestamp in *.
  pose proof (Hoff z) as H1. pose proof (Hoff (z - 24 * 3600)) as H2.
  set (transition := z + utc_offset w z
                     - (z - 24 * 3600 + utc_offset w (z - 24 * 3600))
                     - 24 * 3600).
  pose proof (Hoff (z + transition)) as H3.
  assert (Ht : -172800 <= transition <= 172800) by (unfold transition; lia).
  repeat rewrite andb_true_iff. repeat split; try (apply Z.leb_le; lia).
  destruct (transition <? 0) eqn:E; [| reflexivity].
  apply Z.ltb_lt in E.
  rewrite andb_true_iff. split; apply Z.leb_le; lia.
Qed.

(** X5: At the instant of the fetch (clock not before 1970) the snapshot is
    fresh for every positive number of days whenever its stamp can be
    read as a local datetime, and [is_data_fresh] raises what
    [fromtimestamp] raises otherwise; the stamp can be read in every
    zone whose offsets stay within a day, up to one day before the end
    of the year 9999. *)
Theorem fetched_snapshot_is_fresh (w : world) (data : pyval) (max_days : Z) :
  snd (fetch_rates w) = Some data ->
  0 <= now_us w ->
  0 < max_days ->
  is_data_fresh w data max_days
  = (if readable w (time_time w) then Ok true else Raise OverflowError)
  /\ ((forall t, -86400 <= utc_offset w t <= 86400) ->
      time_time w <= max_timestamp - 86400 ->
      is_data_fresh w data max_days = Ok true).
Proof.
  intros H Hnow Hdays.
  destruct (fetch_rates_origin w data H) as (url & d & m & _ & _ & _ & ->).
  assert (Hmain : is_data_fresh w
                    (PDict (dict_set
                              (dict_set d "date_fetched" (PStr (date_str w)))
                              "timestamp" (PInt (time_time w))))
                    max_days
                  = (if readable w (time_time w) then Ok true
                     else Raise OverflowError)).
  { unfold is_data_fresh. cbn [py_in py_getitem]. unfold dict_mem.
    rewrite !dict_get_set. cbn [String.eqb Ascii.eqb Bool.eqb negb bind].
    rewrite fromtimestamp_int.
    destruct (readable w (time_time w)); [| reflexivity].
    cbn [bind].
    assert (Hsec : now_us w / us_per_second = time_time w).
    { unfold time_time. symmetry. apply Z.quot_div_nonneg; [lia | reflexivity]. }
    rewrite (same_offset_age w (time_time w)) by (now rewrite Hsec).
    unfold time_time. rewrite (clock_remainder (now_us w) Hnow).
    apply f_equal. apply Z.ltb_lt. exact Hdays. }
  split; [exact Hmain |].
  intros Hoff Hmax. rewrite Hmain.
  rewrite (readable_bounded_offset w (time_time w) Hoff); [reflexivity |].
  split; [| exact Hmax].
  unfold time_time. apply Z.quot_pos; [lia | reflexivity].
Qed.

Lemma fetched_snapshot_is_fresh_witness :
  is_data_fresh zero_rub_world zero_rub_stamped 7
  = (if readable zero_rub_world (time_time zero_rub_world) then Ok true
     else Raise OverflowError)
  /\ ((forall t, -86400 <= utc_offset zero_rub_world t <= 86400) ->
      time_time zero_rub_world <= max_timestamp - 86400 ->
      is_data_fresh zero_rub_world zero_rub_stamped 7 = Ok true).
Proof.
  apply (fetched_snapshot_is_fresh zero_rub_world zero_rub_stamped 7).
  - reflexivity.
  - vm_compute. discriminate.
  - lia.
Defined.

(** ** The run after a successful fetch *)



(** ** A store written by the program *)

(** X7: Round trip through the store: what one run fetched and saved is
    accepted unchanged by [load_db] in any later run; when that later
    run gets no fresh data, the saved snapshot is its active snapshot;
    and when, in the zone of the later run, the second of the fetch can
    be read as the local datetime [fetched_at], the status message is
    computed without error and reports "outdated" or "current" by the
    whole days between [fetched_at] and the local datetime of the later
    run. *)
Theorem saved_store_is_loaded_back (w0 w : world) (data : pyval)
  (fetched_at : Z) :
  In data (saved_snapshots (run_trace (main_startup w0))) ->
  stored w = Contents data ->
  fromtimestamp w (PInt (time_time w0)) = Ok fetched_at ->
  snd (load_db w) = Some data
  /\ py_getitem data "timestamp" = Ok (PInt (time_time w0))
  /\ fetched_at = local_seconds w (time_time w0) * us_per_second
  /\ (run_fresh_data (main_startup w) = None ->
      run_rates_data (main_startup w) = Some data
      /\ exists m,
           run_status (main_startup w) = Ok m
           /\ mentions "outdated" m
              = (7 <? timedelta_days (datetime_now w - fetched_at))
           /\ mentions "current" m
              = negb (7 <? timedelta_days (datetime_now w - fetched_at))).
Proof.
  intros Hsaved Hstored Hread.
  rewrite main_startup_saves in Hsaved.
  destruct (run_fresh_data (main_startup w0)) as [d0 |] eqn:Hf0;
    [| destruct Hsaved].
  destruct Hsaved as [-> | []].
  destruct (main_startup_fields w0) as (_ & _ & Hfresh0 & _ & _ & _).
  rewrite Hfresh0 in Hf0.
  assert (Hfetch : snd (fetch_rates w0) = Some data)
    by (destruct (snd (check_internet w0)); [exact Hf0 | discriminate]).
  pose proof (fetch_rates_structural w0 data Hfetch) as Hvalid.
  destruct (fetch_rates_origin w0 data Hfetch)
    as (url & d & m & _ & _ & _ & E).
  assert (Hload : snd (load_db w) = Some data).
  { unfold load_db. rewrite Hstored. unfold structurally_valid in Hvalid.
    destruct (validate_api_response data None) as [[[|] m'] | e];
      try discriminate. reflexivity. }
  split; [exact Hload |].
  split; [subst data; cbn [py_getitem]; rewrite !dict_get_set; reflexivity |].
  split; [apply (fromtimestamp_int_ok w _ _ Hread) |].
  intros Hnone.
  destruct (main_startup_fields w) as (_ & Hdb & _ & Hrates & Hstatus & _).
  rewrite Hrates, Hstatus, Hdb, Hload, Hnone. split; [reflexivity |].
  subst data.
  apply (fallback_status w _ _ (time_time w0) fetched_at (PStr (date_str w0)));
    [| exact Hread |]; rewrite !dict_get_set; reflexivity.
Qed.

Lemma saved_store_is_loaded_back_witness :
  let w := sample_world false (fun _ => RequestFailed)
             (Contents zero_rub_stamped) in
  let fetched_at := time_time zero_rub_world * us_per_second in
  snd (load_db w) = Some zero_rub_stamped
  /\ py_getitem zero_rub_stamped "timestamp"
     = Ok (PInt (time_time zero_rub_world))
  /\ fetched_at = local_seconds w (time_time zero_rub_world) * us_per_second
  /\ (run_fresh_data (main_startup w) = None ->
      run_rates_data (main_startup w) = Some zero_rub_stamped
      /\ exists m,
           run_status (main_startup w) = Ok m
           /\ mentions "outdated" m
              = (7 <? timedelta_days (datetime_now w - fetched_at))
           /\ mentions "current" m
              = negb (7 <? timedelta_days (datetime_now w - fetched_at))).
Proof.
  apply (saved_store_is_loaded_back zero_rub_world
           (sample_world false (fun _ => RequestFailed)
              (Contents zero_rub_stamped))
           zero_rub_stamped (time_time zero_rub_world * us_per_second)).
  - vm_compute. left. reflexivity.
  - reflexivity.
  - reflexivity.
Defined.

(** ** How the start of main ends *)

Lemma load_db_truthy (w : world) (data : pyval) :
  snd (load_db w) = Some data -> py_truthy data = true.
Proof.
  intros H. pose proof (load_db_structural w data H) as Hv.
  assert (Hd : exists d, data = PDict d).
  { unfold structurally_valid in Hv.
    destruct (validate_api_response data None) as [[[|] m] | e] eqn:E;
      try discriminate Hv.
    exact (validate_true_is_dict _ _ _ E). }
  destruct Hd as [d ->].
  rewrite structurally_valid_dict in Hv. destruct d; [discriminate Hv |].
  reflexivity.
Qed.

Lemma entry_after_data (rates_data : pyval) :
  (missing_currencies <- missing_from rates_data required_currencies ;;
   currencies <- get_available_currencies rates_data ;;
   match currencies with
   | [] => Ok NoCurrencies
   | _ => Ok (Ready rates_data missing_currencies currencies)
   end) <> Ok NoData.
Proof.
  intros H. apply bind_ok in H as (miss & _ & H).
  apply bind_ok in H as (cur & _ & H). destruct cur; discriminate H.
Qed.

(** X8: The run stops for lack of data exactly when there is no fresh
    snapshot (the probe found nothing, or every provider failed) and the
    store gives none; in every other case it goes on to the currency
    checks or ends with an exception. *)
Theorem no_data_exactly_without_sources (w : world) :
  main_entry w = Ok NoData
  <-> (snd (check_internet w) = false \/ snd (fetch_rates w) = None)
      /\ snd (load_db w) = None.
Proof.
  destruct (main_startup_fields w) as (Hi & Hdb & Hfresh & Hrates & Hstatus & _).
  unfold main_entry. rewrite Hrates, Hstatus, Hi, Hdb, Hfresh.
  split.
  - intros H. apply bind_ok in H as (m & _ & H).
    destruct (snd (check_internet w)) eqn:Hprobe.
    + destruct (snd (fetch_rates w)) as [f |] eqn:Hf.
      * exfalso. pose proof (fetch_rates_truthy w f Hf) as Htr.
        unfold select_rates_data in H. cbn [truthy] in H.
        rewrite Htr in H. cbn iota in H. rewrite Htr in H. cbn [negb] in H.
        exact (entry_after_data f H).
      * split; [right; reflexivity |].
        unfold select_rates_data in H. cbn [truthy] in H.
        destruct (snd (load_db w)) as [d |] eqn:Hl; [| reflexivity].
        exfalso. rewrite (load_db_truthy w d Hl) in H. cbn [negb] in H.
        exact (entry_after_data d H).
    + split; [left; reflexivity |].
      unfold select_rates_data in H. cbn [truthy] in H.
      destruct (snd (load_db w)) as [d |] eqn:Hl; [| reflexivity].
      exfalso. rewrite (load_db_truthy w d Hl) in H. cbn [negb] in H.
      exact (entry_after_data d H).
  - intros [Hnofresh ->].
    assert (E : (if snd (check_internet w) then snd (fetch_rates w) else None)
                = None).
    { destruct Hnofresh as [-> | Hf]; [reflexivity |].
      rewrite Hf. destruct (snd (check_internet w)); reflexivity. }
    rewrite E. unfold display_status_message. cbn [truthy].
    destruct (snd (check_internet w)); reflexivity.
Qed.

(** ** The menu and the conversion *)

Lemma getitem_ok_dict (c : pyval) (k : string) (v : pyval) :
  py_getitem c k = Ok v -> exists d, c = PDict d /\ dict_get d k = Some v.
Proof.
  destruct c; try discriminate. cbn.
  destruct (dict_get d k) as [x |] eqn:E; [| discriminate].
  intros H. apply Ok_inj in H. subst x. eauto.
Qed.

Lemma gt0_not_le0 (v : pyval) : py_gt0 v = Ok true -> py_le0 v = Ok false.
Proof.
  unfold py_gt0, py_le0. destruct (as_number v) as [[z | f] |];
    try discriminate; intros H; apply Ok_inj in H; apply f_equal.
  - apply Z.ltb_lt in H. apply Z.leb_gt. exact H.
  - now apply float_pos_not_le0.
Qed.

(** For two entries of the menu the conversion gets past its four
    checks and is the product of the amount and the quotient. *)
Lemma menu_pair_reaches_division (data : pyval)
  (currencies : list (string * string)) (src tgt : string * string)
  (amount : float) :
  get_available_currencies data = Ok currencies ->
  In src currencies -> In tgt currencies ->
  exists d rates vs vt,
    data = PDict d
    /\ dict_get d "rates" = Some (PDict rates)
    /\ dict_get rates (fst src) = Some vs
    /\ dict_get rates (fst tgt) = Some vt
    /\ py_le0 vs = Ok false
    /\ perform_conversion data (fst src) (fst tgt) amount
       = (cross <- py_truediv vt vs ;; Ok (PrimFloat.mul amount cross)).
Proof.
  intros Hav Hs Ht. destruct src as [sc sn], tgt as [tc tn].
  destruct (available_from_positive _ _ _ Hav _ _ Hs) as (r1 & vs & Hr1 & Hvs & Hps).
  destruct (available_from_positive _ _ _ Hav _ _ Ht) as (r2 & vt & Hr2 & Hvt & Hpt).
  rewrite Hr1 in Hr2. apply Ok_inj in Hr2. subst r2.
  destruct (getitem_ok_dict _ _ _ Hr1) as (d & -> & Hd).
  destruct (getitem_ok_dict _ _ _ Hvs) as (rates & -> & Hgs).
  destruct (getitem_ok_dict _ _ _ Hvt) as (rates' & E & Hgt).
  assert (rates' = rates) by now inversion E. subst rates'.
  exists d, rates, vs, vt. cbn [fst]. repeat split; auto using gt0_not_le0.
  rewrite (perform_conversion_cases _ _ _ _ _ Hd), Hgs, Hgt.
  rewrite (gt0_not_le0 _ Hps), (gt0_not_le0 _ Hpt). reflexivity.
Qed.

(** X9: Every pair of currencies taken from the menu converts without the
    unknown-currency and the invalid-rate errors, whatever the amount;
    when the rates are floats the conversion returns a number. *)
Theorem menu_pairs_convert (data : pyval)
  (currencies : list (string * string)) (src tgt : string * string)
  (amount : float) :
  get_available_currencies data = Ok currencies ->
  In src currencies -> In tgt currencies ->
  let r := perform_conversion data (fst src) (fst tgt) amount in
  fails_with is_unknown_currency r = false
  /\ fails_with is_invalid_rate r = false
  /\ (forall rates,
        py_getitem data "rates" = Ok (PDict rates) ->
        float_rates rates = true -> exists x, r = Ok x).
Proof.
  intros Hav Hs Ht r. subst r.
  destruct (menu_pair_reaches_division data currencies src tgt amount Hav Hs Ht)
    as (d & rates & vs & vt & -> & Hd & Hgs & Hgt & Hle & ->).
  destruct (py_truediv vt vs) as [cross | e] eqn:Hdiv; cbn [bind fails_with].
  - repeat split. eauto.
  - destruct (truediv_error_kind _ _ _ Hdiv) as [Hu Hi].
    repeat split; auto. intros rates' Hr' Hf. exfalso.
    cbn [py_getitem] in Hr'. rewrite Hd in Hr'. apply Ok_inj in Hr'.
    assert (rates' = rates) by now inversion Hr'. subst rates'.
    destruct (float_rates_get _ _ _ Hf Hgs) as [rs ->].
    destruct (float_rates_get _ _ _ Hf Hgt) as [rt ->].
    cbn in Hle. apply Ok_inj in Hle.
    rewrite (truediv_floats rt rs Hle) in Hdiv. discriminate Hdiv.
Qed.

Lemma menu_pairs_convert_witness :
  let r := perform_conversion zero_rub_snapshot "USD" "EUR" 100 in
  fails_with is_unknown_currency r = false
  /\ fails_with is_invalid_rate r = false
  /\ (forall rates,
        py_getitem zero_rub_snapshot "rates" = Ok (PDict rates) ->
        float_rates rates = true -> exists x, r = Ok x).
Proof.
  apply (menu_pairs_convert zero_rub_snapshot
           [("USD", "US Dollar"); ("EUR", "Euro")]
           ("USD", "US Dollar") ("EUR", "Euro") 100).
  - vm_compute. reflexivity.
  - left. reflexivity.
  - right. left. reflexivity.
Defined.

(** An integer rate beyond the binary64 range is offered in the menu
    and then fails in the division. *)
Example menu_pair_with_huge_int :
  let data := PDict [("rates", PDict [("USD", PInt 1); ("EUR", PInt (10 ^ 400))])] in
  get_available_currencies data = Ok [("USD", "US Dollar"); ("EUR", "Euro")]
  /\ perform_conversion data "USD" "EUR" 1 = Raise OverflowError.
Proof. vm_compute. split; reflexivity. Qed.

(** ** The startup warning and the menu *)

(** A currency of the warning list is absent from the rates, or its
    rate passed the test [<= 0]. *)
Lemma missing_from_sound (data : pyval) (required : list string) :
  forall missing,
    missing_from data required = Ok missing ->
    forall code,
      In code missing ->
      In code required
      /\ exists rates,
           py_getitem data "rates" = Ok rates
           /\ (py_in code rates = Ok false
               \/ exists v, py_getitem rates code = Ok v /\ py_le0 v = Ok true).
Proof.
  induction required as [| curr rest IH]; cbn [missing_from].
  - intros missing H. apply Ok_inj in H. subst. intros code [].
  - intros missing H code Hin.
    apply bind_ok in H as (rates & Hr & H).
    apply bind_ok in H as (present & Hp & H).
    apply bind_ok in H as (bad & Hb & H).
    apply bind_ok in H as (others & Ho & H).
    apply Ok_inj in H. subst missing.
    assert (Hrest : In code others ->
                    In code (curr :: rest)
                    /\ exists rates0,
                         py_getitem data "rates" = Ok rates0
                         /\ (py_in code rates0 = Ok false
                             \/ exists v, py_getitem rates0 code = Ok v
                                          /\ py_le0 v = Ok true)).
    { intros Hi. destruct (IH others Ho code Hi) as [Hreq Hex].
      split; [right; exact Hreq | exact Hex]. }
    destruct bad; [| auto].
    destruct Hin as [<- | Hin]; [| auto].
    split; [left; reflexivity |]. exists rates. split; [exact Hr |].
    destruct present; cbn [negb] in Hb.
    + right. apply bind_ok in Hb as (rates' & Hr' & Hb).
      apply bind_ok in Hb as (v & Hv & Hb).
      rewrite Hr in Hr'. apply Ok_inj in Hr'. subst rates'. eauto.
    + left. exact Hp.
Qed.

(** X10: A currency that the startup warning lists as missing or invalid is
    one of USD, EUR, RUB and never appears in the menu of the same
    run. *)
Theorem warned_currency_not_offered (w : world) (data : pyval)
  (missing : list string) (currencies : list (string * string))
  (code : string) :
  main_entry w = Ok (Ready data missing currencies) ->
  In code missing ->
  In code required_currencies
  /\ forall name, ~ In (code, name) currencies.
Proof.
  intros Hentry Hin. unfold main_entry in Hentry.
  apply bind_ok in Hentry as (m & _ & Hentry).
  destruct (run_rates_data (main_startup w)) as [active |]; [| discriminate].
  destruct (negb (py_truthy active)); [discriminate |].
  apply bind_ok in Hentry as (miss & Hmiss & Hentry).
  apply bind_ok in Hentry as (avail & Hav & Hentry).
  destruct avail as [| entry rest]; [discriminate |].
  assert (E : Ready active miss (entry :: rest) = Ready data missing currencies)
    by now apply Ok_inj.
  assert (active = data /\ miss = missing /\ entry :: rest = currencies)
    as (-> & -> & <-) by (repeat split; congruence).
  destruct (missing_from_sound _ _ _ Hmiss code Hin) as (Hreq & rates & Hr & Hbad).
  split; [exact Hreq |]. intros name Hoffered.
  destruct (available_from_positive _ _ _ Hav _ _ Hoffered)
    as (rates' & v & Hr' & Hv & Hpos).
  rewrite Hr in Hr'. apply Ok_inj in Hr'. subst rates'.
  destruct Hbad as [Habsent | (v' & Hv' & Hle)].
  - destruct (getitem_ok_dict _ _ _ Hv) as (rd & -> & Hget).
    cbn in Habsent. unfold dict_mem in Habsent. rewrite Hget in Habsent.
    discriminate Habsent.
  - rewrite Hv in Hv'. apply Ok_inj in Hv'. subst v'.
    rewrite (gt0_not_le0 _ Hpos) in Hle. discriminate Hle.
Qed.

Lemma warned_currency_not_offered_witness :
  In "RUB" required_currencies
  /\ forall name, ~ In ("RUB", name) [("USD", "US Dollar"); ("EUR", "Euro")].
Proof.
  apply (warned_currency_not_offered zero_rub_world zero_rub_stamped ["RUB"]
           [("USD", "US Dollar"); ("EUR", "Euro")] "RUB").
  - vm_compute. reflexivity.
  - left. reflexivity.
Defined.

(** The converse fails for a rate that is not a number in the IEEE
    sense: NaN is neither [<= 0] nor [> 0], so a currency quoted at NaN
    is not in the warning and not in the menu. *)
Example nan_rate_neither_warned_nor_offered :
  let data :=
    PDict [("rates", PDict [("USD", PFloat 1); ("EUR", PFloat 0.9);
                            ("RUB", PFloat nan)])] in
  missing_from data required_currencies = Ok []
  /\ get_available_currencies data = Ok [("USD", "US Dollar"); ("EUR", "Euro")].
Proof. vm_compute. split; reflexivity. Qed.

(** ** Order of binary64 floats *)

Lemma SFcompare_antisym (x y : spec_float) :
  SFcompare y x = option_map CompOpp (SFcompare x y).
Proof.
  destruct x as [sx | sx | | sx mx ex], y as [sy | sy | | sy my ey];
    cbn; try reflexivity;
    try (destruct sx; reflexivity); try (destruct sy; reflexivity);
    try (destruct sx, sy; reflexivity).
  assert (Hm : Pos.compare_cont Eq my mx = CompOpp (Pos.compare_cont Eq mx my))
    by (symmetry; apply (Pos.compare_cont_antisym mx my Eq)).
  destruct sx, sy; cbn; try reflexivity;
    rewrite (Z.compare_antisym ex ey);
    destruct (ex ?= ey); cbn; try reflexivity;
    rewrite Hm; destruct (Pos.compare_cont Eq mx my); reflexivity.
Qed.

Lemma nan_is_nan (x : float) : Prim2SF x = S754_nan -> is_nan x = true.
Proof.
  intros H. unfold is_nan. rewrite eqb_spec, H. reflexivity.
Qed.

(** A float that is not below another one is above or equal to it,
    unless one of the two is NaN. *)
Lemma float_not_lt_cases (x y : float) :
  PrimFloat.ltb y x = false ->
  PrimFloat.leb x y = true \/ is_nan x = true \/ is_nan y = true.
Proof.
  rewrite ltb_spec, leb_spec. unfold SFltb, SFleb.
  rewrite (SFcompare_antisym (Prim2SF x) (Prim2SF y)).
  destruct (SFcompare (Prim2SF x) (Prim2SF y)) as [[| |] |] eqn:E; cbn;
    try discriminate; auto.
  intros _. right.
  destruct (Prim2SF x) eqn:Ex; try (left; now apply nan_is_nan);
    destruct (Prim2SF y) eqn:Ey; try (right; now apply nan_is_nan);
    cbn in E; discriminate E.
Qed.

Lemma float_not_le_cases (x y : float) :
  PrimFloat.leb x y = false ->
  PrimFloat.ltb y x = true \/ is_nan x = true \/ is_nan y = true.
Proof.
  rewrite ltb_spec, leb_spec. unfold SFltb, SFleb.
  rewrite (SFcompare_antisym (Prim2SF x) (Prim2SF y)).
  destruct (SFcompare (Prim2SF x) (Prim2SF y)) as [[| |] |] eqn:E; cbn;
    try discriminate; auto.
  intros _. right.
  destruct (Prim2SF x) eqn:Ex; try (left; now apply nan_is_nan);
    destruct (Prim2SF y) eqn:Ey; try (right; now apply nan_is_nan);
    cbn in E; discriminate E.
Qed.

(** ** The prompts *)

Lemma accepted_amount_range (amount : float) :
  PrimFloat.leb amount 0 = false ->
  PrimFloat.ltb MAX_AMOUNT_float amount = false ->
  (PrimFloat.ltb 0 amount = true
   /\ PrimFloat.leb amount MAX_AMOUNT_float = true)
  \/ is_nan amount = true.
Proof.
  intros Hle Hgt.
  destruct (float_not_le_cases _ _ Hle) as [Hpos | [Hn | Hn]];
    [| right; exact Hn | vm_compute in Hn; discriminate Hn].
  destruct (float_not_lt_cases _ _ Hgt) as [Hmax | [Hn | Hn]];
    [| right; exact Hn | vm_compute in Hn; discriminate Hn].
  left. split; assumption.
Qed.

(** X11: The amount prompt answers with the first line that is not refused,
    that is, the first line that [float] reads as a number neither
    [<= 0] nor [> MAX_AMOUNT]: the answer lies in (0, 10^9], or it is
    NaN, which passes both tests.  Every line before it is a refused
    line and gets its warning, and nothing else is printed.  The prompt
    ends otherwise only at the end of the input, when every line was
    refused. *)
Theorem get_user_amount_answer (c : console) (inputs : list string) :
  match get_user_amount c inputs with
  | (out, Answered amount rest) =>
      ((PrimFloat.ltb 0 amount = true
        /\ PrimFloat.leb amount MAX_AMOUNT_float = true)
       \/ is_nan amount = true)
      /\ exists skipped s,
           inputs = skipped ++ s :: rest
           /\ parse_float c s = Some amount
           /\ amount_refused c s = false
           /\ Forall (fun x => amount_refused c x = true) skipped
           /\ out = map (amount_warning c) skipped
           /\ length out = length skipped
  | (out, Stopped i) =>
      i = EOFError
      /\ Forall (fun x => amount_refused c x = true) inputs
      /\ out = map (amount_warning c) inputs
      /\ length out = length inputs
  end.
Proof.
  induction inputs as [| s rest IH]; cbn [get_user_amount].
  - repeat split. constructor.
  - assert (Hskip :
      amount_refused c s = true ->
      match (let '(out, r) := get_user_amount c rest in
             (amount_warning c s :: out, r)) with
      | (out, Answered amount rest') =>
          ((PrimFloat.ltb 0 amount = true
            /\ PrimFloat.leb amount MAX_AMOUNT_float = true)
           \/ is_nan amount = true)
          /\ exists skipped s',
               s :: rest = skipped ++ s' :: rest'
               /\ parse_float c s' = Some amount
               /\ amount_refused c s' = false
               /\ Forall (fun x => amount_refused c x = true) skipped
               /\ out = map (amount_warning c) skipped
               /\ length out = length skipped
      | (out, Stopped i) =>
          i = EOFError
          /\ Forall (fun x => amount_refused c x = true) (s :: rest)
          /\ out = map (amount_warning c) (s :: rest)
          /\ length out = length (s :: rest)
      end).
    { intros Href.
      destruct (get_user_amount c rest) as [out [amount rest' | i]].
      - destruct IH as (Hr & skipped & s' & -> & Hp & Hacc & Hall & -> & Hl).
        split; [exact Hr |]. exists (s :: skipped), s'. cbn.
        repeat split; auto; try (now rewrite length_map).
      - destruct IH as (-> & Hall & -> & Hl). cbn.
        repeat split; auto; try (now rewrite length_map). }
    unfold amount_refused, amount_warning in Hskip.
    destruct (parse_float c s) as [amount |] eqn:Hparse;
      [| apply Hskip; reflexivity].
    destruct (PrimFloat.leb amount 0) eqn:Hle; [apply Hskip; reflexivity |].
    destruct (PrimFloat.ltb MAX_AMOUNT_float amount) eqn:Hgt;
      [apply Hskip; reflexivity |].
    split; [now apply accepted_amount_range |].
    exists [], s. unfold amount_refused. rewrite Hparse, Hle, Hgt.
    repeat split; auto.
Qed.

(** NaN is an accepted amount, and the results computed from it are
    NaN. *)
Example nan_amount_accepted :
  get_user_amount sample_console ["0"; "2e9"; "nan"; "100"]
  = ([warning " Amount must be greater than 0";
      Text [Sym WarningSign; Lit " Amount cannot exceed ";
            FmtMoney MAX_AMOUNT_float]],
     Answered nan ["100"])
  /\ perform_conversion example_snapshot "USD" "EUR" nan = Ok nan.
Proof. vm_compute. split; reflexivity. Qed.

(** The limit of the amount as a float is the integer of the source. *)
Example max_amount_as_float : int_to_float MAX_AMOUNT = Ok MAX_AMOUNT_float.
Proof. vm_compute. reflexivity. Qed.

(** X12: The currency prompt answers only with an entry of the list: the one
    at the position typed (counted from 1) in the first line that is
    not refused, that is, the first line that [int] reads as a number
    between 1 and the length of the list.  Every line before it is a
    refused line and gets its warning, and nothing else is printed.  The
    subscript is never out of range, so the prompt ends otherwise only
    at the end of the input, when every line was refused; on an empty
    list it never answers. *)
Theorem get_user_currency_choice_answer (c : console)
  (currencies : list (string * string)) (inputs : list string) :
  let n := length currencies in
  match get_user_currency_choice c currencies inputs with
  | (out, Answered entry rest) =>
      In entry currencies
      /\ exists skipped s choice,
           inputs = skipped ++ s :: rest
           /\ parse_int c s = Some choice
           /\ 1 <= choice <= Z.of_nat n
           /\ nth_error currencies (Z.to_nat (choice - 1)) = Some entry
           /\ choice_refused c n s = false
           /\ Forall (fun x => choice_refused c n x = true) skipped
           /\ out = map (choice_warning c n) skipped
           /\ length out = length skipped
  | (out, Stopped i) =>
      i = EOFError
      /\ Forall (fun x => choice_refused c n x = true) inputs
      /\ out = map (choice_warning c n) inputs
      /\ length out = length inputs
  end
  /\ (currencies = [] ->
      get_user_currency_choice c currencies inputs
      = (map (choice_warning c 0) inputs, Stopped EOFError)).
Proof.
  cbn zeta.
  assert (Hmain :
    match get_user_currency_choice c currencies inputs with
    | (out, Answered entry rest) =>
        In entry currencies
        /\ exists skipped s choice,
             inputs = skipped ++ s :: rest
             /\ parse_int c s = Some choice
             /\ 1 <= choice <= Z.of_nat (length currencies)
             /\ nth_error currencies (Z.to_nat (choice - 1)) = Some entry
             /\ choice_refused c (length currencies) s = false
             /\ Forall (fun x => choice_refused c (length currencies) x = true)
                  skipped
             /\ out = map (choice_warning c (length currencies)) skipped
             /\ length out = length skipped
    | (out, Stopped i) =>
        i = EOFError
        /\ Forall (fun x => choice_refused c (length currencies) x = true) inputs
        /\ out = map (choice_warning c (length currencies)) inputs
        /\ length out = length inputs
    end).
  { induction inputs as [| s rest IH]; cbn [get_user_currency_choice].
    - repeat split. constructor.
    - assert (Hskip :
        choice_refused c (length currencies) s = true ->
        match (let '(out, r) := get_user_currency_choice c currencies rest in
               (choice_warning c (length currencies) s :: out, r)) with
        | (out, Answered entry rest') =>
            In entry currencies
            /\ exists skipped s' choice,
                 s :: rest = skipped ++ s' :: rest'
                 /\ parse_int c s' = Some choice
                 /\ 1 <= choice <= Z.of_nat (length currencies)
                 /\ nth_error currencies (Z.to_nat (choice - 1)) = Some entry
                 /\ choice_refused c (length currencies) s' = false
                 /\ Forall (fun x =>
                              choice_refused c (length currencies) x = true)
                      skipped
                 /\ out = map (choice_warning c (length currencies)) skipped
                 /\ length out = length skipped
        | (out, Stopped i) =>
            i = EOFError
            /\ Forall (fun x => choice_refused c (length currencies) x = true)
                 (s :: rest)
            /\ out = map (choice_warning c (length currencies)) (s :: rest)
            /\ length out = length (s :: rest)
        end).
      { intros Href.
        destruct (get_user_currency_choice c currencies rest)
          as [out [entry rest' | i]].
        - destruct IH
            as (Hin & skipped & s' & choice & -> & Hp & Hb & Hn & Hacc
                & Hall & -> & Hl).
          split; [exact Hin |]. exists (s :: skipped), s', choice. cbn.
          repeat split; auto; try lia; try (now rewrite length_map).
        - destruct IH as (-> & Hall & -> & Hl). cbn.
          repeat split; auto; try (now rewrite length_map). }
      unfold choice_refused, choice_warning in Hskip.
      destruct (parse_int c s) as [choice |] eqn:Hparse;
        [| apply Hskip; reflexivity].
      destruct ((1 <=? choice) && (choice <=? Z.of_nat (length currencies)))
        eqn:Hguard; [| apply Hskip; reflexivity].
      pose proof Hguard as Hguard'.
      apply andb_true_iff in Hguard as [Hlo Hhi].
      apply Z.leb_le in Hlo, Hhi.
      destruct (nth_error currencies (Z.to_nat (choice - 1)))
        as [entry |] eqn:Hn.
      + split; [exact (nth_error_In _ _ Hn) |].
        exists [], s, choice. unfold choice_refused.
        rewrite Hparse, Hguard'. repeat split; auto.
      + exfalso. apply nth_error_None in Hn. lia. }
  split; [exact Hmain |].
  intros ->. cbn [length] in Hmain.
  destruct (get_user_currency_choice c [] inputs) as [out [entry rest | i]].
  - destruct Hmain as [[] _].
  - destruct Hmain as (-> & _ & -> & _). reflexivity.
Qed.

Example choice_on_empty_list :
  get_user_currency_choice sample_console [] ["1"; "2"; "0"]
  = ([Text [Sym WarningSign;
            Lit " Invalid selection. Enter a number between 1 and ";
            Fmt (PInt 0)];
      Text [Sym WarningSign;
            Lit " Invalid selection. Enter a number between 1 and ";
            Fmt (PInt 0)];
      Text [Sym WarningSign;
            Lit " Invalid selection. Enter a number between 1 and ";
            Fmt (PInt 0)]],
     Stopped EOFError).
Proof. vm_compute. reflexivity. Qed.

(** ** The loop of main *)

Lemma consumed_step (s : string) (rest : list string) : consumed (s :: rest) rest.
Proof. exists [s]. split; [reflexivity | discriminate]. Qed.

Lemma consumed_more (s : string) (inputs rest : list string) :
  consumed inputs rest -> consumed (s :: inputs) rest.
Proof.
  intros (used & -> & _). exists (s :: used). split; [reflexivity | discriminate].
Qed.

Lemma consumed_trans (a b c : list string) :
  consumed a b -> consumed b c -> consumed a c.
Proof.
  intros (u1 & -> & H1) (u2 & -> & H2). exists (u1 ++ u2).
  split; [now rewrite app_assoc |].
  destruct u1; [contradiction | discriminate].
Qed.

Lemma consumed_length (inputs rest : list string) :
  consumed inputs rest -> (length rest < length inputs)%nat.
Proof.
  intros (used & -> & Hu). rewrite length_app.
  destruct used; [contradiction | cbn; lia].
Qed.

Lemma consumed_in (inputs rest : list string) (s : string) :
  consumed inputs rest -> In s rest -> In s inputs.
Proof. intros (used & -> & _) H. apply in_or_app. now right. Qed.

Lemma no_error_nil : no_error [].
Proof. intros err []. Qed.

Lemma no_error_app (a b : list output) :
  no_error a -> no_error b -> no_error (a ++ b).
Proof.
  intros Ha Hb err H. apply in_app_or in H as [H | H];
    [exact (Ha err H) | exact (Hb err H)].
Qed.

Lemma no_error_texts (out : list line) :
  Forall is_text out -> no_error (map Printed out).
Proof.
  intros Hall err H. apply in_map_iff in H as (l & E & Hin).
  assert (l = ConversionError err) by congruence. subst l.
  rewrite Forall_forall in Hall. exact (Hall _ Hin).
Qed.

Lemma no_error_cons_text (m : fstring) (out : list output) :
  no_error out -> no_error (Printed (Text m) :: out).
Proof. intros H err [E | Hin]; [discriminate E | exact (H err Hin)]. Qed.

Lemma amount_consumes (c : console) (inputs : list string) :
  match get_user_amount c inputs with
  | (out, Answered _ rest) => consumed inputs rest /\ Forall is_text out
  | (out, Stopped i) => i = EOFError /\ Forall is_text out
  end.
Proof.
  induction inputs as [| s rest IH]; cbn [get_user_amount].
  - split; [reflexivity | constructor].
  - assert (Hskip : forall m,
      match (let '(out, r) := get_user_amount c rest in (Text m :: out, r)) with
      | (out, Answered _ rest') => consumed (s :: rest) rest' /\ Forall is_text out
      | (out, Stopped i) => i = EOFError /\ Forall is_text out
      end).
    { intros m. destruct (get_user_amount c rest) as [out [a rest' | i]];
        destruct IH as [H1 H2]; split; auto using consumed_more;
        constructor; cbn; auto. }
    destruct (parse_float c s) as [amount |]; [| apply Hskip].
    destruct (PrimFloat.leb amount 0); [apply Hskip |].
    destruct (PrimFloat.ltb MAX_AMOUNT_float amount); [apply Hskip |].
    split; [apply consumed_step | constructor].
Qed.

Lemma choice_consumes (c : console) (currencies : list (string * string))
  (inputs : list string) :
  match get_user_currency_choice c currencies inputs with
  | (out, Answered entry rest) =>
      In entry currencies /\ consumed inputs rest /\ Forall is_text out
  | (out, Stopped i) => i = EOFError /\ Forall is_text out
  end.
Proof.
  induction inputs as [| s rest IH]; cbn [get_user_currency_choice].
  - split; [reflexivity | constructor].
  - assert (Hskip : forall m,
      match (let '(out, r) := get_user_currency_choice c currencies rest in
             (Text m :: out, r)) with
      | (out, Answered entry rest') =>
          In entry currencies /\ consumed (s :: rest) rest' /\ Forall is_text out
      | (out, Stopped i) => i = EOFError /\ Forall is_text out
      end).
    { intros m.
      destruct (get_user_currency_choice c currencies rest)
        as [out [entry rest' | i]].
      - destruct IH as (H1 & H2 & H3). repeat split; auto using consumed_more.
        constructor; cbn; auto.
      - destruct IH as [H1 H2]. split; auto. constructor; cbn; auto. }
    destruct (parse_int c s) as [choice |]; [| apply Hskip].
    destruct ((1 <=? choice) && (choice <=? Z.of_nat (length currencies)))
      eqn:Hguard; [| apply Hskip].
    apply andb_true_iff in Hguard as [Hlo Hhi].
    apply Z.leb_le in Hlo, Hhi.
    destruct (nth_error currencies (Z.to_nat (choice - 1))) as [entry |] eqn:Hn.
    + repeat split; [exact (nth_error_In _ _ Hn) | apply consumed_step
                     | constructor].
    + exfalso. apply nth_error_None in Hn. lia.
Qed.

Lemma ask_again_consumes (c : console) (inputs : list string) :
  match ask_again c inputs with
  | (out, Answered a rest) =>
      consumed inputs rest /\ no_error out
      /\ (a = Quit -> exists s, In s inputs /\ says_no c s = true)
  | (out, Stopped i) => i = EOFError /\ no_error out
  end.
Proof.
  induction inputs as [| s rest IH]; cbn [ask_again].
  - split; [reflexivity | apply no_error_nil].
  - destruct (one_of (strip_lower c s) ["yes"; "y"]).
    { repeat split; [apply consumed_step | apply no_error_nil | discriminate]. }
    destruct (one_of (strip_lower c s) ["no"; "n"]) eqn:Hno.
    { repeat split; [apply consumed_step | |].
      - intros err [E | []]. discriminate E.
      - intros _. exists s. split; [left; reflexivity | exact Hno]. }
    destruct (ask_again c rest) as [out [a rest' | i]].
    + destruct IH as (H1 & H2 & H3).
      split; [now apply consumed_more |].
      split; [now apply no_error_cons_text |].
      intros Hq. destruct (H3 Hq) as (s' & Hin & Hs). exists s'.
      split; [right; exact Hin | exact Hs].
    + destruct IH as [H1 H2]. split; [exact H1 |].
      now apply no_error_cons_text.
Qed.

(** One induction on the bound gives what the loop needs below: it ends
    when the bound exceeds the number of lines; it reports no conversion
    error when the conversions of menu pairs report none; it returns
    [True] only after an answer "no"; and nothing but the end of the
    input interrupts it. *)
Lemma main_loop_sound (c : console) (data : pyval)
  (currencies : list (string * string)) :
  forall fuel inputs,
    ((length inputs < fuel)%nat ->
     main_loop fuel c data currencies inputs <> None)
    /\ forall out e,
         main_loop fuel c data currencies inputs = Some (out, e) ->
         ((forall src tgt amount,
             In src currencies -> In tgt currencies ->
             Forall is_text (convert_and_show data src tgt amount)) ->
          no_error out)
         /\ (e = ReturnedTrue -> exists s, In s inputs /\ says_no c s = true)
         /\ (forall i, e = Interrupted i -> i = EOFError).
Proof.
  induction fuel as [| fuel IH]; intros inputs.
  { split; [intros H; inversion H | intros out e H; discriminate H]. }
  cbn [main_loop].
  pose proof (choice_consumes c currencies inputs) as H1.
  destruct (get_user_currency_choice c currencies inputs)
    as [out1 [src rest1 | i1]].
  2:{ destruct H1 as [-> Ht1]. split; [discriminate |].
      intros out e H. injection H as <- <-.
      split; [intros _; now apply no_error_texts |].
      split; [discriminate | intros i E; now injection E as <-]. }
  destruct H1 as (Hsrc & Hc1 & Ht1).
  pose proof (amount_consumes c rest1) as H2.
  destruct (get_user_amount c rest1) as [out2 [amount rest2 | i2]].
  2:{ destruct H2 as [-> Ht2]. split; [discriminate |].
      intros out e H. injection H as <- <-.
      split; [intros _ |].
      - apply no_error_app; [now apply no_error_texts |].
        apply no_error_cons_text. now apply no_error_texts.
      - split; [discriminate | intros i E; now injection E as <-]. }
  destruct H2 as (Hc2 & Ht2).
  pose proof (choice_consumes c currencies rest2) as H3.
  destruct (get_user_currency_choice c currencies rest2)
    as [out3 [tgt rest3 | i3]].
  2:{ destruct H3 as [-> Ht3]. split; [discriminate |].
      intros out e H. injection H as <- <-.
      split; [intros _ |].
      - apply no_error_app; [| now apply no_error_texts].
        apply no_error_app; [now apply no_error_texts |].
        apply no_error_cons_text. now apply no_error_texts.
      - split; [discriminate | intros i E; now injection E as <-]. }
  destruct H3 as (Htgt & Hc3 & Ht3).
  pose proof (consumed_trans _ _ _ Hc1 (consumed_trans _ _ _ Hc2 Hc3)) as Hc13.
  assert (Hshown : (forall src0 tgt0 amount0,
                      In src0 currencies -> In tgt0 currencies ->
                      Forall is_text (convert_and_show data src0 tgt0 amount0)) ->
                   no_error (((map Printed out1
                               ++ Printed (got_it (snd src)) :: map Printed out2)
                              ++ map Printed out3)
                             ++ map Printed (convert_and_show data src tgt amount))).
  { intros Hconv. apply no_error_app; [| apply no_error_texts; now apply Hconv].
    apply no_error_app; [| now apply no_error_texts].
    apply no_error_app; [now apply no_error_texts |].
    apply no_error_cons_text. now apply no_error_texts. }
  destruct (String.eqb (fst src) (fst tgt)).
  - destruct (IH rest3) as [IHfuel IHout]. split.
    + intros Hlen.
      assert (Hl : (length rest3 < fuel)%nat)
        by (pose proof (consumed_length _ _ Hc13); lia).
      specialize (IHfuel Hl).
      destruct (main_loop fuel c data currencies rest3) as [[o e'] |];
        [discriminate | contradiction].
    + intros out e H.
      destruct (main_loop fuel c data currencies rest3) as [[o e'] |];
        [| discriminate H].
      injection H as <- <-.
      destruct (IHout o e' eq_refl) as (Hne & Htrue & Hint).
      split; [intros Hconv; apply no_error_app; auto |].
      split; [| exact Hint].
      intros E. destruct (Htrue E) as (s & Hin & Hs). exists s.
      split; [exact (consumed_in _ _ _ Hc13 Hin) | exact Hs].
  - pose proof (ask_again_consumes c rest3) as H5.
    destruct (ask_again c rest3) as [out5 [[|] rest5 | i5]].
    + destruct H5 as (Hc5 & Hn5 & _).
      pose proof (consumed_trans _ _ _ Hc13 Hc5) as Hc15.
      destruct (IH rest5) as [IHfuel IHout]. split.
      * intros Hlen.
        assert (Hl : (length rest5 < fuel)%nat)
          by (pose proof (consumed_length _ _ Hc15); lia).
        specialize (IHfuel Hl).
        destruct (main_loop fuel c data currencies rest5) as [[o e'] |];
          [discriminate | contradiction].
      * intros out e H.
        destruct (main_loop fuel c data currencies rest5) as [[o e'] |];
          [| discriminate H].
        injection H as <- <-.
        destruct (IHout o e' eq_refl) as (Hne & Htrue & Hint).
        split; [intros Hconv; apply no_error_app;
                [apply no_error_app; auto | auto] |].
        split; [| exact Hint].
        intros E. destruct (Htrue E) as (s & Hin & Hs). exists s.
        split; [exact (consumed_in _ _ _ Hc15 Hin) | exact Hs].
    + destruct H5 as (Hc5 & Hn5 & Hquit). split; [discriminate |].
      intros out e H. injection H as <- <-.
      split; [intros Hconv; apply no_error_app; auto |].
      split; [| discriminate].
      intros _. destruct (Hquit eq_refl) as (s & Hin & Hs). exists s.
      split; [exact (consumed_in _ _ _ Hc13 Hin) | exact Hs].
    + destruct H5 as [-> Hn5]. split; [discriminate |].
      intros out e H. injection H as <- <-.
      split; [intros Hconv; apply no_error_app; auto |].
      split; [discriminate | intros i E; now injection E as <-].
Qed.

(** ** A whole session *)

Lemma main_entry_ready (w : world) (data : pyval) (missing : list string)
  (currencies : list (string * string)) :
  main_entry w = Ok (Ready data missing currencies) ->
  (exists m, run_status (main_startup w) = Ok m)
  /\ run_rates_data (main_startup w) = Some data
  /\ py_truthy data = true
  /\ get_available_currencies data = Ok currencies.
Proof.
  unfold main_entry. intros H. apply bind_ok in H as (m & Hm & H).
  destruct (run_rates_data (main_startup w)) as [active |]; [| discriminate].
  destruct (py_truthy active) eqn:Ht; cbn [negb] in H; [| discriminate].
  apply bind_ok in H as (miss & _ & H).
  apply bind_ok in H as (avail & Hav & H).
  destruct avail as [| entry rest]; [discriminate |].
  assert (E : Ready active miss (entry :: rest) = Ready data missing currencies)
    by now apply Ok_inj.
  assert (active = data /\ entry :: rest = currencies) as [-> <-]
    by (split; congruence).
  repeat split; eauto.
Qed.

(** A status message that was computed has read the display date of
    the active snapshot. *)
Lemma status_ok_has_date (w : world) (data : pyval) (m : fstring) :
  run_status (main_startup w) = Ok m ->
  run_rates_data (main_startup w) = Some data ->
  py_truthy data = true ->
  exists d, py_getitem data "date_fetched" = Ok d.
Proof.
  destruct (main_startup_fields w) as (Hi & _ & Hfresh & Hrates & Hstatus & _).
  rewrite Hrates, Hstatus, Hi, Hfresh.
  generalize (run_db_data (main_startup w)) as db.
  intros db Hs Hsel Ht.
  unfold select_rates_data in Hsel. unfold display_status_message in Hs.
  destruct (snd (check_internet w)).
  - destruct (truthy (snd (fetch_rates w))) eqn:Hf.
    + rewrite Hsel in Hs. cbn [subscript] in Hs.
      apply bind_ok in Hs as (d & Hd & _). eauto.
    + subst db. cbn [truthy] in Hs. rewrite Ht in Hs.
      apply bind_ok in Hs as (days & _ & Hs).
      destruct (7 <? days); apply bind_ok in Hs as (d & Hd & _); eauto.
  - cbn [truthy] in Hsel, Hs. subst db. cbn [truthy] in Hs. rewrite Ht in Hs.
    apply bind_ok in Hs as (days & _ & Hs).
    destruct (7 <? days); apply bind_ok in Hs as (d & Hd & _); eauto.
Qed.

Lemma convert_and_show_texts (data : pyval) (src tgt : string * string)
  (amount : float) :
  (exists x, perform_conversion data (fst src) (fst tgt) amount = Ok x) ->
  (exists d, py_getitem data "date_fetched" = Ok d) ->
  Forall is_text (convert_and_show data src tgt amount).
Proof.
  intros [x Hx] [d Hd]. unfold convert_and_show.
  destruct src as [sc sn], tgt as [tc tn]. cbn [fst] in Hx.
  destruct (String.eqb sc tc); [repeat constructor |].
  rewrite Hx, Hd. cbn [app]. repeat constructor.
Qed.

Lemma menu_pair_floats_ok (data : pyval) (rates : dict)
  (currencies : list (string * string)) (src tgt : string * string)
  (amount : float) :
  get_available_currencies data = Ok currencies ->
  py_getitem data "rates" = Ok (PDict rates) ->
  float_rates rates = true ->
  In src currencies -> In tgt currencies ->
  exists x, perform_conversion data (fst src) (fst tgt) amount = Ok x.
Proof.
  intros Hav Hr Hf Hs Ht.
  destruct (menu_pair_reaches_division data currencies src tgt amount Hav Hs Ht)
    as (d & rates' & vs & vt & -> & Hd & Hgs & Hgt & Hle & ->).
  cbn [py_getitem] in Hr. rewrite Hd in Hr. apply Ok_inj in Hr.
  assert (rates' = rates) by now inversion Hr. subst rates'.
  destruct (float_rates_get _ _ _ Hf Hgs) as [rs ->].
  destruct (float_rates_get _ _ _ Hf Hgt) as [rt ->].
  cbn in Hle. apply Ok_inj in Hle.
  rewrite (truediv_floats rt rs Hle). cbn [bind]. eauto.
Qed.

(** *** The loop without its bound *)

Lemma main_loop_S (fuel : nat) (c : console) (data : pyval)
  (currencies : list (string * string)) (inputs : list string) :
  main_loop (S fuel) c data currencies inputs
  = loop_turn c data currencies (main_loop fuel c data currencies) inputs.
Proof. reflexivity. Qed.

(** A turn asks for the rest of the loop only on lines left after some
    were read. *)
Lemma loop_turn_ext (c : console) (data : pyval)
  (currencies : list (string * string))
  (next next' : list string -> option (list output * loop_end))
  (inputs : list string) :
  (forall rest, consumed inputs rest -> next rest = next' rest) ->
  loop_turn c data currencies next inputs
  = loop_turn c data currencies next' inputs.
Proof.
  intros Hext. unfold loop_turn.
  pose proof (choice_consumes c currencies inputs) as H1.
  destruct (get_user_currency_choice c currencies inputs)
    as [out1 [src rest1 | i1]]; [| reflexivity].
  destruct H1 as (_ & Hc1 & _).
  pose proof (amount_consumes c rest1) as H2.
  destruct (get_user_amount c rest1) as [out2 [amount rest2 | i2]];
    [| reflexivity].
  destruct H2 as (Hc2 & _).
  pose proof (choice_consumes c currencies rest2) as H3.
  destruct (get_user_currency_choice c currencies rest2)
    as [out3 [tgt rest3 | i3]]; [| reflexivity].
  destruct H3 as (_ & Hc3 & _).
  pose proof (consumed_trans _ _ _ Hc1 (consumed_trans _ _ _ Hc2 Hc3)) as Hc13.
  destruct (String.eqb (fst src) (fst tgt)).
  - rewrite (Hext rest3 Hc13). reflexivity.
  - pose proof (ask_again_consumes c rest3) as H5.
    destruct (ask_again c rest3) as [out5 [[|] rest5 | i5]]; try reflexivity.
    destruct H5 as (Hc5 & _).
    rewrite (Hext rest5 (consumed_trans _ _ _ Hc13 Hc5)). reflexivity.
Qed.

(** Any bound above the number of lines gives the same session. *)
Lemma main_loop_fuel (c : console) (data : pyval)
  (currencies : list (string * string)) :
  forall fuel fuel' inputs,
    (length inputs < fuel)%nat -> (length inputs < fuel')%nat ->
    main_loop fuel c data currencies inputs
    = main_loop fuel' c data currencies inputs.
Proof.
  induction fuel as [| fuel IH]; intros fuel' inputs H H'; [lia |].
  destruct fuel' as [| fuel']; [lia |].
  rewrite !main_loop_S. apply loop_turn_ext.
  intros rest Hc. apply consumed_length in Hc. apply IH; lia.
Qed.

(** The session is one turn of the loop followed by the session on the
    lines that the turn leaves. *)
Lemma main_session_unfold (c : console) (data : pyval)
  (currencies : list (string * string)) (inputs : list string) :
  main_session c data currencies inputs
  = loop_turn c data currencies (main_session c data currencies) inputs.
Proof.
  unfold main_session at 1. rewrite main_loop_S. apply loop_turn_ext.
  intros rest Hc. apply consumed_length in Hc. unfold main_session.
  apply main_loop_fuel; lia.
Qed.

Lemma main_session_ends (c : console) (data : pyval)
  (currencies : list (string * string)) (inputs : list string) :
  exists out e, main_session c data currencies inputs = Some (out, e).
Proof.
  unfold main_session.
  destruct (main_loop_sound c data currencies (S (length inputs)) inputs)
    as [Hfuel _].
  destruct (main_loop (S (length inputs)) c data currencies inputs)
    as [[out e] |]; [eauto |].
  exfalso. apply Hfuel; [lia | reflexivity].
Qed.

(** What a turn with three answers adds to the session. *)
Lemma session_turn (c : console) (data : pyval)
  (currencies : list (string * string)) (inputs : list string)
  (out1 out2 out3 : list line) (src tgt : string * string) (amount : float)
  (rest1 rest2 rest3 : list string) :
  get_user_currency_choice c currencies inputs = (out1, Answered src rest1) ->
  get_user_amount c rest1 = (out2, Answered amount rest2) ->
  get_user_currency_choice c currencies rest2 = (out3, Answered tgt rest3) ->
  exists rest_out e,
    main_session c data currencies inputs
    = Some (map Printed out1
            ++ Printed (got_it (snd src)) :: map Printed out2
            ++ map Printed out3
            ++ map Printed (convert_and_show data src tgt amount)
            ++ rest_out, e)
    /\ goes_on c data currencies src tgt rest3 rest_out e.
Proof.
  intros H1 H2 H3. rewrite main_session_unfold. unfold loop_turn, goes_on.
  rewrite H1, H2, H3.
  destruct (String.eqb (fst src) (fst tgt)).
  - destruct (main_session_ends c data currencies rest3) as (o & e & E).
    rewrite E. exists o, e. split; [| reflexivity].
    repeat (rewrite <- app_assoc || rewrite <- app_comm_cons). reflexivity.
  - destruct (ask_again c rest3) as [out5 [[|] rest5 | i5]].
    + destruct (main_session_ends c data currencies rest5) as (o & e & E).
      rewrite E. exists (out5 ++ o), e. split; [| eauto].
      repeat (rewrite <- app_assoc || rewrite <- app_comm_cons). reflexivity.
    + exists out5, ReturnedTrue. split; [| auto].
      repeat (rewrite <- app_assoc || rewrite <- app_comm_cons). reflexivity.
    + exists out5, (Interrupted i5). split; [| auto].
      repeat (rewrite <- app_assoc || rewrite <- app_comm_cons). reflexivity.
Qed.

(** A request that neither the conversion nor the lookup of the date
    fails shows the refusal or the result. *)
Lemma convert_and_show_request (data : pyval) (src tgt : string * string)
  (amount : float) :
  (exists x, perform_conversion data (fst src) (fst tgt) amount = Ok x) ->
  (exists d, py_getitem data "date_fetched" = Ok d) ->
  request_shown data src tgt amount (convert_and_show data src tgt amount).
Proof.
  intros [x Hx] [d Hd]. unfold convert_and_show.
  destruct src as [sc sn], tgt as [tc tn]. cbn [fst] in Hx.
  destruct (String.eqb sc tc) eqn:E.
  - apply String.eqb_eq in E.
    exact (refused_same_currency data (sc, sn) (tc, tn) amount E).
  - apply String.eqb_neq in E. rewrite Hx, Hd.
    exact (result_shown data (sc, sn) (tc, tn) amount x d E Hx Hd).
Qed.

(** X13: When the start of [main] enters the loop on a snapshot whose rates
    are floats, the session ends on every finite input, no conversion
    error is ever reported in it, and the only thing that interrupts it
    is the end of the input.  Every request - a source, an amount and a
    target answered by the three prompts of a turn - is refused as a
    same-currency request or shows the result of [perform_conversion]
    with the "Rates as of" date of the snapshot: the session prints the
    warnings of the prompts, these lines, and goes on with the next
    turn or with the question whether to convert again. *)
Theorem session_reports_no_conversion_error (w : world) (data : pyval)
  (missing : list string) (currencies : list (string * string))
  (rates : dict) (c : console) (inputs : list string) :
  main_entry w = Ok (Ready data missing currencies) ->
  py_getitem data "rates" = Ok (PDict rates) ->
  float_rates rates = true ->
  (exists out e,
     main_session c data currencies inputs = Some (out, e)
     /\ (forall err, ~ In (Printed (ConversionError err)) out)
     /\ (forall i, e = Interrupted i -> i = EOFError))
  /\ forall out1 src rest1 out2 amount rest2 out3 tgt rest3,
       get_user_currency_choice c currencies inputs
       = (out1, Answered src rest1) ->
       get_user_amount c rest1 = (out2, Answered amount rest2) ->
       get_user_currency_choice c currencies rest2
       = (out3, Answered tgt rest3) ->
       exists lines rest_out e,
         request_shown data src tgt amount lines
         /\ main_session c data currencies inputs
            = Some (map Printed out1
                    ++ Printed (got_it (snd src)) :: map Printed out2
                    ++ map Printed out3
                    ++ map Printed lines
                    ++ rest_out, e)
         /\ goes_on c data currencies src tgt rest3 rest_out e.
Proof.
  intros Hentry Hr Hf.
  destruct (main_entry_ready _ _ _ _ Hentry) as ([m Hm] & Hactive & Ht & Hav).
  pose proof (status_ok_has_date w data m Hm Hactive Ht) as Hdate.
  split.
  - unfold main_session.
    destruct (main_loop_sound c data currencies (S (length inputs)) inputs)
      as [Hfuel Hout].
    destruct (main_loop (S (length inputs)) c data currencies inputs)
      as [[out e] |] eqn:E.
    + exists out, e. split; [reflexivity |].
      destruct (Hout out e eq_refl) as (Hne & _ & Hint).
      split; [| exact Hint]. apply Hne.
      intros src tgt amount Hs Htg.
      apply convert_and_show_texts; [| exact Hdate].
      now apply (menu_pair_floats_ok data rates currencies).
    + exfalso. apply Hfuel; [lia | reflexivity].
  - intros out1 src rest1 out2 amount rest2 out3 tgt rest3 H1 H2 H3.
    pose proof (choice_consumes c currencies inputs) as Hsrc.
    rewrite H1 in Hsrc. destruct Hsrc as (Hsrc & _).
    pose proof (choice_consumes c currencies rest2) as Htgt.
    rewrite H3 in Htgt. destruct Htgt as (Htgt & _).
    destruct (session_turn c data currencies inputs _ _ _ _ _ amount _ _ _
                H1 H2 H3) as (rest_out & e & E & Hgo).
    exists (convert_and_show data src tgt amount), rest_out, e.
    split; [| split; [exact E | exact Hgo]].
    apply convert_and_show_request; [| exact Hdate].
    now apply (menu_pair_floats_ok data rates currencies).
Qed.

Lemma session_reports_no_conversion_error_witness :
  let c := sample_console in
  let data := zero_rub_stamped in
  let currencies := [("USD", "US Dollar"); ("EUR", "Euro")] in
  let inputs := ["1"; "100"; "2"; " n "] in
  (exists out e,
     main_session c data currencies inputs = Some (out, e)
     /\ (forall err, ~ In (Printed (ConversionError err)) out)
     /\ (forall i, e = Interrupted i -> i = EOFError))
  /\ forall out1 src rest1 out2 amount rest2 out3 tgt rest3,
       get_user_currency_choice c currencies inputs
       = (out1, Answered src rest1) ->
       get_user_amount c rest1 = (out2, Answered amount rest2) ->
       get_user_currency_choice c currencies rest2
       = (out3, Answered tgt rest3) ->
       exists lines rest_out e,
         request_shown data src tgt amount lines
         /\ main_session c data currencies inputs
            = Some (map Printed out1
                    ++ Printed (got_it (snd src)) :: map Printed out2
                    ++ map Printed out3
                    ++ map Printed lines
                    ++ rest_out, e)
         /\ goes_on c data currencies src tgt rest3 rest_out e.
Proof.
  apply (session_reports_no_conversion_error zero_rub_world zero_rub_stamped
           ["RUB"] [("USD", "US Dollar"); ("EUR", "Euro")] zero_rub_rates
           sample_console ["1"; "100"; "2"; " n "]).
  - vm_compute. reflexivity.
  - reflexivity.
  - reflexivity.
Defined.

(** The session of the example: one request, its result with the date
    of the snapshot, and the farewell. *)
Example session_shows_result :
  main_session sample_console zero_rub_stamped
    [("USD", "US Dollar"); ("EUR", "Euro")] ["1"; "100"; "2"; " n "]
  = Some (Printed (got_it "US Dollar")
          :: map Printed
               (result_lines ("USD", "US Dollar") ("EUR", "Euro") 100 90
                  (PStr "08/25/25"))
          ++ [Farewell],
          ReturnedTrue).
Proof. vm_compute. reflexivity. Qed.

(** With an integer rate beyond the binary64 range the error of the
    division is caught by the handler of the loop and reported. *)
Example session_with_huge_int_rate :
  let data :=
    PDict [("rates", PDict [("USD", PInt 1); ("EUR", PInt (10 ^ 400))]);
           ("date_fetched", PStr "08/25/25")] in
  exists out,
    main_session sample_console data [("USD", "US Dollar"); ("EUR", "Euro")]
      ["1"; "100"; "2"; " n "] = Some (out, ReturnedTrue)
    /\ In (Printed (ConversionError OverflowError)) out.
Proof. vm_compute. eexists. split; [reflexivity |]. cbn. tauto. Qed.

(** ** The exit status *)

(** X14: On every finite input the program ends with status 0 or 1.  Status
    0 requires that the start of [main] reached the loop with a
    snapshot and a menu, and that a line of the input was read as "no"
    or "n"; in particular the status is 1 on an empty input. *)
Theorem exit_status_zero_needs_no (w : world) (c : console)
  (inputs : list string) :
  (exit_status w c inputs = Some 0 \/ exit_status w c inputs = Some 1)
  /\ (exit_status w c inputs = Some 0 ->
      (exists data missing currencies,
         main_entry w = Ok (Ready data missing currencies))
      /\ exists s, In s inputs /\ says_no c s = true).
Proof.
  unfold exit_status, main, main_session.
  destruct (main_entry w) as [[| | data missing currencies] | e];
    try (split; [right; reflexivity | discriminate]).
  destruct (main_loop_sound c data currencies (S (length inputs)) inputs)
    as [Hfuel Hout].
  destruct (main_loop (S (length inputs)) c data currencies inputs)
    as [[out [| i]] |] eqn:E.
  - split; [left; reflexivity |]. intros _. split; [eauto |].
    destruct (Hout out ReturnedTrue eq_refl) as (_ & Htrue & _).
    now apply Htrue.
  - split; [right; reflexivity | discriminate].
  - exfalso. apply Hfuel; [lia | reflexivity].
Qed.

(** ** The status message against the data *)

(** X15: The fallback message and [is_data_fresh] read the same age: when
    the message for a stored snapshot is computed, [is_data_fresh] does
    not fail on that snapshot; an "outdated" message implies that the
    snapshot is not fresh, and a fresh snapshot is reported "current".
    (At an age of exactly 7 days the snapshot is not fresh and yet
    "current".) *)
Theorem outdated_implies_not_fresh (w : world) (internet_available : bool)
  (data : pyval) (m : fstring) :
  display_status_message w internet_available (Some data) None = Ok m ->
  py_truthy data = true ->
  (exists fresh, is_data_fresh w data 7 = Ok fresh)
  /\ (mentions "outdated" m = true -> is_data_fresh w data 7 = Ok false)
  /\ (is_data_fresh w data 7 = Ok true -> mentions "current" m = true).
Proof.
  intros Hs Ht. unfold display_status_message in Hs.
  cbn [truthy] in Hs. rewrite Ht in Hs.
  assert (Hdays : exists days d,
             days_old_of w (Some data) = Ok days
             /\ m = (if 7 <? days
                     then [Sym WarningSign;
                           Lit (if internet_available
                                then " Data not updated, using outdated data (older than 7 days) as of "
                                else " No internet connection, using outdated data (older than 7 days) as of ");
                           Fmt d; Lit "."]
                     else [Sym CheckMark;
                           Lit (if internet_available
                                then " Data not updated, using current data as of "
                                else " No internet connection, using current data as of ");
                           Fmt d; Lit "."])).
  { destruct internet_available;
      apply bind_ok in Hs as (days & Hdays & Hs); exists days;
      destruct (7 <? days); apply bind_ok in Hs as (d & _ & Hs);
      apply Ok_inj in Hs; subst m; eauto. }
  destruct Hdays as (days & d & Hdays & ->).
  unfold days_old_of in Hdays. cbn [subscript] in Hdays.
  apply bind_ok in Hdays as (ts & Hts & Hdays).
  apply bind_ok in Hdays as (date & Hdate & Hdays).
  apply Ok_inj in Hdays. subst days.
  destruct (getitem_ok_dict _ _ _ Hts) as (dd & -> & Hget).
  assert (Hfresh : is_data_fresh w (PDict dd) 7
                   = Ok (timedelta_days (datetime_now w - date) <? 7)).
  { unfold is_data_fresh. cbn [py_in py_getitem]. unfold dict_mem.
    rewrite Hget. cbn [negb bind]. rewrite Hdate. reflexivity. }
  rewrite Hfresh. split; [eauto |].
  destruct (7 <? timedelta_days (datetime_now w - date)) eqn:Hold.
  - apply Z.ltb_lt in Hold.
    assert (Hnf : (timedelta_days (datetime_now w - date) <? 7) = false)
      by (apply Z.ltb_ge; lia).
    rewrite Hnf. split; [reflexivity | discriminate].
  - split.
    + intros H. destruct internet_available; vm_compute in H; discriminate H.
    + intros _. destruct internet_available; vm_compute; reflexivity.
Qed.

Lemma outdated_implies_not_fresh_witness :
  (exists fresh,
     is_data_fresh (old_store_world 10) (PDict (stamped_snapshot 10)) 7
     = Ok fresh)
  /\ (mentions "outdated"
        [Sym WarningSign;
         Lit " No internet connection, using outdated data (older than 7 days) as of ";
         Fmt (PStr "08/15/25"); Lit "."] = true ->
      is_data_fresh (old_store_world 10) (PDict (stamped_snapshot 10)) 7
      = Ok false)
  /\ (is_data_fresh (old_store_world 10) (PDict (stamped_snapshot 10)) 7
      = Ok true ->
      mentions "current"
        [Sym WarningSign;
         Lit " No internet connection, using outdated data (older than 7 days) as of ";
         Fmt (PStr "08/15/25"); Lit "."] = true).
Proof.
  apply (outdated_implies_not_fresh (old_store_world 10) false
           (PDict (stamped_snapshot 10))).
  - vm_compute. reflexivity.
  - reflexivity.
Defined.

(** X16: The glyph that opens the status message of a run tells what the run
    works with: the cross exactly when there is no active snapshot, the
    warning sign exactly when the message says "outdated", which only
    happens on a fallback to the store. *)
Theorem status_glyph_matches_data (w : world) (m : fstring) :
  run_status (main_startup w) = Ok m ->
  exists g text,
    m = Sym g :: text
    /\ (g = CrossMark <-> run_rates_data (main_startup w) = None)
    /\ (g = WarningSign <-> mentions "outdated" m = true)
    /\ (g = WarningSign ->
        run_fresh_data (main_startup w) = None
        /\ run_rates_data (main_startup w) = run_db_data (main_startup w)
        /\ run_db_data (main_startup w) <> None).
Proof.
  destruct (main_startup_fields w) as (Hi & Hdb & Hfresh & Hrates & Hstatus & _).
  rewrite Hrates, Hstatus, Hi, Hdb, Hfresh.
  pose proof (fetch_rates_truthy w) as Hft.
  pose proof (load_db_truthy w) as Hlt.
  unfold select_rates_data, display_status_message.
  assert (Hfallback : forall online d,
            py_truthy d = true ->
            forall m0,
              (days_old <- days_old_of w (Some d) ;;
               if 7 <? days_old
               then date <- subscript (Some d) "date_fetched" ;;
                    Ok [Sym WarningSign;
                        Lit (if online : bool
                             then " Data not updated, using outdated data (older than 7 days) as of "
                             else " No internet connection, using outdated data (older than 7 days) as of ");
                        Fmt date; Lit "."]
               else date <- subscript (Some d) "date_fetched" ;;
                    Ok [Sym CheckMark;
                        Lit (if online
                             then " Data not updated, using current data as of "
                             else " No internet connection, using current data as of ");
                        Fmt date; Lit "."]) = Ok m0 ->
              exists g text,
                m0 = Sym g :: text
                /\ (g = CrossMark <-> Some d = None)
                /\ (g = WarningSign <-> mentions "outdated" m0 = true)
                /\ (g = WarningSign ->
                    @None pyval = None /\ Some d = Some d /\ Some d <> None)).
  { intros online d _ m0 H. apply bind_ok in H as (days & _ & H).
    destruct (7 <? days); apply bind_ok in H as (date & _ & H);
      apply Ok_inj in H; subst m0; eexists; eexists;
      (split; [reflexivity |]);
      destruct online; cbn;
      repeat split; intros; try discriminate; auto. }
  destruct (snd (check_internet w)).
  - destruct (snd (fetch_rates w)) as [f |] eqn:Hf.
    + cbn [truthy]. rewrite (Hft f eq_refl). cbn [subscript]. intros H.
      apply bind_ok in H as (date & _ & H). apply Ok_inj in H. subst m.
      eexists; eexists. split; [reflexivity |].
      cbn. repeat split; intros; try discriminate.
    + cbn [truthy]. destruct (snd (load_db w)) as [d |] eqn:Hl.
      * cbn [truthy]. rewrite (Hlt d eq_refl). intros H.
        exact (Hfallback true d (Hlt d eq_refl) m H).
      * cbn [truthy]. intros H. apply Ok_inj in H. subst m.
        eexists; eexists. split; [reflexivity |].
        cbn. repeat split; intros; try discriminate; auto.
  - cbn [truthy]. destruct (snd (load_db w)) as [d |] eqn:Hl.
    + cbn [truthy]. rewrite (Hlt d eq_refl). intros H.
      exact (Hfallback false d (Hlt d eq_refl) m H).
    + cbn [truthy]. intros H. apply Ok_inj in H. subst m.
      eexists; eexists. split; [reflexivity |].
      cbn. repeat split; intros; try discriminate; auto.
Qed.

Lemma status_glyph_matches_data_witness :
  exists g text,
    [Sym WarningSign;
     Lit " No internet connection, using outdated data (older than 7 days) as of ";
     Fmt (PStr "08/15/25"); Lit "."] = Sym g :: text
    /\ (g = CrossMark <-> run_rates_data (main_startup (old_store_world 10)) = None)
    /\ (g = WarningSign
        <-> mentions "outdated"
              [Sym WarningSign;
               Lit " No internet connection, using outdated data (older than 7 days) as of ";
               Fmt (PStr "08/15/25"); Lit "."] = true)
    /\ (g = WarningSign ->
        run_fresh_data (main_startup (old_store_world 10)) = None
        /\ run_rates_data (main_startup (old_store_world 10))
           = run_db_data (main_startup (old_store_world 10))
        /\ run_db_data (main_startup (old_store_world 10)) <> None).
Proof.
  apply (status_glyph_matches_data (old_store_world 10)).
  vm_compute. reflexivity.
Defined.

(** ** Lookups without a guard *)

(** An exception that leaves [main] was raised before the loop. *)
Lemma main_raised_at_entry (w : world) (c : console) (inputs : list string)
  (e : exn) :
  main w c inputs = Some (Raised e) -> main_entry w = Raise e.
Proof.
  unfold main.
  destruct (main_entry w) as [[| | data missing currencies] | e'].
  - discriminate.
  - discriminate.
  - destruct (main_session c data currencies inputs) as [[out [| i]] |];
      discriminate.
  - intros H. apply (f_equal (fun o => match o with
                                       | Some (Raised x) => x
                                       | _ => e
                                       end)) in H.
    cbn in H. now rewrite H.
Qed.

Lemma main_session_end (c : console) (data : pyval)
  (currencies : list (string * string)) (inputs : list string)
  (out : list output) (e : loop_end) :
  main_session c data currencies inputs = Some (out, e) ->
  e = ReturnedTrue \/ e = Interrupted EOFError.
Proof.
  unfold main_session. intros H.
  destruct (main_loop_sound c data currencies (S (length inputs)) inputs)
    as [_ Hout].
  destruct (Hout out e H) as (_ & _ & Hint).
  destruct e as [| i]; [now left | right].
  now rewrite (Hint i eq_refl).
Qed.

(** C10 as stated fails for the result display: its lookup of
    ['date_fetched'] is inside the [try] block of the loop.  On the
    store of [unstamped_store_world], which [load_db] accepts and which
    has no ['date_fetched'], the loop reports the [KeyError] as a
    conversion error and goes on to return [True]; and a run with that
    store does not reach the loop, [main] being left by the [KeyError]
    of the status message. *)
Lemma result_display_key_error_caught_counterexample :
  snd (load_db unstamped_store_world) = Some example_snapshot
  /\ py_getitem example_snapshot "date_fetched"
     = Raise (KeyError "date_fetched")
  /\ (exists currencies out,
        get_available_currencies example_snapshot = Ok currencies
        /\ main_session sample_console example_snapshot currencies
             ["1"; "100"; "2"; " n "]
           = Some (out, ReturnedTrue)
        /\ In (Printed (ConversionError (KeyError "date_fetched"))) out)
  /\ forall c inputs,
       main unstamped_store_world c inputs
       = Some (Raised (KeyError "timestamp")).
Proof.
  split; [reflexivity |]. split; [reflexivity |]. split.
  - eexists. eexists. split; [vm_compute; reflexivity |].
    split; [vm_compute; reflexivity |]. cbn. tauto.
  - intros c inputs. unfold main.
    replace (main_entry unstamped_store_world)
      with (@Raise entry (KeyError "timestamp")) by (vm_compute; reflexivity).
    reflexivity.
Qed.

(** C10, amended: the validation of the store looks at the keys rates,
    base and date only.  There is a store file, accepted by [load_db],
    that has neither timestamp nor date_fetched; when it is the active
    snapshot the status message looks up ['timestamp'] without a guard
    and the [KeyError] leaves [main], which ends the program with status
    1 on every input.  The result display looks up ['date_fetched']
    without a guard too, but inside the [try] block: a [KeyError] raised
    there is reported as a conversion error, the loop ends only by
    returning [True] or at the end of the input, an exception that
    leaves [main] was raised before the loop, and in a run that reaches
    the loop the lookup succeeds and a converted request shows its
    result with that date. *)
Theorem key_error_leaves_main_from_status_only :
  (forall d,
     structurally_valid (PDict d)
     = dict_mem d "rates" && dict_mem d "base" && dict_mem d "date"
       && match dict_get d "rates" with
          | Some v => is_dict v
          | None => false
          end)
  /\ (exists w data,
        stored w = Contents data
        /\ snd (load_db w) = Some data
        /\ py_in "timestamp" data = Ok false
        /\ py_in "date_fetched" data = Ok false
        /\ run_rates_data (main_startup w) = Some data
        /\ run_status (main_startup w) = Raise (KeyError "timestamp")
        /\ main_entry w = Raise (KeyError "timestamp")
        /\ forall c inputs,
             main w c inputs = Some (Raised (KeyError "timestamp"))
             /\ exit_status w c inputs = Some 1)
  /\ (forall data src tgt amount res e,
        fst src <> fst tgt ->
        perform_conversion data (fst src) (fst tgt) amount = Ok res ->
        py_getitem data "date_fetched" = Raise e ->
        exists shown,
          convert_and_show data src tgt amount
          = shown
            ++ [ConversionError e;
                Text [Lit "Try selecting different currencies or updating data."]])
  /\ (forall c data currencies inputs out e,
        main_session c data currencies inputs = Some (out, e) ->
        e = ReturnedTrue \/ e = Interrupted EOFError)
  /\ (forall w c inputs e,
        main w c inputs = Some (Raised e) -> main_entry w = Raise e)
  /\ (forall w data missing currencies,
        main_entry w = Ok (Ready data missing currencies) ->
        exists date,
          py_getitem data "date_fetched" = Ok date
          /\ forall src tgt amount res,
               fst src <> fst tgt ->
               perform_conversion data (fst src) (fst tgt) amount = Ok res ->
               convert_and_show data src tgt amount
               = result_lines src tgt amount res date).
Proof.
  split; [exact structurally_valid_dict |].
  split.
  { exists unstamped_store_world, example_snapshot.
    assert (Hentry : main_entry unstamped_store_world
                     = Raise (KeyError "timestamp"))
      by (vm_compute; reflexivity).
    do 6 (split; [reflexivity |]). split; [exact Hentry |].
    intros c inputs. unfold exit_status, main. rewrite Hentry.
    split; reflexivity. }
  split.
  { intros data [sc sn] [tc tn] amount res e Hne Hconv Hdate.
    cbn [fst] in Hne, Hconv. unfold convert_and_show.
    apply String.eqb_neq in Hne. rewrite Hne, Hconv, Hdate.
    eexists. reflexivity. }
  split; [exact main_session_end |].
  split; [exact main_raised_at_entry |].
  intros w data missing currencies Hentry.
  destruct (main_entry_ready _ _ _ _ Hentry) as ([m Hm] & Hactive & Ht & _).
  destruct (status_ok_has_date w data m Hm Hactive Ht) as [date Hdate].
  exists date. split; [exact Hdate |].
  intros [sc sn] [tc tn] amount res Hne Hconv.
  cbn [fst] in Hne, Hconv. unfold convert_and_show.
  apply String.eqb_neq in Hne. rewrite Hne, Hconv, Hdate. reflexivity.
Qed.
